(** * Requirement analyzer: ambiguity detector, assumption detector and scorer

    A shallow embedding of [core/ambiguity_detector.py],
    [core/assumption_detector.py] and [core/scorer.py], and the properties
    of the scoring engine stated in the specification.

    Conventions of the embedding.
    - Python [str] is [string]; the texts considered are ASCII.
    - Python [float] and [int] scores are exact rationals ([Q]): every
      arithmetic operation of the scorer except [**] is rational.  The
      power operator [**] is a parameter [pow] of the readiness score.
    - The spaCy pipeline [self.nlp] is a parameter [nlp] of the detectors:
      it maps a text to its tokens.
    - Python dictionaries that are iterated in insertion order are
      association lists. *)

From Stdlib Require Import Bool List String Ascii Arith ZArith QArith Qround Lia Lqa Sorted.
Import ListNotations.

Local Open Scope string_scope.

(** ** Python built-ins used by the source *)

Module Py.

(** [str.lower] on ASCII letters. *)
Definition lower_ascii (c : ascii) : ascii :=
  let n := nat_of_ascii c in
  if (65 <=? n)%nat && (n <=? 90)%nat then ascii_of_nat (n + 32) else c.

Fixpoint lower (s : string) : string :=
  match s with
  | EmptyString => EmptyString
  | String c s' => String (lower_ascii c) (lower s')
  end.

(** [str.isascii]: every character is below 128.  On such a text
    [str.lower] changes the letters A-Z only and keeps every offset. *)
Fixpoint isascii (s : string) : bool :=
  match s with
  | EmptyString => true
  | String c s' => (nat_of_ascii c <? 128)%nat && isascii s'
  end.

(** The characters [str.split] and the regular expression class [\s]
    treat as white space (ASCII range). *)
Definition is_space (c : ascii) : bool :=
  let n := nat_of_ascii c in
  ((9 <=? n)%nat && (n <=? 13)%nat) || ((28 <=? n)%nat && (n <=? 32)%nat).

(** [str.split()] without argument: the maximal runs of characters that are
    not white space.  [cur] is the run being read, in reverse. *)
Definition flush (cur : list ascii) (acc : list string) : list string :=
  match cur with
  | [] => acc
  | _ :: _ => string_of_list_ascii (rev cur) :: acc
  end.

Fixpoint split_aux (s : string) (cur : list ascii) : list string :=
  match s with
  | EmptyString => flush cur []
  | String c s' =>
      if is_space c then flush cur (split_aux s' [])
      else split_aux s' (c :: cur)
  end.

Definition split (s : string) : list string := split_aux s [].

(** Truth value of a string: [if text]. *)
Definition truthy (s : string) : bool :=
  match s with EmptyString => false | String _ _ => true end.

(** [sub in s] on strings. *)
Definition contains (sub s : string) : bool :=
  match index 0 sub s with Some _ => true | None => false end.

(** [s.find(sub, start)] for a start that is not negative: the first
    position of [sub] at or after [start], and -1 when there is none. *)
Definition find (s sub : string) (start : nat) : Z :=
  match index start sub s with
  | Some n => Z.of_nat n
  | None => (-1)%Z
  end.

(** The slice [s[a:b]] for indices that are not negative. *)
Definition slice (s : string) (a b : nat) : string := substring a (b - a) s.

(** [x in l] for a list or set of strings. *)
Definition mem (x : string) (l : list string) : bool :=
  existsb (String.eqb x) l.

(** [any(p in s for p in l)]. *)
Definition any_in (l : list string) (s : string) : bool :=
  existsb (fun p => contains p s) l.

(** [d.get(k)] on a dictionary kept as an association list. *)
Fixpoint get {A : Type} (k : string) (d : list (string * A)) : option A :=
  match d with
  | [] => None
  | (k', v) :: d' => if String.eqb k k' then Some v else get k d'
  end.

Definition get_default {A : Type} (k : string) (d : list (string * A)) (dflt : A) : A :=
  match get k d with Some v => v | None => dflt end.

(** [s.replace(a, b)] for single characters. *)
Fixpoint replace_char (a b : ascii) (s : string) : string :=
  match s with
  | EmptyString => EmptyString
  | String c s' => String (if Ascii.eqb c a then b else c) (replace_char a b s')
  end.

(** Comparisons and [min]/[max] on numbers. *)
Definition gt (a b : Q) : bool := if Qlt_le_dec b a then true else false.
Definition lt (a b : Q) : bool := gt b a.
Definition ge (a b : Q) : bool := negb (lt a b).
Definition le (a b : Q) : bool := negb (gt a b).

Definition min (a b : Q) : Q := if lt b a then b else a.
Definition max (a b : Q) : Q := if gt b a then b else a.

(** [round(x, 1)]: to one decimal, ties to the even digit. *)
Definition round_half_even (y : Q) : Z :=
  let f := Qfloor y in
  let d := y - inject_Z f in
  if lt d (1#2) then f
  else if gt d (1#2) then (f + 1)%Z
  else if Z.even f then f else (f + 1)%Z.

Definition round1 (x : Q) : Q := Qmake (round_half_even (x * 10)) 10.

(** A natural number, and the number of elements of a list, as rationals. *)
Definition of_nat (n : nat) : Q := inject_Z (Z.of_nat n).

Definition len {A : Type} (l : list A) : Q := inject_Z (Z.of_nat (List.length l)).

(** [s.strip()]: without the white space at both ends. *)
Fixpoint lstrip (s : string) : string :=
  match s with
  | EmptyString => EmptyString
  | String c s' => if is_space c then lstrip s' else s
  end.

Definition reverse (s : string) : string :=
  string_of_list_ascii (rev (list_ascii_of_string s)).

Definition strip (s : string) : string := reverse (lstrip (reverse (lstrip s))).

(** A dictionary with integer keys, in insertion order: [d.get(k)],
    [d[k] = v] (an existing key keeps its place, a new one goes last) and
    [del d[k]]. *)
Fixpoint zget {A : Type} (k : Z) (d : list (Z * A)) : option A :=
  match d with
  | [] => None
  | (k', v) :: d' => if Z.eqb k k' then Some v else zget k d'
  end.

Fixpoint zset {A : Type} (k : Z) (v : A) (d : list (Z * A)) : list (Z * A) :=
  match d with
  | [] => [(k, v)]
  | (k', v') :: d' => if Z.eqb k k' then (k, v) :: d' else (k', v') :: zset k v d'
  end.

Fixpoint zdel {A : Type} (k : Z) (d : list (Z * A)) : list (Z * A) :=
  match d with
  | [] => []
  | (k', v') :: d' => if Z.eqb k k' then d' else (k', v') :: zdel k d'
  end.

End Py.

(** ** Regular expressions

    The patterns of the detectors use literals, alternation, [\d], [\s],
    [.], [+], [*] and [?].  Matching is by derivatives. *)

Module Re.

Inductive regex : Type :=
| Nul : regex
| Eps : regex
| Class : (ascii -> bool) -> regex
| Seq : regex -> regex -> regex
| Alt : regex -> regex -> regex
| Star : regex -> regex.

Fixpoint nullable (r : regex) : bool :=
  match r with
  | Nul => false
  | Eps => true
  | Class _ => false
  | Seq a b => nullable a && nullable b
  | Alt a b => nullable a || nullable b
  | Star _ => true
  end.

Definition seq (a b : regex) : regex :=
  match a, b with
  | Nul, _ => Nul
  | _, Nul => Nul
  | Eps, _ => b
  | _, _ => Seq a b
  end.

Definition alt (a b : regex) : regex :=
  match a, b with
  | Nul, _ => b
  | _, Nul => a
  | _, _ => Alt a b
  end.

Fixpoint deriv (c : ascii) (r : regex) : regex :=
  match r with
  | Nul => Nul
  | Eps => Nul
  | Class f => if f c then Eps else Nul
  | Seq a b =>
      if nullable a then alt (seq (deriv c a) b) (deriv c b)
      else seq (deriv c a) b
  | Alt a b => alt (deriv c a) (deriv c b)
  | Star a => seq (deriv c a) (Star a)
  end.

(** Pattern syntax. *)
Definition chr (c : ascii) : regex := Class (Ascii.eqb c).

Fixpoint lit (s : string) : regex :=
  match s with
  | EmptyString => Eps
  | String c s' => seq (chr c) (lit s')
  end.

Definition is_digit (c : ascii) : bool :=
  let n := nat_of_ascii c in (48 <=? n)%nat && (n <=? 57)%nat.

Definition digit : regex := Class is_digit.
Definition space : regex := Class Py.is_space.
(** [.] matches every character except the line feed. *)
Definition dot : regex := Class (fun c => negb (Ascii.eqb c "010"%char)).
Definition plus (r : regex) : regex := Seq r (Star r).
Definition opt (r : regex) : regex := Alt r Eps.

Fixpoint alts (l : list regex) : regex :=
  match l with
  | [] => Nul
  | [r] => r
  | r :: l' => Alt r (alts l')
  end.

(** Alternation of literals: [a|b|c]. *)
Definition words (l : list string) : regex := alts (map lit l).

(** Does a prefix of [s] match [r]? *)
Fixpoint match_prefix (r : regex) (s : string) : bool :=
  nullable r ||
  match r, s with
  | Nul, _ => false
  | _, EmptyString => false
  | _, String c s' => match_prefix (deriv c r) s'
  end.

(** [re.search(r, s)] as a truth value: some substring of [s] matches. *)
Fixpoint search (r : regex) (s : string) : bool :=
  match_prefix r s ||
  match s with
  | EmptyString => false
  | String _ s' => search r s'
  end.

(** Length of the longest prefix of [s] that matches [r]. *)
Fixpoint longest_prefix (r : regex) (s : string) : option nat :=
  let here := if nullable r then Some 0%nat else None in
  match r, s with
  | Nul, _ => None
  | _, EmptyString => here
  | _, String c s' =>
      match longest_prefix (deriv c r) s' with
      | Some n => Some (S n)
      | None => here
      end
  end.

(** [re.finditer(r, s)] as the list of spans [(start, end)], for patterns
    whose matches are never empty and whose leftmost match is the longest
    one, as it is for [literal.*literal]: scan from the left, take the
    longest match at the first position that has one, resume at its end.
    [skip] counts the characters still covered by the previous match. *)
Fixpoint finditer_from (r : regex) (s : string) (pos skip : nat) : list (nat * nat) :=
  match s with
  | EmptyString => []
  | String _ s' =>
      match skip with
      | S k => finditer_from r s' (S pos) k
      | O =>
          match longest_prefix r s with
          | Some (S n) => (pos, pos + S n)%nat :: finditer_from r s' (S pos) n
          | _ => finditer_from r s' (S pos) 0
          end
      end
  end.

Definition finditer (r : regex) (s : string) : list (nat * nat) :=
  finditer_from r s 0 0.

End Re.

(** ** core/ambiguity_detector.py *)

Module Ambiguity.

(** A token of the spaCy document: [token.text], [token.idx],
    [token.pos_] and [token.dep_]. *)
Record Token : Type := mkToken {
  tok_text : string;
  idx : nat;
  pos_ : string;
  dep_ : string
}.

Definition Doc : Type := list Token.

(** The tokenizer splits at white space: the text of a token holds none. *)
Definition spaceless (token : Token) : bool :=
  negb (existsb Py.is_space (list_ascii_of_string (tok_text token))).

Record AmbiguityIssue : Type := mkAmbiguityIssue {
  issue_type : string;
  issue_text : string;
  issue_message : string;
  start_char : option Z;
  end_char : option Z
}.

(** An entry of [AMBIGUITY_WEIGHTS] is a number or a nested dictionary. *)
Inductive weight_entry : Type :=
| Flat : Z -> weight_entry
| Nested : list (string * Z) -> weight_entry.

Definition AMBIGUITY_WEIGHTS : list (string * weight_entry) :=
  [ ("Subjective term", Nested
       [ ("performance", 6); ("quality", 5); ("usability", 8);
         ("reliability", 8); ("security", 9); ("scalability", 7);
         ("efficiency", 6); ("accuracy", 10); ("compatibility", 7);
         ("maintainability", 6) ]%Z);
    ("Weak modality", Nested
       [ ("possibility", 5); ("preference", 6); ("conditionality", 7);
         ("frequency", 4); ("probability", 6); ("tentativeness", 5) ]%Z);
    ("Undefined reference", Flat 9);
    ("Non-testable statement", Flat 15) ].

Definition subjective_terms : list string :=
  [ "fast"; "slow"; "quick"; "rapid"; "secure"; "safe"; "scalable";
    "optimal"; "efficient"; "user-friendly"; "intuitive"; "robust";
    "reliable"; "stable"; "flexible"; "portable"; "compatible";
    "accessible"; "responsive"; "smooth"; "seamless"; "clean";
    "proper"; "correct"; "appropriate"; "adequate"; "sufficient" ].

Definition weak_modality_terms : list string :=
  [ "should"; "could"; "might"; "may"; "can"; "if possible";
    "as needed"; "when necessary"; "ideally"; "preferably" ].

Definition undefined_references : list string :=
  [ "it"; "this"; "that"; "these"; "those"; "the system";
    "the component"; "the application"; "the user" ].

(** [literal.*literal] *)
Definition loose (a b : string) : Re.regex :=
  Re.seq (Re.lit a) (Re.seq (Re.Star Re.dot) (Re.lit b)).

Definition non_testable_patterns : list Re.regex :=
  [ loose "handle" "properly";
    loose "work" "correctly";
    loose "function" "properly";
    loose "behave" "correctly";
    loose "perform" "properly";
    loose "process" "correctly" ].

(** [\d+\s*r] *)
Definition number_then (r : Re.regex) : Re.regex :=
  Re.seq (Re.plus Re.digit) (Re.seq (Re.Star Re.space) r).

Definition quantitative_patterns : list Re.regex :=
  [ Re.plus Re.digit;
    number_then (Re.words ["ms"; "sec"; "second"; "minute"; "hour"; "day"]);
    number_then (Re.words ["%"; "percent"]);
    number_then (Re.words ["px"; "pixel"; "mb"; "gb"; "kb"]);
    number_then (Re.words ["user"; "request"; "transaction"; "operation"]);
    Re.words ["less than"; "greater than"; "at least"; "at most"];
    Re.seq (Re.plus Re.digit) (Re.seq (Re.chr ".") (Re.plus Re.digit));
    Re.words ["zero"; "one"; "two"; "three"; "four"; "five"; "six";
              "seven"; "eight"; "nine"; "ten"] ].

Definition timing_patterns : list Re.regex :=
  [ number_then (Re.words ["ms"; "millisecond"; "sec"; "second"; "minute"]);
    Re.words ["under"; "within"; "less than"; "no more than"];
    Re.words ["response time"; "load time"; "render time"];
    Re.Alt (number_then (Re.lit "fps")) (Re.lit "frames per second");
    Re.words ["latency"; "throughput"; "bandwidth"] ].

Definition security_patterns : list Re.regex :=
  [ Re.words ["encryption"; "ssl"; "tls"; "https"; "oauth"; "jwt"; "saml"];
    Re.words ["authentication"; "authorization"; "auth"];
    Re.words ["firewall"; "vpn"; "certificate"; "key"];
    Re.words ["sql injection"; "xss"; "csrf"; "attack"; "threat"];
    Re.words ["password"; "credential"; "token"; "session"];
    Re.words ["aes"; "rsa"; "sha"; "hash"; "salt"] ].

Definition usability_patterns : list Re.regex :=
  [ Re.words ["accessibility"; "wcag"; "contrast"; "font size"];
    Re.words ["click"; "tap"; "gesture"; "navigation"; "menu"];
    Re.words ["error message"; "feedback"; "guidance"];
    Re.words ["learning curve"; "training time"];
    Re.words ["efficiency"; "effectiveness"; "satisfaction"];
    Re.words ["task completion"; "success rate"; "error rate"] ].

Definition reliability_patterns : list Re.regex :=
  [ number_then (Re.seq (Re.words ["%"; "percent"])
                        (Re.seq (Re.Star Re.space) (Re.lit "uptime")));
    Re.words ["mean time"; "mtbf"; "mttr"];
    Re.words ["availability"; "sla"; "downtime"];
    Re.words ["redundancy"; "failover"; "backup"];
    Re.words ["error rate"; "failure rate"; "recovery"];
    Re.Alt (number_then (Re.lit "nines"))
           (Re.words ["five nines"; "four nines"]) ].

(** [a.?b] *)
Definition maybe_one_between (a b : string) : Re.regex :=
  Re.seq (Re.lit a) (Re.seq (Re.opt Re.dot) (Re.lit b)).

Definition scalability_patterns : list Re.regex :=
  [ number_then (Re.words ["user"; "request"; "transaction"; "connection"]);
    Re.words ["concurrent"; "simultaneous"; "parallel"];
    Re.alts [Re.lit "horizontal"; Re.lit "vertical"; maybe_one_between "auto" "scal"];
    Re.words ["load balanc"; "cluster"; "distributed"];
    Re.words ["peak"; "maximum"; "capacity"; "throughput"];
    Re.alts [Re.lit "elastic"; Re.lit "dynamic"; maybe_one_between "on" "demand"] ].

(** The loop [for pattern in patterns: if re.search(pattern, s): return True]. *)
Definition any_pattern (patterns : list Re.regex) (s : string) : bool :=
  existsb (fun p => Re.search p s) patterns.

Definition _get_context_window (token : Token) (text : string) (window_size : nat) : string :=
  let token_start := idx token in
  let token_end := (token_start + String.length (tok_text token))%nat in
  let search_start := (token_start - window_size)%nat in
  let search_end := Nat.min (String.length text) (token_end + window_size) in
  Py.slice text search_start search_end.

Definition _has_quantitative_context (token : Token) (doc : Doc) (text : string) : bool :=
  let token_start := idx token in
  let token_end := (token_start + String.length (tok_text token))%nat in
  let search_start := (token_start - 50)%nat in
  let search_end := Nat.min (String.length text) (token_end + 50) in
  let context_window := Py.lower (Py.slice text search_start search_end) in
  any_pattern quantitative_patterns context_window.

Definition _has_performance_context (token : Token) (doc : Doc) (text : string) : bool :=
  any_pattern timing_patterns (Py.lower (_get_context_window token text 100)).

Definition _has_security_context (token : Token) (doc : Doc) (text : string) : bool :=
  any_pattern security_patterns (Py.lower (_get_context_window token text 150)).

Definition _has_usability_context (token : Token) (doc : Doc) (text : string) : bool :=
  any_pattern usability_patterns (Py.lower (_get_context_window token text 100)).

Definition _has_reliability_context (token : Token) (doc : Doc) (text : string) : bool :=
  any_pattern reliability_patterns (Py.lower (_get_context_window token text 100)).

Definition _has_scalability_context (token : Token) (doc : Doc) (text : string) : bool :=
  any_pattern scalability_patterns (Py.lower (_get_context_window token text 100)).

(** [str.find] does not raise on a string argument, so the [except]
    branch that returns [None] is never taken: the result is always a
    number, -1 when the token text does not occur. *)
Definition _find_char_position (original_text token_text : string) (token_idx : nat) : option Z :=
  Some (Py.find (Py.lower original_text) token_text token_idx).

(** [start_char + len(token.text) if start_char is not None else None] *)
Definition end_of (start : option Z) (token_text : string) : option Z :=
  match start with
  | Some s => Some (s + Z.of_nat (String.length token_text))%Z
  | None => None
  end.

Definition should_flag (token : Token) (doc : Doc) (original_text : string) : bool :=
  let token_text := Py.lower (tok_text token) in
  if String.eqb token_text "fast" then
    negb (_has_performance_context token doc original_text)
  else if Py.mem token_text ["secure"; "safe"] then
    negb (_has_security_context token doc original_text)
  else if String.eqb token_text "user-friendly" then
    negb (_has_usability_context token doc original_text)
  else if String.eqb token_text "reliable" then
    negb (_has_reliability_context token doc original_text)
  else if String.eqb token_text "scalable" then
    negb (_has_scalability_context token doc original_text)
  else
    negb (_has_quantitative_context token doc original_text).

Definition subjective_issue (token : Token) (original_text : string) : AmbiguityIssue :=
  let start := _find_char_position original_text (tok_text token) (idx token) in
  {| issue_type := "Subjective term";
     issue_text := tok_text token;
     issue_message := "Subjective term '" ++ tok_text token
                        ++ "' lacks specific, measurable criteria";
     start_char := start;
     end_char := end_of start (tok_text token) |}.

Definition _detect_subjective_terms (doc : Doc) (original_text : string) : list AmbiguityIssue :=
  flat_map (fun token =>
    if Py.mem (Py.lower (tok_text token)) subjective_terms
       && should_flag token doc original_text
    then [subjective_issue token original_text] else []) doc.

Definition weak_modality_issue (token : Token) (original_text : string) : AmbiguityIssue :=
  let start := _find_char_position original_text (tok_text token) (idx token) in
  {| issue_type := "Weak modality";
     issue_text := tok_text token;
     issue_message := "Optional/weak requirement term: '" ++ tok_text token ++ "'";
     start_char := start;
     end_char := end_of start (tok_text token) |}.

Definition _detect_weak_modality (doc : Doc) (original_text : string) : list AmbiguityIssue :=
  flat_map (fun token =>
    if Py.mem (tok_text token) weak_modality_terms
    then [weak_modality_issue token original_text] else []) doc.

Definition _is_undefined_reference (token : Token) (doc : Doc) : bool :=
  String.eqb (pos_ token) "PRON" || Py.mem (dep_ token) ["det"; "poss"].

Definition undefined_reference_issue (token : Token) (original_text : string) : AmbiguityIssue :=
  let start := _find_char_position original_text (tok_text token) (idx token) in
  {| issue_type := "Undefined reference";
     issue_text := tok_text token;
     issue_message := "Potentially undefined reference: '" ++ tok_text token ++ "'";
     start_char := start;
     end_char := end_of start (tok_text token) |}.

Definition _detect_undefined_references (doc : Doc) (original_text : string) : list AmbiguityIssue :=
  flat_map (fun token =>
    if Py.mem (tok_text token) undefined_references
       && _is_undefined_reference token doc
    then [undefined_reference_issue token original_text] else []) doc.

Definition non_testable_issue (text_lower : string) (span : nat * nat) : AmbiguityIssue :=
  let group := Py.slice text_lower (fst span) (snd span) in
  {| issue_type := "Non-testable statement";
     issue_text := group;
     issue_message := "Non-testable requirement: '" ++ group ++ "'";
     start_char := Some (Z.of_nat (fst span));
     end_char := Some (Z.of_nat (snd span)) |}.

Definition _detect_non_testable_statements (text : string) : list AmbiguityIssue :=
  let text_lower := Py.lower text in
  flat_map (fun pattern =>
    map (non_testable_issue text_lower) (Re.finditer pattern text_lower))
    non_testable_patterns.

Section Detector.

(** The spaCy pipeline [self.nlp]. *)
Variable nlp : string -> Doc.

Definition detect_ambiguities (text : string) : list AmbiguityIssue :=
  let doc := nlp (Py.lower text) in
  _detect_subjective_terms doc text
  ++ _detect_weak_modality doc text
  ++ _detect_undefined_references doc text
  ++ _detect_non_testable_statements text.

End Detector.

(** *** Scoring *)

Definition category_mapping : list (string * list string) :=
  [ ("performance",
     [ "fast"; "slow"; "quick"; "rapid"; "speedy"; "swift"; "brisk";
       "sluggish"; "laggy"; "smooth"; "responsive"; "snappy"; "nimble";
       "agile"; "zippy"; "crawling"; "glacial"; "lethargic"; "tardy";
       "delayed"; "unresponsive"; "clunky"; "fluid"; "seamless"; "effortless";
       "lightning"; "blazing"; "superfast"; "ultrafast" ]);
    ("quality",
     [ "good"; "bad"; "better"; "best"; "worse"; "worst"; "excellent";
       "poor"; "superior"; "inferior"; "great"; "terrible"; "superb"; "awful";
       "outstanding"; "mediocre"; "exceptional"; "subpar"; "premium";
       "low-quality"; "high-quality"; "top-notch"; "first-rate"; "second-rate";
       "world-class"; "substandard"; "impressive"; "dismal"; "stellar";
       "pathetic"; "magnificent"; "shoddy"; "splendid"; "lousy" ]);
    ("usability",
     [ "easy"; "hard"; "simple"; "complex"; "intuitive"; "confusing";
       "user-friendly"; "difficult"; "straightforward"; "complicated";
       "accessible"; "inaccessible"; "ergonomic"; "awkward"; "natural";
       "unnatural"; "obvious"; "non-obvious"; "self-explanatory"; "puzzling";
       "clear"; "unclear"; "transparent"; "opaque"; "learnable"; "steep";
       "gentle"; "frustrating"; "pleasing"; "annoying" ]);
    ("reliability",
     [ "reliable"; "unreliable"; "robust"; "fragile"; "stable"; "unstable";
       "consistent"; "inconsistent"; "dependable"; "flaky"; "trustworthy";
       "untrustworthy"; "solid"; "breakable"; "steady"; "erratic";
       "predictable"; "unpredictable"; "bulletproof"; "vulnerable";
       "resilient"; "brittle"; "fault-tolerant"; "failure-prone" ]);
    ("security",
     [ "secure"; "insecure"; "safe"; "unsafe"; "protected"; "vulnerable";
       "trustworthy"; "risky"; "encrypted"; "exposed"; "guarded"; "defenseless";
       "fortified"; "weak"; "tamper-proof"; "hackable"; "authenticated";
       "unauthenticated"; "authorized"; "unauthorized"; "validated";
       "unvalidated"; "sanitized"; "contaminated" ]);
    ("scalability",
     [ "scalable"; "non-scalable"; "flexible"; "rigid"; "adaptable";
       "inflexible"; "extensible"; "limited"; "expandable"; "constrained";
       "elastic"; "static"; "dynamic"; "fixed"; "modular"; "monolithic";
       "distributed"; "centralized"; "cloud-ready"; "on-premise";
       "horizontal"; "vertical"; "auto-scaling"; "manual" ]);
    ("efficiency",
     [ "efficient"; "inefficient"; "optimal"; "suboptimal"; "effective";
       "ineffective"; "productive"; "wasteful"; "streamlined"; "cumbersome";
       "lean"; "bloated"; "concise"; "verbose"; "succinct"; "redundant";
       "economical"; "extravagant"; "frugal"; "lavish"; "thrifty"; "wasteful";
       "resourceful"; "profligate" ]);
    ("accuracy",
     [ "accurate"; "inaccurate"; "precise"; "imprecise"; "exact"; "inexact";
       "correct"; "incorrect"; "right"; "wrong"; "valid"; "invalid"; "true";
       "false"; "factual"; "erroneous"; "authentic"; "fake"; "genuine";
       "counterfeit"; "legitimate"; "bogus" ]);
    ("compatibility",
     [ "compatible"; "incompatible"; "interoperable"; "non-interoperable";
       "universal"; "proprietary"; "standard"; "custom"; "open"; "closed";
       "cross-platform"; "platform-specific"; "vendor-neutral";
       "vendor-locked"; "agnostic"; "dependent" ]);
    ("maintainability",
     [ "maintainable"; "unmaintainable"; "modular"; "monolithic";
       "clean"; "messy"; "readable"; "unreadable"; "organized";
       "disorganized"; "structured"; "chaotic"; "documented";
       "undocumented"; "testable"; "untestable"; "debuggable"; "opaque" ]) ].

(** The loop over [category_mapping.items()]: the first category whose
    term list holds the text decides. *)
Fixpoint first_category (issue_text : string) (m : list (string * list string)) : option string :=
  match m with
  | [] => None
  | (category, terms) :: m' =>
      if Py.mem issue_text terms then Some category
      else first_category issue_text m'
  end.

Definition _get_subjective_term_weight (issue : AmbiguityIssue) (category_weights : list (string * Z)) : Z :=
  if negb (String.eqb (issue_type issue) "Subjective term") then 8%Z
  else
    let issue_text := Py.lower (issue_text issue) in
    match first_category issue_text category_mapping with
    | Some category => Py.get_default category category_weights 8%Z
    | None => Py.get_default "quality" category_weights 8%Z
    end.

(** The weight one issue adds to [base_score]; an issue whose type is not a
    key of [AMBIGUITY_WEIGHTS] adds nothing. *)
Definition issue_weight (issue : AmbiguityIssue) : Z :=
  match Py.get (issue_type issue) AMBIGUITY_WEIGHTS with
  | Some (Nested d) => _get_subjective_term_weight issue d
  | Some (Flat w) => w
  | None => 0%Z
  end.

(** [len(text.split()) if text else 50] *)
Definition text_length_or_50 (text : string) : nat :=
  if Py.truthy text then List.length (Py.split text) else 50%nat.

Definition _calculate_component_score (component_issues : list AmbiguityIssue)
    (text component_type : string) : Q :=
  match component_issues with
  | [] => 0
  | _ :: _ =>
      let base_score :=
        fold_left (fun acc issue => (acc + issue_weight issue)%Z) component_issues 0%Z in
      let text_length := text_length_or_50 text in
      let density_factor := Py.len component_issues / Py.of_nat (Nat.max text_length 5) in
      let density_score :=
        if String.eqb component_type "lexical" then Py.min 30 (density_factor * 60)
        else if String.eqb component_type "testability" then Py.min 40 (density_factor * 80)
        else Py.min 35 (density_factor * 70) in
      let raw_score := inject_Z base_score + density_score in
      if Py.gt raw_score 80 then 80 + (raw_score - 80) * 0.3
      else Py.min 100 raw_score
  end.

(** The parts of the lexical component score: the sum of the weights, the
    density term and the final normalization.  For a non-empty issue list
    the score is [normalize (sum_weights issues + lexical_density ...)]. *)
Definition sum_weights (issues : list AmbiguityIssue) : Z :=
  fold_left (fun acc issue => (acc + issue_weight issue)%Z) issues 0%Z.

Definition lexical_density (issue_count text_length : nat) : Q :=
  Py.min 30 (Py.of_nat issue_count / Py.of_nat (Nat.max text_length 5) * 60).

Definition normalize (raw_score : Q) : Q :=
  if Py.gt raw_score 80 then 80 + (raw_score - 80) * 0.3 else Py.min 100 raw_score.

(** [len(set(issue.type for issue in issues))] *)
Definition distinct_types (issues : list AmbiguityIssue) : nat :=
  List.length (nodup string_dec (map issue_type issues)).

Definition _calculate_confidence (text : string) (issues : list AmbiguityIssue) : string :=
  let text_length := List.length (Py.split text) in
  let issue_count := List.length issues in
  let issue_types := distinct_types issues in
  if (10 <=? text_length)%nat && (2 <=? issue_types)%nat
     && Py.le (Py.of_nat issue_count / Py.of_nat (Nat.max text_length 1)) 0.5
  then "HIGH"
  else if (5 <=? text_length)%nat && (0 <? issue_count)%nat then "MEDIUM"
  else "LOW".

Record Components : Type := mkComponents {
  lexical : Q;
  testability : Q;
  references : Q
}.

Record AmbiguityAnalysis : Type := mkAmbiguityAnalysis {
  score : Q;
  confidence : string;
  components : Components
}.

(** The loop of [calculate_ambiguity_score] that sorts the issues into the
    three lists. *)
Definition categorize_step (acc : list AmbiguityIssue * list AmbiguityIssue * list AmbiguityIssue)
    (issue : AmbiguityIssue) :=
  let '(lexical_issues, testability_issues, reference_issues) := acc in
  if String.eqb (issue_type issue) "Subjective term" then
    ((lexical_issues ++ [issue])%list, testability_issues, reference_issues)
  else if String.eqb (issue_type issue) "Non-testable statement" then
    (lexical_issues, (testability_issues ++ [issue])%list, reference_issues)
  else if String.eqb (issue_type issue) "Undefined reference" then
    (lexical_issues, testability_issues, (reference_issues ++ [issue])%list)
  else if String.eqb (issue_type issue) "Weak modality" then
    ((lexical_issues ++ [issue])%list, (testability_issues ++ [issue])%list, reference_issues)
  else acc.

Definition categorize (issues : list AmbiguityIssue) :=
  fold_left categorize_step issues ([], [], []).

(** The statements after the [return] of the source are never executed
    and are not part of the embedding. *)
Definition calculate_ambiguity_score (issues : list AmbiguityIssue) (text : string) : AmbiguityAnalysis :=
  match issues with
  | [] =>
      {| score := 0.0; confidence := "HIGH";
         components := {| lexical := 0.0; testability := 0.0; references := 0.0 |} |}
  | _ :: _ =>
      let '(lexical_issues, testability_issues, reference_issues) := categorize issues in
      let lexical_score := _calculate_component_score lexical_issues text "lexical" in
      let testability_score := _calculate_component_score testability_issues text "testability" in
      let reference_score := _calculate_component_score reference_issues text "references" in
      let overall_score := lexical_score * 0.3 + testability_score * 0.5 + reference_score * 0.2 in
      let confidence := _calculate_confidence text issues in
      {| score := Py.round1 overall_score;
         confidence := confidence;
         components := {| lexical := Py.round1 lexical_score;
                          testability := Py.round1 testability_score;
                          references := Py.round1 reference_score |} |}
  end.

End Ambiguity.

(** ** core/assumption_detector.py *)

Module Assumption.

Record AssumptionIssue : Type := mkAssumptionIssue {
  issue_type : string;
  category : string;
  issue_text : string;
  issue_message : string;
  assumption : string
}.

Definition ASSUMPTION_WEIGHTS : list (string * list (string * Z)) :=
  [ ("Environment",
     [ ("UI interaction", 14); ("browsers", 12); ("devices", 12);
       ("operating_systems", 11); ("network", 10); ("display", 9);
       ("databases", 15); ("apis", 12); ("cloud_providers", 11) ]%Z);
    ("Data",
     [ ("user_exists", 10); ("credentials_exist", 11); ("form_filled", 8);
       ("data_entered", 9); ("record_exists", 9); ("data_exists", 8);
       ("file_exists", 9); ("recipient_exists", 8); ("sender_exists", 8);
       ("task_exists", 8); ("item_exists", 7); ("issue_exists", 8) ]%Z);
    ("State",
     [ ("user_logged_in", 13); ("permissions_granted", 14);
       ("condition_exists", 9); ("error_trigger", 10);
       ("failure_condition", 9); ("admin_role", 11); ("manager_role", 10);
       ("user_role", 10); ("account_active", 12); ("form_valid", 8);
       ("space_available", 8) ]%Z) ].

Definition action_patterns : list (string * list string) :=
  [ ("login", ["user_exists"; "credentials_exist"]);
    ("log in", ["user_exists"; "credentials_exist"]);
    ("sign in", ["user_exists"; "credentials_exist"]);
    ("authenticate", ["user_exists"; "credentials_exist"]);
    ("logout", ["user_logged_in"]);
    ("log out", ["user_logged_in"]);
    ("sign out", ["user_logged_in"]);
    ("navigate", ["user_logged_in"]);
    ("access", ["user_logged_in"; "permissions_granted"]);
    ("view", ["user_logged_in"; "permissions_granted"]);
    ("see", ["user_logged_in"; "permissions_granted"]);
    ("visit", ["user_logged_in"]);
    ("go to", ["user_logged_in"]);
    ("open", ["user_logged_in"]);
    ("enter", ["user_logged_in"]);
    ("browse", ["user_logged_in"]);
    ("submit", ["form_filled"; "user_logged_in"]);
    ("save", ["data_entered"; "user_logged_in"]);
    ("update", ["record_exists"; "user_logged_in"; "permissions_granted"]);
    ("delete", ["record_exists"; "user_logged_in"; "permissions_granted"]);
    ("edit", ["record_exists"; "user_logged_in"; "permissions_granted"]);
    ("modify", ["record_exists"; "user_logged_in"; "permissions_granted"]);
    ("create", ["user_logged_in"; "permissions_granted"]);
    ("add", ["user_logged_in"; "permissions_granted"]);
    ("insert", ["user_logged_in"; "permissions_granted"]);
    ("search", ["user_logged_in"]);
    ("filter", ["user_logged_in"]);
    ("sort", ["user_logged_in"]);
    ("find", ["user_logged_in"]);
    ("query", ["user_logged_in"]);
    ("lookup", ["user_logged_in"]);
    ("verify", ["condition_exists"; "user_logged_in"]);
    ("check", ["condition_exists"; "user_logged_in"]);
    ("validate", ["data_exists"; "user_logged_in"]);
    ("confirm", ["condition_exists"; "user_logged_in"]);
    ("ensure", ["condition_exists"; "user_logged_in"]);
    ("assert", ["condition_exists"; "user_logged_in"]);
    ("test", ["condition_exists"; "user_logged_in"]);
    ("upload", ["file_exists"; "user_logged_in"]);
    ("download", ["file_exists"; "user_logged_in"; "permissions_granted"]);
    ("export", ["data_exists"; "user_logged_in"]);
    ("import", ["file_exists"; "user_logged_in"; "permissions_granted"]);
    ("attach", ["file_exists"; "user_logged_in"]);
    ("share", ["file_exists"; "user_logged_in"; "permissions_granted"]);
    ("send", ["recipient_exists"; "user_logged_in"]);
    ("receive", ["sender_exists"]);
    ("message", ["communication_setup"]);
    ("email", ["recipient_exists"; "user_logged_in"]);
    ("notify", ["recipient_exists"; "user_logged_in"]);
    ("contact", ["recipient_exists"; "user_logged_in"]);
    ("communicate", ["communication_setup"]);
    ("admin", ["admin_role"; "user_logged_in"]);
    ("manager", ["manager_role"; "user_logged_in"]);
    ("administrator", ["admin_role"; "user_logged_in"]);
    ("supervisor", ["manager_role"; "user_logged_in"]);
    ("error", ["error_trigger"]);
    ("fail", ["failure_condition"]);
    ("crash", ["error_trigger"]);
    ("break", ["error_trigger"]);
    ("handle", ["error_trigger"]);
    ("recover", ["failure_condition"]);
    ("configure", ["admin_role"; "user_logged_in"]);
    ("setup", ["admin_role"; "user_logged_in"]);
    ("customize", ["user_logged_in"]);
    ("personalize", ["user_logged_in"]);
    ("settings", ["user_logged_in"]);
    ("preferences", ["user_logged_in"]);
    ("report", ["data_exists"; "user_logged_in"; "permissions_granted"]);
    ("analytics", ["data_exists"; "user_logged_in"; "permissions_granted"]);
    ("dashboard", ["user_logged_in"]);
    ("metrics", ["data_exists"; "user_logged_in"; "permissions_granted"]);
    ("statistics", ["data_exists"; "user_logged_in"; "permissions_granted"]);
    ("integrate", ["external_service_exists"]);
    ("connect", ["external_service_exists"]);
    ("sync", ["external_service_exists"]);
    ("api", ["api_access_configured"]);
    ("webhook", ["webhook_configured"]);
    ("callback", ["callback_configured"]) ].

Definition assumption_descriptions : list (string * string) :=
  [ ("user_exists", "Valid test user exists in the system");
    ("credentials_exist", "User credentials are available and valid");
    ("user_logged_in", "User is already authenticated/logged in");
    ("permissions_granted", "User has necessary permissions for the action");
    ("form_filled", "Form is already filled with valid data");
    ("data_entered", "Required data has been entered");
    ("record_exists", "Target record exists in the system");
    ("condition_exists", "Condition to verify is present");
    ("data_exists", "Required data exists for validation");
    ("error_trigger", "Error condition can be triggered");
    ("failure_condition", "Failure scenario can be reproduced");
    ("admin_role", "Admin user role is available");
    ("manager_role", "Manager user role is available");
    ("user_role", "Regular user role is available");
    ("file_exists", "Required file exists for the operation");
    ("recipient_exists", "Message recipient exists");
    ("sender_exists", "Message sender exists");
    ("communication_setup", "Communication channel is configured");
    ("external_service_exists", "External service or API is available and accessible");
    ("api_access_configured", "API access credentials and endpoints are configured");
    ("webhook_configured", "Webhook endpoints are set up and accessible");
    ("callback_configured", "Callback mechanisms are properly configured") ].

Definition environment_indicators : list string :=
  [ "browser"; "chrome"; "firefox"; "safari"; "edge";
    "mobile"; "desktop"; "tablet"; "ios"; "android";
    "windows"; "mac"; "linux"; "device"; "network" ].

Definition explicit_indicators : list (string * list string) :=
  [ ("user_exists", ["user exists"; "test user"; "valid user"]);
    ("credentials_exist", ["credentials"; "password"; "login details"]);
    ("user_logged_in", ["logged in"; "authenticated"; "signed in"]);
    ("permissions_granted", ["permission"; "authorized"; "access granted"]);
    ("form_filled", ["filled"; "entered"; "completed"]);
    ("data_entered", ["entered"; "provided"; "input"]);
    ("record_exists", ["exists"; "available"; "present"]);
    ("condition_exists", ["condition"; "scenario"; "case"]);
    ("data_exists", ["data exists"; "available data"]);
    ("error_trigger", ["error occurs"; "error condition"]);
    ("failure_condition", ["failure"; "error case"]) ].

Definition _is_assumption_explicit (text assumption_key : string) : bool :=
  let indicators := Py.get_default assumption_key explicit_indicators [] in
  Py.any_in indicators text.

Definition category_mapping : list (string * string) :=
  [ ("user_exists", "Data"); ("credentials_exist", "Data");
    ("user_logged_in", "State"); ("permissions_granted", "State");
    ("form_filled", "Data"); ("data_entered", "Data");
    ("record_exists", "Data"); ("condition_exists", "State");
    ("data_exists", "Data"); ("error_trigger", "State");
    ("failure_condition", "State"); ("admin_role", "State");
    ("manager_role", "State"); ("user_role", "State");
    ("file_exists", "Data"); ("recipient_exists", "Data");
    ("sender_exists", "Data"); ("communication_setup", "Environment");
    ("external_service_exists", "Environment");
    ("api_access_configured", "Environment");
    ("webhook_configured", "Environment");
    ("callback_configured", "Environment") ].

Definition _get_assumption_category (assumption_key : string) : string :=
  Py.get_default assumption_key category_mapping "Unknown".

Definition _has_user_context (text : string) : bool :=
  Py.any_in [ "user"; "login"; "authenticate"; "sign in"; "logged in";
              "account"; "profile"; "session" ] text.

Definition _has_data_context (text : string) : bool :=
  Py.any_in [ "data"; "record"; "entry"; "information"; "content";
              "database"; "exists"; "available"; "present" ] text.

Definition action_issue (action assumption_key : string) : AssumptionIssue :=
  {| issue_type := "Action assumption";
     category := _get_assumption_category assumption_key;
     issue_text := action;
     issue_message := "Action '" ++ action ++ "' implies assumption";
     assumption := Py.get_default assumption_key assumption_descriptions assumption_key |}.

Definition _detect_action_assumptions (doc : Ambiguity.Doc) (original_text : string) : list AssumptionIssue :=
  let text_lower := Py.lower original_text in
  flat_map (fun entry =>
    let '(action, assumptions) := entry in
    if Py.contains action text_lower then
      flat_map (fun assumption_key =>
        if negb (_is_assumption_explicit text_lower assumption_key)
        then [action_issue action assumption_key] else []) assumptions
    else []) action_patterns.

Definition _detect_environment_assumptions (text : string) : list AssumptionIssue :=
  let text_lower := Py.lower text in
  let ui_actions := ["click"; "type"; "select"; "scroll"; "hover"; "tap"] in
  let has_ui_action := Py.any_in ui_actions text_lower in
  if has_ui_action then
    let has_environment := Py.any_in environment_indicators text_lower in
    if negb has_environment then
      [ {| issue_type := "Environment assumption";
           category := "Environment";
           issue_text := "UI interaction";
           issue_message := "UI interaction without environment specification";
           assumption := "Browser, device, or platform is specified" |} ]
    else []
  else [].

Definition _detect_context_assumptions (text : string) : list AssumptionIssue :=
  let text_lower := Py.lower text in
  let user_actions := ["profile"; "settings"; "account"; "dashboard"] in
  let data_actions := ["search"; "filter"; "sort"; "export"] in
  ((if Py.any_in user_actions text_lower && negb (_has_user_context text_lower) then
      [ {| issue_type := "Context assumption";
           category := "State";
           issue_text := "User-specific action";
           issue_message := "User-specific action without user context";
           assumption := "User is logged in and authenticated" |} ]
    else [])
   ++
   (if Py.any_in data_actions text_lower && negb (_has_data_context text_lower) then
      [ {| issue_type := "Context assumption";
           category := "Data";
           issue_text := "Data operation";
           issue_message := "Data operation without data context";
           assumption := "Required data exists in the system" |} ]
    else []))%list.

Section Detector.

(** The spaCy pipeline [self.nlp]; the assumption rules only read the text. *)
Variable nlp : string -> Ambiguity.Doc.

Definition detect_assumptions (text : string) : list AssumptionIssue :=
  let doc := nlp (Py.lower text) in
  (_detect_action_assumptions doc text
   ++ _detect_environment_assumptions text
   ++ _detect_context_assumptions text)%list.

End Detector.

(** *** Scoring *)

Definition strong_patterns : list (string * list string) :=
  [ ("Environment",
     [ "browser"; "device"; "operating system"; "database"; "api"; "network";
       "server"; "infrastructure"; "platform"; "environment" ]);
    ("State",
     [ "user logged in"; "authenticated"; "authorized"; "permissions granted";
       "admin role"; "session active"; "account active"; "system configured" ]);
    ("Data",
     [ "user exists"; "credentials exist"; "test data prepared"; "database populated";
       "external service available"; "api endpoint configured" ]) ].

Definition weak_patterns : list (string * list string) :=
  [ ("Environment", ["internet connection"; "power available"; "display resolution"]);
    ("State", ["user preferences set"; "notifications enabled"; "theme selected"]);
    ("Data", ["sample data"; "demo content"; "placeholder text"; "optional fields"]) ].

Definition _classify_assumption_strength (issue : AssumptionIssue) (component_type : string) : string :=
  let assumption_text := Py.lower (assumption issue) in
  if Py.any_in (Py.get_default component_type strong_patterns []) assumption_text then "STRONG"
  else if Py.any_in (Py.get_default component_type weak_patterns []) assumption_text then "WEAK"
  else if String.eqb component_type "Environment" then "STRONG"
  else if String.eqb component_type "State" then "STRONG"
  else "WEAK".

Definition key_mappings : list (string * string) :=
  [ ("user exists", "user_exists");
    ("credentials exist", "credentials_exist");
    ("user logged in", "user_logged_in");
    ("permissions granted", "permissions_granted");
    ("form filled", "form_filled");
    ("data entered", "data_entered");
    ("record exists", "record_exists");
    ("data exists", "data_exists");
    ("condition exists", "condition_exists");
    ("file exists", "file_exists");
    ("recipient exists", "recipient_exists");
    ("sender exists", "sender_exists");
    ("task exists", "task_exists");
    ("item exists", "item_exists");
    ("issue exists", "issue_exists");
    ("error trigger", "error_trigger");
    ("failure condition", "failure_condition");
    ("admin role", "admin_role");
    ("manager role", "manager_role");
    ("user role", "user_role");
    ("account active", "account_active");
    ("form valid", "form_valid");
    ("space available", "space_available") ].

(** The loop over [key_mappings.items()]: the first phrase found in the
    assumption text decides. *)
Fixpoint first_key (assumption_key : string) (m : list (string * string)) : option string :=
  match m with
  | [] => None
  | (phrase, key) :: m' =>
      if Py.contains phrase assumption_key then Some key
      else first_key assumption_key m'
  end.

Definition _get_assumption_type_weight (issue : AssumptionIssue) (type_weights : list (string * Z)) : Z :=
  let assumption_key := Py.lower (assumption issue) in
  match first_key assumption_key key_mappings with
  | Some key => Py.get_default key type_weights 15%Z
  | None =>
      if Py.any_in ["browser"; "chrome"; "firefox"; "safari"; "edge"] assumption_key then
        Py.get_default "browsers" type_weights 20%Z
      else if Py.any_in ["mobile"; "desktop"; "tablet"; "phone"] assumption_key then
        Py.get_default "devices" type_weights 20%Z
      else if Py.any_in ["ios"; "android"; "windows"; "mac"; "linux"] assumption_key then
        Py.get_default "operating_systems" type_weights 18%Z
      else if Py.any_in ["network"; "wifi"; "cellular"; "broadband"] assumption_key then
        Py.get_default "network" type_weights 16%Z
      else if Py.any_in ["database"; "mysql"; "postgresql"; "mongodb"] assumption_key then
        Py.get_default "databases" type_weights 24%Z
      else if Py.any_in ["api"; "endpoint"; "rest"; "graphql"] assumption_key then
        Py.get_default "apis" type_weights 20%Z
      else 15%Z
  end.

(** The weight one issue adds to [base_score]. *)
Definition issue_weight (issue : AssumptionIssue) (component_type : string) : Z :=
  match Py.get component_type ASSUMPTION_WEIGHTS with
  | Some type_weights => _get_assumption_type_weight issue type_weights
  | None => 10%Z
  end.

Definition _calculate_component_with_strength (component_issues : list AssumptionIssue)
    (component_type : string) : Q * string :=
  match component_issues with
  | [] => (0.0, "NONE")
  | _ :: _ =>
      let has_strong_assumption :=
        existsb (fun issue =>
          String.eqb (_classify_assumption_strength issue component_type) "STRONG")
          component_issues in
      let has_weak_assumption :=
        existsb (fun issue =>
          negb (String.eqb (_classify_assumption_strength issue component_type) "STRONG"))
          component_issues in
      let base_score :=
        fold_left (fun acc issue => (acc + issue_weight issue component_type)%Z)
          component_issues 0%Z in
      let base_score :=
        if (1 <? List.length component_issues)%nat
        then (base_score + (Z.of_nat (List.length component_issues) - 1) * 5)%Z
        else base_score in
      let text_length := 50%nat in
      let density_factor :=
        Py.len component_issues / Py.of_nat (Nat.max text_length 5) in
      let density_score :=
        if String.eqb component_type "State" then Py.min 30 (density_factor * 60)
        else if String.eqb component_type "Environment" then Py.min 25 (density_factor * 50)
        else Py.min 20 (density_factor * 40) in
      let raw_score := inject_Z base_score + density_score in
      let final_score :=
        if Py.gt raw_score 70 then 70 + (raw_score - 70) * 0.4 else raw_score in
      let final_score := Py.min 100.0 final_score in
      let strength :=
        if has_strong_assumption then "STRONG"
        else if has_weak_assumption then "WEAK"
        else "UNKNOWN" in
      (final_score, strength)
  end.

(** The parts of the score of a non-empty component: the weights with the
    bonus of 5 per further issue, the density term and the final
    normalization. *)
Definition base_with_bonus (component_issues : list AssumptionIssue)
    (component_type : string) : Z :=
  let base_score :=
    fold_left (fun acc issue => (acc + issue_weight issue component_type)%Z)
      component_issues 0%Z in
  if (1 <? List.length component_issues)%nat
  then (base_score + (Z.of_nat (List.length component_issues) - 1) * 5)%Z
  else base_score.

Definition density_score (component_type : string) (issue_count : nat) : Q :=
  let density_factor := Py.of_nat issue_count / Py.of_nat (Nat.max 50 5) in
  if String.eqb component_type "State" then Py.min 30 (density_factor * 60)
  else if String.eqb component_type "Environment" then Py.min 25 (density_factor * 50)
  else Py.min 20 (density_factor * 40).

Definition normalize (raw_score : Q) : Q :=
  Py.min 100.0 (if Py.gt raw_score 70 then 70 + (raw_score - 70) * 0.4 else raw_score).

Record Component : Type := mkComponent {
  count : nat;
  strength : string
}.

Record Components : Type := mkComponents {
  environment : Component;
  data : Component;
  state : Component
}.

Record AssumptionAnalysis : Type := mkAssumptionAnalysis {
  score : Q;
  components : Components
}.

Definition of_category (c : string) (issues : list AssumptionIssue) : list AssumptionIssue :=
  filter (fun issue => String.eqb (category issue) c) issues.

Definition calculate_assumption_score (issues : list AssumptionIssue) (text : string) : AssumptionAnalysis :=
  match issues with
  | [] =>
      {| score := 0.0;
         components :=
           {| environment := {| count := 0; strength := "NONE" |};
              data := {| count := 0; strength := "NONE" |};
              state := {| count := 0; strength := "NONE" |} |} |}
  | _ :: _ =>
      let environment_issues := of_category "Environment" issues in
      let data_issues := of_category "Data" issues in
      let state_issues := of_category "State" issues in
      let '(environment_score, environment_strength) :=
        _calculate_component_with_strength environment_issues "Environment" in
      let '(data_score, data_strength) :=
        _calculate_component_with_strength data_issues "Data" in
      let '(state_score, state_strength) :=
        _calculate_component_with_strength state_issues "State" in
      let overall_score :=
        environment_score * 0.35 + data_score * 0.25 + state_score * 0.4 in
      {| score := Py.round1 overall_score;
         components :=
           {| environment := {| count := List.length environment_issues;
                                strength := environment_strength |};
              data := {| count := List.length data_issues; strength := data_strength |};
              state := {| count := List.length state_issues; strength := state_strength |} |} |}
  end.

End Assumption.

(** ** core/scorer.py *)

Module Scorer.

Inductive ReadinessLevel : Type :=
| READY
| NEEDS_CLARIFICATION
| HIGH_RISK.

Definition value (l : ReadinessLevel) : string :=
  match l with
  | READY => "Ready"
  | NEEDS_CLARIFICATION => "Needs clarification"
  | HIGH_RISK => "High risk for automation"
  end.

Definition classify_readiness (readiness_score : Q) : ReadinessLevel :=
  if Py.ge readiness_score 70 then READY
  else if Py.ge readiness_score 40 then NEEDS_CLARIFICATION
  else HIGH_RISK.

(** An entry of the list handed to [_generate_clarifying_questions]: the
    dictionary built by [_format_issues_with_impact].  The keys
    ["category"] and ["assumption"] exist for assumption issues only. *)
Record FormattedIssue : Type := mkFormattedIssue {
  f_type : string;
  f_message : string;
  f_category : option string;
  f_assumption : option string;
  f_impact : string
}.

Inductive impact_entry : Type :=
| Text : string -> impact_entry
| ByTerm : list (string * string) -> impact_entry.

Definition impact_map : list (string * impact_entry) :=
  [ ("Subjective term", ByTerm
       [ ("fast", "May cause inconsistent test expectations and flaky performance tests");
         ("slow", "May lead to unclear acceptance criteria for response times");
         ("secure", "May result in inadequate security testing coverage");
         ("user-friendly", "May cause subjective interpretation of usability requirements");
         ("reliable", "May lead to undefined reliability and stability expectations");
         ("scalable", "May result in unclear performance scaling requirements");
         ("optimal", "May cause ambiguous optimization goals and success criteria");
         ("default", "May lead to subjective interpretation and inconsistent testing") ]);
    ("Weak modality", ByTerm
       [ ("should", "Creates uncertainty about whether this is a requirement or suggestion");
         ("could", "May result in optional implementation and inconsistent behavior");
         ("might", "Creates ambiguity about expected behavior under different conditions");
         ("may", "May lead to inconsistent implementation across different scenarios");
         ("default", "Creates uncertainty about requirement priority and implementation") ]);
    ("Undefined reference",
     Text "May cause confusion about what specific element or condition is being referenced");
    ("Non-testable statement",
     Text "Makes it impossible to create objective test cases and acceptance criteria") ].

Definition _get_ambiguity_impact (issue : Ambiguity.AmbiguityIssue) : string :=
  let issue_type := Ambiguity.issue_type issue in
  let issue_text := Py.lower (Ambiguity.issue_text issue) in
  match Py.get issue_type impact_map with
  | Some (ByTerm d) =>
      Py.get_default issue_text d (Py.get_default "default" d "May cause testing ambiguity")
  | Some (Text t) => t
  | None => "May lead to unclear requirements and inconsistent testing"
  end.

Definition critical_patterns : list string :=
  [ "user exists"; "credentials exist"; "user logged in"; "permissions granted";
    "browser"; "database"; "api"; "server"; "environment" ].

Definition category_impacts : list (string * string) :=
  [ ("Environment", "May cause test failures in different environments or platforms");
    ("State", "May lead to flaky tests due to unpredictable system state");
    ("Data", "May result in test data inconsistencies and unreliable test execution") ].

Definition _get_assumption_impact (issue : Assumption.AssumptionIssue) : string :=
  let assumption_text := Py.lower (Assumption.assumption issue) in
  let category := Assumption.category issue in
  match find (fun pattern => Py.contains pattern assumption_text) critical_patterns with
  | Some pattern =>
      "Critical assumption - missing " ++ Py.replace_char "_" " " pattern
        ++ " will cause test automation to fail"
  | None =>
      if Py.contains "data" assumption_text || Py.contains "record" assumption_text then
        "May cause test data setup issues and inconsistent test results"
      else if Py.contains "configuration" assumption_text
              || Py.contains "setup" assumption_text then
        "May lead to environment-specific test failures and deployment issues"
      else
        Py.get_default category category_impacts
          "May lead to unexpected test behavior and automation failures"
  end.

(** The list [ambiguity_issues + assumption_issues] holds objects of both
    classes; [hasattr(issue, 'category')] tells them apart. *)
Definition Issue : Type := (Ambiguity.AmbiguityIssue + Assumption.AssumptionIssue)%type.

Definition format_issue (issue : Issue) : FormattedIssue :=
  match issue with
  | inr a =>
      {| f_type := "Assumption";
         f_message := Assumption.issue_message a;
         f_category := Some (Assumption.category a);
         f_assumption := Some (Assumption.assumption a);
         f_impact := _get_assumption_impact a |}
  | inl a =>
      {| f_type := "Ambiguity";
         f_message := Ambiguity.issue_message a;
         f_category := None;
         f_assumption := None;
         f_impact := _get_ambiguity_impact a |}
  end.

Definition _format_issues_with_impact (issues : list Issue) : list FormattedIssue :=
  map format_issue issues.

(** The loop [for key, question in question_map.items(): if key in s: return question]. *)
Fixpoint first_question (s : string) (question_map : list (string * string)) : option string :=
  match question_map with
  | [] => None
  | (key, question) :: m' =>
      if Py.contains key s then Some question else first_question s m'
  end.

Definition ambiguity_question_map : list (string * string) :=
  [ ("subjective term", "What specific, measurable criteria define success for this requirement?");
    ("weak modality", "Is this a mandatory requirement or optional behavior?");
    ("undefined reference", "What specific element or condition does this refer to?");
    ("non-testable", "What specific, observable behavior would indicate success?") ].

Definition _get_ambiguity_question (issue : FormattedIssue) : string :=
  let message := Py.lower (f_message issue) in
  match first_question message ambiguity_question_map with
  | Some question => question
  | None => "What specific criteria should be used to evaluate this requirement?"
  end.

Definition assumption_question_map : list (string * string) :=
  [ ("user exists", "What test user accounts should be prepared?");
    ("credentials", "What user credentials are needed for testing?");
    ("logged in", "Should the user be pre-authenticated for this test?");
    ("permissions", "What user roles and permissions are required?");
    ("browser", "Which browsers and versions should be supported?");
    ("database", "What database state should exist before testing?");
    ("environment", "What environmental conditions are required?");
    ("data", "What test data should be prepared?") ].

Definition _get_assumption_question (issue : FormattedIssue) : string :=
  let assumption :=
    Py.lower (match f_assumption issue with Some a => a | None => "" end) in
  match first_question assumption assumption_question_map with
  | Some question => question
  | None => "What specific conditions or data are required for this test?"
  end.

Definition standard_questions : list string :=
  [ "What are the exact preconditions required for this test?";
    "What is the expected result and how should it be verified?" ].

(** [if question and question not in questions: questions.append(question)] *)
Definition add_question (questions : list string) (question : string) : list string :=
  if Py.truthy question && negb (Py.mem question questions)
  then (questions ++ [question])%list else questions.

Definition question_step (questions : list string) (issue : FormattedIssue) : list string :=
  if String.eqb (f_type issue) "Ambiguity" then
    add_question questions (_get_ambiguity_question issue)
  else if String.eqb (f_type issue) "Assumption" then
    add_question questions (_get_assumption_question issue)
  else questions.

Definition _generate_clarifying_questions (issues : list FormattedIssue) (text : string) : list string :=
  let questions := standard_questions in
  let questions := fold_left question_step issues questions in
  firstn 8 questions.

Record AnalysisResult : Type := mkAnalysisResult {
  ambiguity : Ambiguity.AmbiguityAnalysis;
  assumptions : Assumption.AssumptionAnalysis;
  readiness_score : Q;
  readiness_level : string;
  issues : list FormattedIssue;
  clarifying_questions : list string
}.

(** *** OptimizedRequirementScorer.get_score_breakdown

    [get_score_breakdown] hands the dictionaries returned by the two
    score functions to [calculate_readiness_score] and to [round].  An
    argument of these calls is therefore a number or a dictionary, and the
    operations on it can raise [TypeError]. *)

Inductive exn : Type :=
| TypeError.

Inductive result (A : Type) : Type :=
| Ok : A -> result A
| Raise : exn -> result A.

Arguments Ok {A} _.
Arguments Raise {A} _.

Definition bind {A B : Type} (m : result A) (k : A -> result B) : result B :=
  match m with
  | Ok a => k a
  | Raise e => Raise e
  end.

Notation "x <- m ;; k" := (bind m (fun x => k))
  (at level 61, m at next level, right associativity).

Inductive pyvalue : Type :=
| Number : Q -> pyvalue
| AmbiguityDict : Ambiguity.AmbiguityAnalysis -> pyvalue
| AssumptionDict : Assumption.AssumptionAnalysis -> pyvalue.

(** [a > b]: defined between numbers, [TypeError] when a dictionary is
    involved. *)
Definition value_gt (a b : pyvalue) : result bool :=
  match a, b with
  | Number x, Number y => Ok (Py.gt x y)
  | _, _ => Raise TypeError
  end.

(** [round(a, 1)]: [TypeError] on a dictionary. *)
Definition value_round1 (a : pyvalue) : result Q :=
  match a with
  | Number x => Ok (Py.round1 x)
  | _ => Raise TypeError
  end.

(** The breakdown, without its ["formula"] text. *)
Record Breakdown : Type := mkBreakdown {
  b_text : string;
  b_ambiguity_score : Q;
  b_ambiguity_issue_count : nat;
  b_ambiguity_issues : list string;
  b_assumption_score : Q;
  b_assumption_issue_count : nat;
  b_assumption_categories : list string;
  b_readiness_score : Q;
  b_readiness_level : string
}.

Section Readiness.

(** The power operator [**] on floats. *)
Variable pow : Q -> Q -> Q.

(** Division on [Q] is total.  The divisor [1 + total_impact / 10] is
    positive as soon as the two powers are not negative, which is the case
    for scores that are not negative.

    This is the function on scores that are not negative, as the two
    detectors produce them.  For a negative score [**] answers a complex
    number and [min] raises [TypeError]:
    [calculate_readiness_score_or_raise] below follows that path. *)

Definition calculate_readiness_score (ambiguity_score assumption_score : Q) (text : string) : Q :=
  let '(ambiguity_weight, assumption_weight) :=
    if Py.gt assumption_score ambiguity_score then (0.2, 0.8)
    else if Py.gt ambiguity_score 60 then (0.7, 0.3)
    else (0.4, 0.6) in
  let assumption_weight :=
    if Py.gt assumption_score 70 then assumption_weight * 1.5 else assumption_weight in
  let ambiguity_weight :=
    if Py.gt ambiguity_score 70 then ambiguity_weight * 1.3 else ambiguity_weight in
  let text_length := Ambiguity.text_length_or_50 text in
  let complexity_factor :=
    if (text_length <? 10)%nat then 1.2
    else if (100 <? text_length)%nat then 0.9
    else 1.0 in
  let ambiguity_impact := Py.min 80 (pow ambiguity_score 0.8) * ambiguity_weight in
  let assumption_impact := Py.min 85 (pow assumption_score 0.9) * assumption_weight in
  let total_impact := ambiguity_impact + assumption_impact in
  let readiness := 100 / (1 + total_impact / 10) in
  let readiness := readiness * complexity_factor in
  let readiness :=
    if Py.gt total_impact 120 then Py.max (readiness * 0.8) 10
    else if Py.gt total_impact 100 then Py.max (readiness * 0.9) 15
    else readiness in
  Py.max 0.0 (Py.min 95.0 readiness).

(** The spaCy pipeline shared by the two detectors. *)
Variable nlp : string -> Ambiguity.Doc.

Definition analyze_text (text : string) : AnalysisResult :=
  let ambiguity_issues := Ambiguity.detect_ambiguities nlp text in
  let assumption_issues := Assumption.detect_assumptions nlp text in
  let ambiguity_analysis := Ambiguity.calculate_ambiguity_score ambiguity_issues text in
  let assumption_analysis := Assumption.calculate_assumption_score assumption_issues text in
  let readiness_score :=
    calculate_readiness_score (Ambiguity.score ambiguity_analysis)
      (Assumption.score assumption_analysis) text in
  let readiness_level := classify_readiness readiness_score in
  let issues :=
    _format_issues_with_impact (map inl ambiguity_issues ++ map inr assumption_issues)%list in
  let suggestions := _generate_clarifying_questions issues text in
  {| ambiguity := ambiguity_analysis;
     assumptions := assumption_analysis;
     readiness_score := Py.round1 readiness_score;
     readiness_level := value readiness_level;
     issues := issues;
     clarifying_questions := suggestions |}.

(** A call of [calculate_readiness_score] on arbitrary values: its first
    statement compares the two arguments; on numbers the rest is the
    function above. *)
Definition call_calculate_readiness_score (ambiguity_score assumption_score : pyvalue)
    (text : string) : result Q :=
  _ <- value_gt assumption_score ambiguity_score ;;
  match ambiguity_score, assumption_score with
  | Number a, Number s => Ok (calculate_readiness_score a s text)
  | _, _ => Raise TypeError
  end.

Definition get_score_breakdown (text : string) : result Breakdown :=
  let ambiguity_issues := Ambiguity.detect_ambiguities nlp text in
  let assumption_issues := Assumption.detect_assumptions nlp text in
  let ambiguity_score :=
    AmbiguityDict (Ambiguity.calculate_ambiguity_score ambiguity_issues "") in
  let assumption_score :=
    AssumptionDict (Assumption.calculate_assumption_score assumption_issues "") in
  readiness_score <- call_calculate_readiness_score ambiguity_score assumption_score "" ;;
  rounded_ambiguity <- value_round1 ambiguity_score ;;
  rounded_assumption <- value_round1 assumption_score ;;
  Ok {| b_text := text;
        b_ambiguity_score := rounded_ambiguity;
        b_ambiguity_issue_count := List.length ambiguity_issues;
        b_ambiguity_issues := map Ambiguity.issue_type ambiguity_issues;
        b_assumption_score := rounded_assumption;
        b_assumption_issue_count := List.length assumption_issues;
        b_assumption_categories :=
          nodup string_dec (map Assumption.category assumption_issues);
        b_readiness_score := Py.round1 readiness_score;
        b_readiness_level := value (classify_readiness readiness_score) |}.

End Readiness.

(** *** _format_issues *)

(** The dictionary built by [_format_issues]: assumption issues carry
    ["category"] and ["assumption"], ambiguity issues the two offsets. *)
Record PlainIssue : Type := mkPlainIssue {
  p_type : string;
  p_category : option string;
  p_text : string;
  p_message : string;
  p_assumption : option string;
  p_start_char : option (option Z);
  p_end_char : option (option Z)
}.

Definition _format_issues (issues : list Issue) : list PlainIssue :=
  map (fun issue =>
    match issue with
    | inr a =>
        {| p_type := Assumption.issue_type a;
           p_category := Some (Assumption.category a);
           p_text := Assumption.issue_text a;
           p_message := Assumption.issue_message a;
           p_assumption := Some (Assumption.assumption a);
           p_start_char := None;
           p_end_char := None |}
    | inl a =>
        {| p_type := Ambiguity.issue_type a;
           p_category := None;
           p_text := Ambiguity.issue_text a;
           p_message := Ambiguity.issue_message a;
           p_assumption := None;
           p_start_char := Some (Ambiguity.start_char a);
           p_end_char := Some (Ambiguity.end_char a) |}
    end) issues.

(** *** classify_test_case_type *)

Definition classify_test_case_type (text : string) : string :=
  let text_lower := Py.lower text in
  if Py.any_in ["login"; "authenticate"; "sign in"] text_lower then "authentication"
  else if Py.any_in ["search"; "filter"; "find"; "query"] text_lower then "data_retrieval"
  else if Py.any_in ["create"; "add"; "insert"; "submit"] text_lower then "data_creation"
  else if Py.any_in ["update"; "edit"; "modify"; "change"] text_lower then "data_modification"
  else if Py.any_in ["delete"; "remove"; "archive"] text_lower then "data_deletion"
  else if Py.any_in ["api"; "endpoint"; "request"; "response"] text_lower then "api_testing"
  else if Py.any_in ["ui"; "interface"; "screen"; "page"] text_lower then "ui_testing"
  else "general".

Record TypeWeights : Type := mkTypeWeights {
  ambiguity_weight : Q;
  assumption_weight : Q
}.

Definition TEST_CASE_TYPE_WEIGHTS : list (string * TypeWeights) :=
  [ ("authentication", {| ambiguity_weight := 0.4; assumption_weight := 0.6 |});
    ("api_testing", {| ambiguity_weight := 0.5; assumption_weight := 0.5 |});
    ("ui_testing", {| ambiguity_weight := 0.6; assumption_weight := 0.4 |});
    ("data_creation", {| ambiguity_weight := 0.4; assumption_weight := 0.6 |});
    ("data_modification", {| ambiguity_weight := 0.45; assumption_weight := 0.55 |});
    ("data_deletion", {| ambiguity_weight := 0.35; assumption_weight := 0.65 |});
    ("data_retrieval", {| ambiguity_weight := 0.5; assumption_weight := 0.5 |});
    ("general", {| ambiguity_weight := 0.45; assumption_weight := 0.55 |}) ].

(** *** OptimizedRequirementScorer.analyze_text_with_caching

    The cache [self.score_cache] is threaded through the call; the two
    readings of [self.time.time()], at the validity test and at the
    store, are arguments. *)

Record CacheEntry : Type := mkCacheEntry {
  cached_result : AnalysisResult;
  timestamp : Q
}.

Definition Cache : Type := list (Z * CacheEntry).

(** [min(cache.keys(), key=lambda k: cache[k]['timestamp'])]: the first key
    with the least timestamp; [best] is the least entry so far. *)
Fixpoint oldest_from (best : Z * CacheEntry) (d : Cache) : Z :=
  match d with
  | [] => fst best
  | (k, e) :: d' =>
      if Py.lt (timestamp e) (timestamp (snd best)) then oldest_from (k, e) d'
      else oldest_from best d'
  end.

Definition oldest_key (d : Cache) : option Z :=
  match d with
  | [] => None
  | b :: d' => Some (oldest_from b d')
  end.

Section Caching.

Variable pow : Q -> Q -> Q.
Variable nlp : string -> Ambiguity.Doc.
(** The built-in [hash] on strings. *)
Variable hash : string -> Z.

(** The part after the cache test: analyze, store, evict. *)
Definition analyze_and_store (cache : Cache) (text_hash : Z) (text : string)
    (time_at_store : Q) : AnalysisResult * Cache :=
  let result := analyze_text pow nlp text in
  let cache :=
    Py.zset text_hash {| cached_result := result; timestamp := time_at_store |} cache in
  let cache :=
    if (1000 <? List.length cache)%nat then
      match oldest_key cache with
      | Some oldest => Py.zdel oldest cache
      | None => cache
      end
    else cache in
  (result, cache).

Definition analyze_text_with_caching (cache : Cache) (text : string)
    (time_at_test time_at_store : Q) : AnalysisResult * Cache :=
  let text_hash := hash (Py.strip (Py.lower text)) in
  match Py.zget text_hash cache with
  | Some entry =>
      if Py.lt (time_at_test - timestamp entry) 3600 then (cached_result entry, cache)
      else analyze_and_store cache text_hash text time_at_store
  | None => analyze_and_store cache text_hash text time_at_store
  end.

End Caching.

(** *** calculate_readiness_score on a negative score

    [x ** 0.8] and [x ** 0.9] are floats when the float [x] is not
    negative and complex numbers when it is; a complex number has no
    order, so [min(80, z)] raises [TypeError] on it. *)


Section ReadinessOfAnyScore.

Variable pow : Q -> Q -> Q.




End ReadinessOfAnyScore.

End Scorer.

(** ** The specification's reference algorithms

    Definitions written from the specification's text, to be compared
    with the functions of the source. *)

Module Reference.

Section Readiness.

Variable pow : Q -> Q -> Q.

(** "Choose a base weight pair": (ambiguity weight, assumption weight). *)
Definition base_weight_pair (ambiguity_score assumption_score : Q) : Q * Q :=
  if Py.gt assumption_score ambiguity_score then (0.2, 0.8)
  else if Py.gt ambiguity_score 60 then (0.7, 0.3)
  else (0.4, 0.6).

(** "Apply severity multipliers": the weight times [factor] when the score
    is above 70. *)
Definition severity (score factor weight : Q) : Q :=
  if Py.gt score 70 then weight * factor else weight.

(** "Text-length complexity multiplier". *)
Definition complexity_factor (word_count : nat) : Q :=
  if (word_count <? 10)%nat then 1.2
  else if (100 <? word_count)%nat then 0.9
  else 1.0.

(** "Safety clamps". *)
Definition safety_clamp (total_impact readiness : Q) : Q :=
  if Py.gt total_impact 120 then Py.max (readiness * 0.8) 10
  else if Py.gt total_impact 100 then Py.max (readiness * 0.9) 15
  else readiness.

(** "Final clamp to [0, 95]". *)
Definition clamp (lo hi x : Q) : Q := Py.max lo (Py.min hi x).

Definition readiness (word_count : nat) (ambiguity_score assumption_score : Q) : Q :=
  let '(w_ambiguity, w_assumption) := base_weight_pair ambiguity_score assumption_score in
  let ambiguity_weight := severity ambiguity_score 1.3 w_ambiguity in
  let assumption_weight := severity assumption_score 1.5 w_assumption in
  let ambiguity_impact := Py.min 80 (pow ambiguity_score 0.8) * ambiguity_weight in
  let assumption_impact := Py.min 85 (pow assumption_score 0.9) * assumption_weight in
  let total_impact := ambiguity_impact + assumption_impact in
  let base_readiness := 100 / (1 + total_impact / 10) in
  clamp 0.0 95.0 (safety_clamp total_impact (base_readiness * complexity_factor word_count)).

End Readiness.

(** "Partition issues into lexical (SubjectiveTerm + WeakModality),
    testability (NonTestableStatement + WeakModality), references
    (UndefinedReference)". *)
Definition of_kind (kind : string) (issue : Ambiguity.AmbiguityIssue) : bool :=
  String.eqb (Ambiguity.issue_type issue) kind.

Definition lexical_part (issues : list Ambiguity.AmbiguityIssue) : list Ambiguity.AmbiguityIssue :=
  filter (fun i => of_kind "Subjective term" i || of_kind "Weak modality" i) issues.

Definition testability_part (issues : list Ambiguity.AmbiguityIssue) : list Ambiguity.AmbiguityIssue :=
  filter (fun i => of_kind "Non-testable statement" i || of_kind "Weak modality" i) issues.

Definition references_part (issues : list Ambiguity.AmbiguityIssue) : list Ambiguity.AmbiguityIssue :=
  filter (of_kind "Undefined reference") issues.

(** The number of words of a text. *)
Definition word_count (text : string) : nat := List.length (Py.split text).

(** "Order-preserving, first-match-wins, de-duplicated": the elements of a
    list that are not in [seen], in the order of their first occurrence. *)
Fixpoint first_occurrences (seen l : list string) : list string :=
  match l with
  | [] => []
  | x :: l' =>
      if Py.mem x seen then first_occurrences seen l'
      else x :: first_occurrences (seen ++ [x])%list l'
  end.

(** The issue-specific question each formatted issue asks for, in the
    order of the issues; an issue that is neither an ambiguity nor an
    assumption asks for none. *)
Definition candidate_questions (issues : list Scorer.FormattedIssue) : list string :=
  flat_map (fun issue =>
    if String.eqb (Scorer.f_type issue) "Ambiguity" then
      [Scorer._get_ambiguity_question issue]
    else if String.eqb (Scorer.f_type issue) "Assumption" then
      [Scorer._get_assumption_question issue]
    else []) issues.

End Reference.

(** ** Executable instances of the two parameters *)

Module Concrete.

(** *** A rational lower approximation of [x ** e]

    For [x = a/b >= 0] and [e = p/q >= 0], [pow_floor x e] is the largest
    multiple [k/scale] of [1/scale] with [(k/scale)^q <= x^p], found bit by
    bit from the most significant one.  Outside this domain the value is 0. *)

Definition scale : Z := (10 ^ 9)%Z.

(** [(k/scale)^q <= (a/b)^p], cleared of denominators. *)
Definition below (a b p q : Z) (k : Z) : bool :=
  (k ^ q * b ^ p <=? a ^ p * scale ^ q)%Z.

Fixpoint search_bits (P : Z -> bool) (n : nat) (r : Z) : Z :=
  match n with
  | O => r
  | S n' =>
      let r' := (r + 2 ^ Z.of_nat n')%Z in
      search_bits P n' (if P r' then r' else r)
  end.

(** Number of bits that hold [scale * x^e]. *)
Definition bits (a b p : Z) : nat :=
  Z.to_nat (Z.log2_up (scale * (a / b + 2) ^ (p + 1))).

Definition pow_floor (x e : Q) : Q :=
  let a := Qnum x in
  let b := Zpos (Qden x) in
  let p := Qnum e in
  let q := Zpos (Qden e) in
  if (a <? 0)%Z || (p <? 0)%Z then 0
  else inject_Z (search_bits (below a b p q) (bits a b p) 0) / inject_Z scale.

(** *** A white-space tokenizer

    Tokens are the maximal runs of characters that are not white space,
    with their offsets; like the blank pipeline it assigns no
    part-of-speech and no dependency label. *)

Definition flush_token (cur : list ascii) (start : nat) (acc : Ambiguity.Doc) : Ambiguity.Doc :=
  match cur with
  | [] => acc
  | _ :: _ => Ambiguity.mkToken (string_of_list_ascii (rev cur)) start "" "" :: acc
  end.

Fixpoint tokens_from (s : string) (pos : nat) (cur : list ascii) (start : nat) : Ambiguity.Doc :=
  match s with
  | EmptyString => flush_token cur start []
  | String c s' =>
      if Py.is_space c then flush_token cur start (tokens_from s' (S pos) [] (S pos))
      else tokens_from s' (S pos) (c :: cur) start
  end.

Definition whitespace_nlp (text : string) : Ambiguity.Doc := tokens_from text 0 [] 0.

End Concrete.

(** * Properties *)

(** ** Numbers *)

Lemma gt_true (a b : Q) : Py.gt a b = true <-> b < a.
Proof.
  unfold Py.gt. destruct (Qlt_le_dec b a) as [H | H]; split; intro K;
    try reflexivity; try assumption; try discriminate.
  exfalso. apply (Qlt_not_le _ _ K H).
Qed.

Lemma gt_false (a b : Q) : Py.gt a b = false <-> a <= b.
Proof.
  unfold Py.gt. destruct (Qlt_le_dec b a) as [H | H]; split; intro K;
    try reflexivity; try assumption; try discriminate.
  exfalso. apply (Qlt_not_le _ _ H K).
Qed.

Lemma ge_true (a b : Q) : Py.ge a b = true <-> b <= a.
Proof.
  unfold Py.ge, Py.lt. rewrite negb_true_iff. apply gt_false.
Qed.

Lemma ge_false (a b : Q) : Py.ge a b = false <-> a < b.
Proof.
  unfold Py.ge, Py.lt. rewrite negb_false_iff. apply gt_true.
Qed.

Lemma min_cases (a b : Q) :
  (b < a /\ Py.min a b = b) \/ (a <= b /\ Py.min a b = a).
Proof.
  unfold Py.min, Py.lt. destruct (Py.gt a b) eqn:E.
  - left. split; [now apply gt_true | reflexivity].
  - right. split; [now apply gt_false | reflexivity].
Qed.

Lemma max_cases (a b : Q) :
  (a < b /\ Py.max a b = b) \/ (b <= a /\ Py.max a b = a).
Proof.
  unfold Py.max. destruct (Py.gt b a) eqn:E.
  - left. split; [now apply gt_true | reflexivity].
  - right. split; [now apply gt_false | reflexivity].
Qed.

Lemma clamp_bounds (lo hi x : Q) :
  lo <= hi -> lo <= Py.max lo (Py.min hi x) <= hi.
Proof.
  intro H.
  destruct (min_cases hi x) as [[H1 E1] | [H1 E1]];
    destruct (max_cases lo (Py.min hi x)) as [[H2 E2] | [H2 E2]];
    rewrite E2; rewrite ?E1 in *; split; lra.
Qed.

(** ** Lists of strings *)

Lemma mem_In (x : string) (l : list string) : Py.mem x l = true <-> In x l.
Proof.
  unfold Py.mem. rewrite existsb_exists. split.
  - intros [y [Hy E]]. apply String.eqb_eq in E. now subst.
  - intro H. exists x. split; [assumption | apply String.eqb_refl].
Qed.

Lemma mem_not_In (x : string) (l : list string) : Py.mem x l = false <-> ~ In x l.
Proof.
  rewrite <- mem_In. destruct (Py.mem x l); split; intro H;
    try discriminate; try reflexivity.
  exfalso. now apply H.
Qed.

(** ** Clarifying questions *)

Lemma first_occurrences_fold (issues : list Scorer.FormattedIssue) :
  forall questions,
    (forall i, In i issues ->
       Py.truthy (Scorer._get_ambiguity_question i) = true /\
       Py.truthy (Scorer._get_assumption_question i) = true) ->
    fold_left Scorer.question_step issues questions
    = (questions ++ Reference.first_occurrences questions
                      (Reference.candidate_questions issues))%list.
Proof.
  induction issues as [| i issues IH]; intros questions Ht; simpl.
  - now rewrite app_nil_r.
  - destruct (Ht i (or_introl eq_refl)) as [Ta Ts].
    assert (Ht' : forall j, In j issues ->
       Py.truthy (Scorer._get_ambiguity_question j) = true /\
       Py.truthy (Scorer._get_assumption_question j) = true)
      by (intros j Hj; apply Ht; now right).
    unfold Scorer.question_step at 2, Scorer.add_question.
    destruct (String.eqb (Scorer.f_type i) "Ambiguity").
    + simpl. rewrite Ta. simpl.
      destruct (Py.mem (Scorer._get_ambiguity_question i) questions); simpl.
      * now apply IH.
      * rewrite IH by assumption. now rewrite <- app_assoc.
    + destruct (String.eqb (Scorer.f_type i) "Assumption").
      * simpl. rewrite Ts. simpl.
        destruct (Py.mem (Scorer._get_assumption_question i) questions); simpl.
        -- now apply IH.
        -- rewrite IH by assumption. now rewrite <- app_assoc.
      * simpl. now apply IH.
Qed.

Lemma first_question_truthy (s : string) (m : list (string * string)) (q : string) :
  Forall (fun kv => Py.truthy (snd kv) = true) m ->
  Scorer.first_question s m = Some q -> Py.truthy q = true.
Proof.
  induction m as [| [k v] m IH]; simpl; intros Hm H.
  - discriminate.
  - inversion Hm as [| ? ? Hv Hm']; subst.
    destruct (Py.contains k s).
    + injection H as <-. exact Hv.
    + now apply IH.
Qed.

Lemma ambiguity_question_truthy (i : Scorer.FormattedIssue) :
  Py.truthy (Scorer._get_ambiguity_question i) = true.
Proof.
  unfold Scorer._get_ambiguity_question.
  destruct (Scorer.first_question _ _) eqn:E; [| reflexivity].
  apply (first_question_truthy _ Scorer.ambiguity_question_map) in E.
  - exact E.
  - repeat constructor.
Qed.

Lemma assumption_question_truthy (i : Scorer.FormattedIssue) :
  Py.truthy (Scorer._get_assumption_question i) = true.
Proof.
  unfold Scorer._get_assumption_question.
  destruct (Scorer.first_question _ _) eqn:E; [| reflexivity].
  apply (first_question_truthy _ Scorer.assumption_question_map) in E.
  - exact E.
  - repeat constructor.
Qed.

Lemma first_occurrences_NoDup (l : list string) :
  forall seen, NoDup seen -> NoDup (seen ++ Reference.first_occurrences seen l).
Proof.
  induction l as [| x l IH]; intros seen Hs; simpl.
  - now rewrite app_nil_r.
  - destruct (Py.mem x seen) eqn:E.
    + now apply IH.
    + change (x :: Reference.first_occurrences (seen ++ [x]) l)
        with ([x] ++ Reference.first_occurrences (seen ++ [x]) l)%list.
      rewrite app_assoc. apply IH.
      apply NoDup_app; [assumption | repeat constructor; intros [] | ].
      intros y Hy [<- | []]. apply mem_not_In in E. now apply E.
Qed.

Lemma NoDup_firstn {A : Type} (n : nat) (l : list A) : NoDup l -> NoDup (firstn n l).
Proof.
  intro H. rewrite <- (firstn_skipn n l) in H.
  now apply NoDup_app_remove_r in H.
Qed.

(** C8: the list of clarifying questions has at most 8 entries, has no
    duplicate, begins with the two standard questions, and lists the
    issue-specific questions in the order of the first issue that asks
    for each. *)
Theorem clarifying_questions_capped_distinct_ordered
    (issues : list Scorer.FormattedIssue) (text : string) :
  let questions := Scorer._generate_clarifying_questions issues text in
  (List.length questions <= 8)%nat
  /\ NoDup questions
  /\ firstn 2 questions = Scorer.standard_questions
  /\ questions
     = firstn 8 (Scorer.standard_questions
                 ++ Reference.first_occurrences Scorer.standard_questions
                      (Reference.candidate_questions issues))%list.
Proof.
  intro questions. subst questions.
  unfold Scorer._generate_clarifying_questions.
  rewrite first_occurrences_fold
    by (intros; split; [apply ambiguity_question_truthy | apply assumption_question_truthy]).
  repeat split.
  - apply firstn_le_length.
  - apply NoDup_firstn, first_occurrences_NoDup.
    unfold Scorer.standard_questions.
    constructor; [intros [H | []]; discriminate | repeat constructor; intros []].
Qed.

(** ** Score breakdown *)

Lemma call_on_dictionaries (pow : Q -> Q -> Q)
    (a : Ambiguity.AmbiguityAnalysis) (s : Assumption.AssumptionAnalysis) (text : string) :
  Scorer.call_calculate_readiness_score pow
    (Scorer.AmbiguityDict a) (Scorer.AssumptionDict s) text
  = Scorer.Raise Scorer.TypeError.
Proof. reflexivity. Qed.

(** C10: for every text, [get_score_breakdown] raises [TypeError] at the
    first comparison of [calculate_readiness_score], which receives the
    two score dictionaries; it never returns a breakdown. *)
Theorem get_score_breakdown_always_raises
    (pow : Q -> Q -> Q) (nlp : string -> Ambiguity.Doc) (text : string) :
  Scorer.get_score_breakdown pow nlp text = Scorer.Raise Scorer.TypeError
  /\ forall b, Scorer.get_score_breakdown pow nlp text <> Scorer.Ok b.
Proof.
  assert (E : Scorer.get_score_breakdown pow nlp text = Scorer.Raise Scorer.TypeError).
  { unfold Scorer.get_score_breakdown. rewrite call_on_dictionaries. reflexivity. }
  split; [exact E |]. intros b H. rewrite E in H. discriminate.
Qed.

(** ** Character offsets *)

Lemma find_char_position_is_a_number (original_text token_text : string) (token_idx : nat) :
  Ambiguity._find_char_position original_text token_text token_idx <> None.
Proof. unfold Ambiguity._find_char_position. discriminate. Qed.

Lemma find_char_position_not_found (original_text token_text : string) (token_idx : nat) :
  index token_idx token_text (Py.lower original_text) = None ->
  Ambiguity._find_char_position original_text token_text token_idx = Some (-1)%Z.
Proof.
  intro H. unfold Ambiguity._find_char_position, Py.find. now rewrite H.
Qed.


(** ** The three partitions of the ambiguity issues *)

Lemma categorize_step_parts (i : Ambiguity.AmbiguityIssue)
    (l t r : list Ambiguity.AmbiguityIssue) :
  Ambiguity.categorize_step (l, t, r) i
  = ((l ++ Reference.lexical_part [i])%list,
     (t ++ Reference.testability_part [i])%list,
     (r ++ Reference.references_part [i])%list).
Proof.
  unfold Ambiguity.categorize_step, Reference.lexical_part, Reference.testability_part,
    Reference.references_part, Reference.of_kind. simpl.
  destruct (String.eqb_spec (Ambiguity.issue_type i) "Subjective term") as [E | _];
    [rewrite E; simpl; now rewrite !app_nil_r |].
  destruct (String.eqb_spec (Ambiguity.issue_type i) "Non-testable statement") as [E | _];
    [rewrite E; simpl; now rewrite !app_nil_r |].
  destruct (String.eqb_spec (Ambiguity.issue_type i) "Undefined reference") as [E | _];
    [rewrite E; simpl; now rewrite !app_nil_r |].
  destruct (String.eqb_spec (Ambiguity.issue_type i) "Weak modality") as [E | _];
    simpl; now rewrite ?app_nil_r.
Qed.

Lemma categorize_from (issues : list Ambiguity.AmbiguityIssue) :
  forall l t r,
    fold_left Ambiguity.categorize_step issues (l, t, r)
    = ((l ++ Reference.lexical_part issues)%list,
       (t ++ Reference.testability_part issues)%list,
       (r ++ Reference.references_part issues)%list).
Proof.
  induction issues as [| i issues IH]; intros l t r.
  - simpl. now rewrite !app_nil_r.
  - cbn [fold_left]. rewrite categorize_step_parts, IH.
    unfold Reference.lexical_part, Reference.testability_part, Reference.references_part.
    rewrite <- !app_assoc, <- !filter_app. reflexivity.
Qed.

Lemma categorize_parts (issues : list Ambiguity.AmbiguityIssue) :
  Ambiguity.categorize issues
  = (Reference.lexical_part issues, Reference.testability_part issues,
     Reference.references_part issues).
Proof. unfold Ambiguity.categorize. now rewrite categorize_from. Qed.

(** ** Weak modality *)

Lemma weak_modality_weight (i : Ambiguity.AmbiguityIssue) :
  Ambiguity.issue_type i = "Weak modality" -> Ambiguity.issue_weight i = 8%Z.
Proof.
  intro E. unfold Ambiguity.issue_weight, Ambiguity._get_subjective_term_weight.
  rewrite E. reflexivity.
Qed.

(** C6: "The system should log errors" yields exactly one issue, the Weak
    modality issue of "should"; every Weak modality issue of any issue
    list is in the lexical and in the testability partition, where it
    weighs 8; for this text both components are positive (20 and 24). *)
Theorem should_is_weak_modality_in_both_components (nlp : string -> Ambiguity.Doc) :
  map (fun t => (Ambiguity.tok_text t, Ambiguity.idx t)) (nlp "the system should log errors")
  = [("the", 0); ("system", 4); ("should", 11); ("log", 18); ("errors", 22)]%nat ->
  let text := "The system should log errors" in
  let issues := Ambiguity.detect_ambiguities nlp text in
  issues = [ {| Ambiguity.issue_type := "Weak modality";
                Ambiguity.issue_text := "should";
                Ambiguity.issue_message := "Optional/weak requirement term: 'should'";
                Ambiguity.start_char := Some 11%Z;
                Ambiguity.end_char := Some 17%Z |} ]
  /\ (forall (l : list Ambiguity.AmbiguityIssue) (i : Ambiguity.AmbiguityIssue),
        In i l -> Ambiguity.issue_type i = "Weak modality" ->
        let '(lexical_issues, testability_issues, _) := Ambiguity.categorize l in
        In i lexical_issues /\ In i testability_issues /\ Ambiguity.issue_weight i = 8%Z)
  /\ Ambiguity.lexical (Ambiguity.components (Ambiguity.calculate_ambiguity_score issues text)) == 20
  /\ Ambiguity.testability (Ambiguity.components (Ambiguity.calculate_ambiguity_score issues text)) == 24.
Proof.
  intros H text issues.
  assert (E : issues = [ {| Ambiguity.issue_type := "Weak modality";
                Ambiguity.issue_text := "should";
                Ambiguity.issue_message := "Optional/weak requirement term: 'should'";
                Ambiguity.start_char := Some 11%Z;
                Ambiguity.end_char := Some 17%Z |} ]).
  { subst issues text. unfold Ambiguity.detect_ambiguities.
    change (Py.lower "The system should log errors") with "the system should log errors".
    destruct (nlp "the system should log errors")
      as [| [x1 n1 p1 d1] [| [x2 n2 p2 d2] [| [x3 n3 p3 d3] [| [x4 n4 p4 d4]
           [| [x5 n5 p5 d5] [| ? ?]]]]]]; try discriminate H.
    cbn [map Ambiguity.tok_text Ambiguity.idx] in H.
    injection H as -> -> -> -> -> -> -> -> -> ->.
    vm_compute. reflexivity. }
  split; [exact E |]. split.
  - intros l i Hi Ht. rewrite categorize_parts.
    unfold Reference.lexical_part, Reference.testability_part.
    rewrite !filter_In. unfold Reference.of_kind. rewrite Ht. simpl.
    repeat split; try assumption. now apply weak_modality_weight.
  - rewrite E. subst text. vm_compute. split; reflexivity.
Qed.

Lemma should_is_weak_modality_witness :
  let nlp := Concrete.whitespace_nlp in
  let text := "The system should log errors" in
  let issues := Ambiguity.detect_ambiguities nlp text in
  map (fun t => (Ambiguity.tok_text t, Ambiguity.idx t)) (nlp "the system should log errors")
  = [("the", 0); ("system", 4); ("should", 11); ("log", 18); ("errors", 22)]%nat
  /\ List.length issues = 1%nat
  /\ Ambiguity.lexical (Ambiguity.components (Ambiguity.calculate_ambiguity_score issues text)) == 20
  /\ Ambiguity.testability (Ambiguity.components (Ambiguity.calculate_ambiguity_score issues text)) == 24.
Proof.
  intros nlp text issues.
  assert (H : map (fun t => (Ambiguity.tok_text t, Ambiguity.idx t))
                (nlp "the system should log errors")
              = [("the", 0); ("system", 4); ("should", 11); ("log", 18); ("errors", 22)]%nat)
    by reflexivity.
  destruct (should_is_weak_modality_in_both_components nlp H) as [E [_ [L T]]].
  split; [exact H |]. split; [| split; assumption].
  subst issues text. rewrite E. reflexivity.
Defined.

(** ** Multi-word terms *)

Lemma mem_spaceless (token : Ambiguity.Token) (l : list string) :
  Ambiguity.spaceless token = true ->
  Forall (fun s => existsb Py.is_space (list_ascii_of_string s) = true) l ->
  Py.mem (Ambiguity.tok_text token) l = false.
Proof.
  intros Hs Hl. apply mem_not_In. intro Hin.
  rewrite Forall_forall in Hl. specialize (Hl _ Hin).
  unfold Ambiguity.spaceless in Hs. rewrite Hl in Hs. discriminate.
Qed.

(** No token produced by a tokenizer that splits at white space is one
    of the multi-word weak-modality terms: they are never reported. *)
Lemma multi_word_terms_never_reported (doc : Ambiguity.Doc) (original_text : string) :
  forallb Ambiguity.spaceless doc = true ->
  forall i, In i (Ambiguity._detect_weak_modality doc original_text) ->
    ~ In (Ambiguity.issue_text i) ["if possible"; "as needed"; "when necessary"].
Proof.
  intros Hdoc i Hi Hin. unfold Ambiguity._detect_weak_modality in Hi.
  apply in_flat_map in Hi. destruct Hi as [token [Ht Hi]].
  rewrite forallb_forall in Hdoc. specialize (Hdoc _ Ht).
  destruct (Py.mem (Ambiguity.tok_text token) Ambiguity.weak_modality_terms); [| destruct Hi].
  destruct Hi as [<- | []]. simpl in Hin.
  assert (K : Py.mem (Ambiguity.tok_text token)
                ["if possible"; "as needed"; "when necessary"] = false).
  { apply mem_spaceless; [assumption | repeat constructor]. }
  apply mem_not_In in K. apply K. exact Hin.
Qed.

(** C7 (the source departs from it): texts that contain "if possible",
    "as needed" and "when necessary" get no Weak modality issue, because
    the terms are compared with single tokens. *)
Theorem multi_word_weak_modality_not_detected :
  Ambiguity.detect_ambiguities Concrete.whitespace_nlp "Retry the upload if possible" = []
  /\ Ambiguity.detect_ambiguities Concrete.whitespace_nlp "Add more workers as needed" = []
  /\ Ambiguity.detect_ambiguities Concrete.whitespace_nlp "Rotate the logs when necessary" = [].
Proof. vm_compute. repeat split. Qed.

(** ** The approximation [pow_floor] *)

Lemma search_bits_spec (P : Z -> bool) :
  (forall j k, (0 <= j <= k)%Z -> P k = true -> P j = true) ->
  forall (n : nat) (r : Z),
    (0 <= r)%Z -> P r = true ->
    P (Concrete.search_bits P n r) = true
    /\ (r <= Concrete.search_bits P n r)%Z
    /\ (forall k, P k = true -> (k < r + 2 ^ Z.of_nat n)%Z ->
          (k <= Concrete.search_bits P n r)%Z).
Proof.
  intros Hdown. induction n as [| n IH]; intros r Hr HP.
  - simpl. repeat split; [assumption | lia | intros k _ Hk; lia].
  - cbn [Concrete.search_bits].
    assert (Hpow : (0 < 2 ^ Z.of_nat n)%Z) by (apply Z.pow_pos_nonneg; lia).
    assert (Hs : (2 ^ Z.of_nat (S n) = 2 * 2 ^ Z.of_nat n)%Z)
      by (rewrite Nat2Z.inj_succ, Z.pow_succ_r; lia).
    destruct (P (r + 2 ^ Z.of_nat n)%Z) eqn:E.
    + destruct (IH (r + 2 ^ Z.of_nat n)%Z ltac:(lia) E) as [H1 [H2 H3]].
      repeat split; [assumption | lia |].
      intros k Hk Hlt. apply H3; [assumption | lia].
    + destruct (IH r Hr HP) as [H1 [H2 H3]].
      repeat split; [assumption | assumption |].
      intros k Hk Hlt. apply H3; [assumption |].
      destruct (Z_lt_le_dec k (r + 2 ^ Z.of_nat n)) as [Hlt' | Hge]; [assumption |].
      exfalso. rewrite (Hdown (r + 2 ^ Z.of_nat n)%Z k ltac:(lia) Hk) in E. discriminate.
Qed.

Lemma below_down (a b p q : Z) :
  (0 < b)%Z -> (0 <= q)%Z ->
  forall j k, (0 <= j <= k)%Z ->
    Concrete.below a b p q k = true -> Concrete.below a b p q j = true.
Proof.
  intros Hb Hq j k Hjk. unfold Concrete.below. rewrite !Z.leb_le. intro H.
  assert (Hjq : (j ^ q <= k ^ q)%Z) by (apply Z.pow_le_mono_l; lia).
  assert (Hbp : (0 <= b ^ p)%Z) by (apply Z.pow_nonneg; lia).
  nia.
Qed.

Lemma below_zero (a b p q : Z) :
  (0 <= a)%Z -> (0 < q)%Z -> Concrete.below a b p q 0 = true.
Proof.
  intros Ha Hq. unfold Concrete.below. rewrite Z.leb_le.
  assert (H1 : (0 <= a ^ p)%Z) by (apply Z.pow_nonneg; lia).
  assert (H2 : (0 <= Concrete.scale ^ q)%Z)
    by (apply Z.pow_nonneg; unfold Concrete.scale; lia).
  rewrite Z.pow_0_l by assumption. nia.
Qed.

Lemma scale_pos : (0 < Concrete.scale)%Z.
Proof. reflexivity. Qed.

(** [0 ** e = 0] for a positive exponent. *)
Lemma pow_floor_zero (x e : Q) :
  x == 0 -> 0 < e -> Concrete.pow_floor x e == 0.
Proof.
  intros Hx He.
  assert (Ha : Qnum x = 0%Z) by (unfold Qeq in Hx; simpl in Hx; lia).
  assert (Hp : (0 < Qnum e)%Z) by (unfold Qlt in He; simpl in He; lia).
  unfold Concrete.pow_floor. rewrite Ha.
  replace (Qnum e <? 0)%Z with false by (symmetry; apply Z.ltb_ge; lia).
  cbn [Z.ltb Z.compare orb].
  set (P := Concrete.below 0 (Z.pos (Qden x)) (Qnum e) (Z.pos (Qden e))).
  destruct (search_bits_spec P
              (below_down 0 (Z.pos (Qden x)) (Qnum e) (Z.pos (Qden e))
                 (Pos2Z.is_pos _) (Pos2Z.is_nonneg _))
              (Concrete.bits 0 (Z.pos (Qden x)) (Qnum e)) 0%Z (Z.le_refl 0)
              (below_zero 0 (Z.pos (Qden x)) (Qnum e) (Z.pos (Qden e))
                 (Z.le_refl 0) (Pos2Z.is_pos _)))
    as [HP [Hge _]].
  set (R := Concrete.search_bits P _ 0%Z) in *.
  assert (HR : R = 0%Z).
  { destruct (Z.eq_dec R 0) as [E | NE]; [exact E | exfalso].
    unfold P, Concrete.below in HP. rewrite Z.leb_le in HP.
    rewrite (Z.pow_0_l (Qnum e)) in HP by assumption.
    assert (H1 : (0 < R ^ Z.pos (Qden e))%Z) by (apply Z.pow_pos_nonneg; lia).
    assert (H2 : (0 < Z.pos (Qden x) ^ Qnum e)%Z) by (apply Z.pow_pos_nonneg; lia).
    nia. }
  rewrite HR. reflexivity.
Qed.

Lemma log2_up_bound (m : Z) : (1 < m)%Z -> (m <= 2 ^ Z.of_nat (Z.to_nat (Z.log2_up m)))%Z.
Proof.
  intro H. rewrite Z2Nat.id by apply Z.log2_up_nonneg.
  apply Z.log2_up_spec. assumption.
Qed.

(** [x ** (p/10) >= 16] for [x >= 80], when [80^p >= 16^10]. *)
Lemma pow_floor_lower_bound (x : Q) (p : Z) :
  (0 < p)%Z -> (16 ^ 10 <= 80 ^ p)%Z ->
  80 <= x -> 16 <= Concrete.pow_floor x (Qmake p 10).
Proof.
  intros Hp H80 Hx.
  destruct x as [a b]. unfold Qle in Hx. cbn [Qnum Qden] in Hx.
  assert (Hab : (80 * Z.pos b <= a)%Z) by lia.
  unfold Concrete.pow_floor. cbn [Qnum Qden].
  replace (a <? 0)%Z with false by (symmetry; apply Z.ltb_ge; lia).
  replace (p <? 0)%Z with false by (symmetry; apply Z.ltb_ge; lia).
  cbn [orb].
  set (P := Concrete.below a (Z.pos b) p 10).
  assert (Ha : (0 <= a)%Z) by lia.
  destruct (search_bits_spec P
              (below_down a (Z.pos b) p 10 (Pos2Z.is_pos _) (Pos2Z.is_nonneg _))
              (Concrete.bits a (Z.pos b) p) 0%Z (Z.le_refl 0)
              (below_zero a (Z.pos b) p 10 Ha (Pos2Z.is_pos _)))
    as [_ [_ Hmax]].
  set (R := Concrete.search_bits P _ 0%Z) in *.
  assert (HR : (16 * Concrete.scale <= R)%Z).
  { apply Hmax.
    - unfold P, Concrete.below. rewrite Z.leb_le.
      rewrite Z.pow_mul_l.
      assert (H1 : ((80 * Z.pos b) ^ p <= a ^ p)%Z) by (apply Z.pow_le_mono_l; lia).
      rewrite Z.pow_mul_l in H1.
      assert (H2 : (0 <= Z.pos b ^ p)%Z) by (apply Z.pow_nonneg; lia).
      assert (H3 : (0 <= Concrete.scale ^ 10)%Z) by (apply Z.pow_nonneg; unfold Concrete.scale; lia).
      nia.
    - unfold Concrete.bits.
      assert (Hd : (80 <= a / Z.pos b)%Z) by (apply Z.div_le_lower_bound; lia).
      assert (Hq : (82 ^ 1 <= (a / Z.pos b + 2) ^ (p + 1))%Z).
      { transitivity ((a / Z.pos b + 2) ^ 1)%Z.
        - apply Z.pow_le_mono_l; lia.
        - apply Z.pow_le_mono_r; lia. }
      pose proof scale_pos as Hs.
      assert (Hm : (16 * Concrete.scale < Concrete.scale * (a / Z.pos b + 2) ^ (p + 1))%Z)
        by nia.
      pose proof (log2_up_bound (Concrete.scale * (a / Z.pos b + 2) ^ (p + 1))%Z ltac:(lia)).
      lia. }
  unfold Qle, Qdiv, Qmult, Qinv, inject_Z. cbn [Qnum Qden Concrete.scale].
  change (Concrete.scale) with 1000000000%Z in HR.
  cbn. lia.
Qed.

Lemma pow_floor_lower (x : Q) :
  80 <= x -> 16 <= Concrete.pow_floor x 0.8 /\ 16 <= Concrete.pow_floor x 0.9.
Proof.
  intro H. split.
  - apply (pow_floor_lower_bound x 8); [lia | vm_compute; discriminate | exact H].
  - apply (pow_floor_lower_bound x 9); [lia | vm_compute; discriminate | exact H].
Qed.

(** ** The readiness score *)

(** The source function is the reference algorithm, run on the number of
    words of the text or on 50 when the text is empty. *)
Lemma readiness_as_reference (pow : Q -> Q -> Q) (ambiguity_score assumption_score : Q)
    (text : string) :
  Scorer.calculate_readiness_score pow ambiguity_score assumption_score text
  = Reference.readiness pow (Ambiguity.text_length_or_50 text)
      ambiguity_score assumption_score.
Proof.
  unfold Scorer.calculate_readiness_score, Reference.readiness,
    Reference.base_weight_pair, Reference.severity, Reference.complexity_factor,
    Reference.safety_clamp, Reference.clamp.
  destruct (Py.gt assumption_score ambiguity_score);
    [| destruct (Py.gt ambiguity_score 60)];
    destruct (Py.gt assumption_score 70);
    destruct (Py.gt ambiguity_score 70); reflexivity.
Qed.

Lemma complexity_factor_range (word_count : nat) :
  0.9 <= Reference.complexity_factor word_count <= 1.2.
Proof.
  unfold Reference.complexity_factor.
  destruct (word_count <? 10)%nat; [split; lra |].
  destruct (100 <? word_count)%nat; split; lra.
Qed.

(** The saturating curve [100 / (1 + t/10)]. *)
Lemma curve_spec (t : Q) :
  0 <= t ->
  (100 / (1 + t / 10)) * (1 + t * (1 # 10)) == 100 /\ 0 < 100 / (1 + t / 10).
Proof.
  intro H.
  assert (E : 1 + t / 10 == 1 + t * (1 # 10)) by reflexivity.
  assert (Hd : 0 < 1 + t / 10) by (rewrite E; lra).
  split.
  - rewrite <- E, Qmult_comm. apply Qmult_div_r. intro K. rewrite K in Hd. lra.
  - apply Qlt_shift_div_l; [assumption | lra].
Qed.

Lemma safety_clamp_below (total_impact readiness bound : Q) :
  15 < bound -> readiness < bound -> 0 <= readiness ->
  Reference.safety_clamp total_impact readiness < bound.
Proof.
  intros Hb Hr H0. unfold Reference.safety_clamp.
  destruct (Py.gt total_impact 120).
  - destruct (max_cases (readiness * 0.8) 10) as [[_ ->] | [_ ->]]; lra.
  - destruct (Py.gt total_impact 100); [| assumption].
    destruct (max_cases (readiness * 0.9) 15) as [[_ ->] | [_ ->]]; lra.
Qed.

Lemma classify_high_risk (r : Q) :
  r < 40 -> Scorer.classify_readiness (Reference.clamp 0.0 95.0 r) = Scorer.HIGH_RISK.
Proof.
  intro H. unfold Scorer.classify_readiness, Reference.clamp.
  assert (K : Py.max 0.0 (Py.min 95.0 r) < 40).
  { destruct (min_cases 95.0 r) as [[H1 ->] | [H1 ->]];
      [destruct (max_cases 0.0 r) as [[H2 ->] | [H2 ->]]
      | destruct (max_cases 0.0 95.0) as [[H2 ->] | [H2 ->]]]; lra. }
  destruct (Py.ge _ 70) eqn:E1; [apply ge_true in E1; lra |].
  destruct (Py.ge _ 40) eqn:E2; [apply ge_true in E2; lra | reflexivity].
Qed.

Lemma classify_ready (r : Q) :
  70 <= r -> Scorer.classify_readiness (Reference.clamp 0.0 95.0 r) = Scorer.READY.
Proof.
  intro H. unfold Scorer.classify_readiness, Reference.clamp.
  assert (K : 70 <= Py.max 0.0 (Py.min 95.0 r)).
  { destruct (min_cases 95.0 r) as [[H1 ->] | [H1 ->]];
      [destruct (max_cases 0.0 r) as [[H2 ->] | [H2 ->]]
      | destruct (max_cases 0.0 95.0) as [[H2 ->] | [H2 ->]]]; lra. }
  destruct (Py.ge _ 70) eqn:E1; [reflexivity | apply ge_false in E1; lra].
Qed.

(** C2 as amended: for scores in [0, 100], [calculate_readiness_score]
    is the reference algorithm of the specification, where the word count
    is the number of words of the text, and 50 when the text is the empty
    string. *)
Theorem readiness_is_reference_with_default_length
    (pow : Q -> Q -> Q) (ambiguity_score assumption_score : Q) (text : string) :
  0 <= ambiguity_score <= 100 ->
  0 <= assumption_score <= 100 ->
  Scorer.calculate_readiness_score pow ambiguity_score assumption_score text
  = Reference.readiness pow
      (match text with
       | EmptyString => 50%nat
       | String _ _ => Reference.word_count text
       end)
      ambiguity_score assumption_score.
Proof.
  intros _ _. rewrite readiness_as_reference. destruct text; reflexivity.
Qed.

Lemma readiness_is_reference_witness :
  0 <= 75 <= 100
  /\ 0 <= 80 <= 100
  /\ Scorer.calculate_readiness_score Concrete.pow_floor 75 80 "Open the settings page"
     = Reference.readiness Concrete.pow_floor
         (Reference.word_count "Open the settings page") 75 80.
Proof.
  assert (Ha : 0 <= 75 <= 100) by (split; discriminate).
  assert (Hs : 0 <= 80 <= 100) by (split; discriminate).
  split; [exact Ha |]. split; [exact Hs |].
  apply (readiness_is_reference_with_default_length Concrete.pow_floor 75 80
           "Open the settings page" Ha Hs).
Defined.

(** C2 as stated fails on the empty text: the source takes 50 words, the
    reference algorithm counts none.  With scores 32 and 0 the source
    gives 100 / 1.64 and the reference 1.2 times that. *)
Lemma readiness_differs_on_empty_text :
  Scorer.calculate_readiness_score Concrete.pow_floor 32 0 "" == 2500 # 41
  /\ Reference.readiness Concrete.pow_floor (Reference.word_count "") 32 0 == 3000 # 41
  /\ ~ Scorer.calculate_readiness_score Concrete.pow_floor 32 0 ""
        == Reference.readiness Concrete.pow_floor (Reference.word_count "") 32 0.
Proof.
  split; [vm_compute; reflexivity |]. split; [vm_compute; reflexivity |].
  vm_compute. discriminate.
Qed.

Section ReadinessClassification.

Variable pow : Q -> Q -> Q.

(** What the proofs use of the float power: [0 ** e] is 0 for a positive
    exponent, and [x ** 0.8] and [x ** 0.9] are at least 16 from [x = 80]
    on (their values at 80 are about 33.3 and 51.6). *)
Hypothesis pow_zero : forall x e, x == 0 -> 0 < e -> pow x e == 0.
Hypothesis pow_lower : forall x, 80 <= x -> 16 <= pow x 0.8 /\ 16 <= pow x 0.9.

Lemma no_issue_is_ready (word_count : nat) (ambiguity_score assumption_score : Q) :
  ambiguity_score == 0 -> assumption_score == 0 ->
  Scorer.classify_readiness
    (Reference.readiness pow word_count ambiguity_score assumption_score)
  = Scorer.READY.
Proof.
  intros Ha Hs.
  unfold Reference.readiness, Reference.base_weight_pair, Reference.severity.
  replace (Py.gt assumption_score ambiguity_score) with false
    by (symmetry; apply gt_false; lra).
  replace (Py.gt ambiguity_score 60) with false by (symmetry; apply gt_false; lra).
  replace (Py.gt ambiguity_score 70) with false by (symmetry; apply gt_false; lra).
  replace (Py.gt assumption_score 70) with false by (symmetry; apply gt_false; lra).
  cbv iota.
  assert (P8 : pow ambiguity_score 0.8 == 0) by (apply pow_zero; [assumption | lra]).
  assert (P9 : pow assumption_score 0.9 == 0) by (apply pow_zero; [assumption | lra]).
  set (total := Py.min 80 (pow ambiguity_score 0.8) * 0.4
                + Py.min 85 (pow assumption_score 0.9) * 0.6).
  assert (T : total == 0).
  { unfold total.
    destruct (min_cases 80 (pow ambiguity_score 0.8)) as [[_ ->] | [H _]]; [| lra].
    destruct (min_cases 85 (pow assumption_score 0.9)) as [[_ ->] | [H _]]; lra. }
  apply classify_ready.
  destruct (curve_spec total ltac:(lra)) as [C1 C2].
  set (r := 100 / (1 + total / 10)) in *.
  assert (R : r == 100) by nra.
  pose proof (complexity_factor_range word_count) as [F1 F2].
  set (f := Reference.complexity_factor word_count) in *.
  assert (RF : 90 <= r * f) by nra.
  unfold Reference.safety_clamp.
  destruct (Py.gt total 120) eqn:E1; [apply gt_true in E1; lra |].
  destruct (Py.gt total 100) eqn:E2; [apply gt_true in E2; lra |].
  lra.
Qed.

Lemma both_high_is_high_risk (word_count : nat) (ambiguity_score assumption_score : Q) :
  80 <= ambiguity_score -> 80 <= assumption_score ->
  Scorer.classify_readiness
    (Reference.readiness pow word_count ambiguity_score assumption_score)
  = Scorer.HIGH_RISK.
Proof.
  intros Ha Hs.
  destruct (pow_lower ambiguity_score Ha) as [A8 _].
  destruct (pow_lower assumption_score Hs) as [_ S9].
  unfold Reference.readiness, Reference.base_weight_pair, Reference.severity.
  replace (Py.gt ambiguity_score 70) with true by (symmetry; apply gt_true; lra).
  replace (Py.gt assumption_score 70) with true by (symmetry; apply gt_true; lra).
  replace (Py.gt ambiguity_score 60) with true by (symmetry; apply gt_true; lra).
  assert (M8 : 16 <= Py.min 80 (pow ambiguity_score 0.8))
    by (destruct (min_cases 80 (pow ambiguity_score 0.8)) as [[_ ->] | [_ ->]]; lra).
  assert (M9 : 16 <= Py.min 85 (pow assumption_score 0.9))
    by (destruct (min_cases 85 (pow assumption_score 0.9)) as [[_ ->] | [_ ->]]; lra).
  set (i8 := Py.min 80 (pow ambiguity_score 0.8)) in *.
  set (i9 := Py.min 85 (pow assumption_score 0.9)) in *.
  pose proof (complexity_factor_range word_count) as [F1 F2].
  set (f := Reference.complexity_factor word_count) in *.
  destruct (Py.gt assumption_score ambiguity_score); cbv iota.
  - set (total := i8 * (0.2 * 1.3) + i9 * (0.8 * 1.5)).
    assert (T : 23 <= total) by (unfold total; lra).
    destruct (curve_spec total ltac:(lra)) as [C1 C2].
    set (r := 100 / (1 + total / 10)) in *.
    assert (R : r * f < 40) by nra.
    assert (R0 : 0 <= r * f) by nra.
    apply classify_high_risk, safety_clamp_below; lra.
  - set (total := i8 * (0.7 * 1.3) + i9 * (0.3 * 1.5)).
    assert (T : 21 <= total) by (unfold total; lra).
    destruct (curve_spec total ltac:(lra)) as [C1 C2].
    set (r := 100 / (1 + total / 10)) in *.
    assert (R : r * f < 40) by nra.
    assert (R0 : 0 <= r * f) by nra.
    apply classify_high_risk, safety_clamp_below; lra.
Qed.

(** C4: with both scores 0 the readiness level is READY, and with both
    scores at least 80 it is HIGH_RISK, whatever the text. *)
Theorem readiness_classification_boundaries :
  (forall text,
     Scorer.classify_readiness (Scorer.calculate_readiness_score pow 0 0 text)
     = Scorer.READY)
  /\ (forall ambiguity_score assumption_score text,
        80 <= ambiguity_score -> 80 <= assumption_score ->
        Scorer.classify_readiness
          (Scorer.calculate_readiness_score pow ambiguity_score assumption_score text)
        = Scorer.HIGH_RISK).
Proof.
  split.
  - intro text. rewrite readiness_as_reference. apply no_issue_is_ready; reflexivity.
  - intros a s text Ha Hs. rewrite readiness_as_reference.
    now apply both_high_is_high_risk.
Qed.

End ReadinessClassification.

Lemma readiness_classification_witness :
  Scorer.classify_readiness
    (Scorer.calculate_readiness_score Concrete.pow_floor 0 0 "Open the page") = Scorer.READY
  /\ 80 <= 85 /\ 80 <= 90
  /\ Scorer.classify_readiness
       (Scorer.calculate_readiness_score Concrete.pow_floor 85 90 "Open the page")
     = Scorer.HIGH_RISK.
Proof.
  destruct (readiness_classification_boundaries Concrete.pow_floor
              pow_floor_zero pow_floor_lower) as [H0 H80].
  split; [apply H0 |].
  split; [lra |]. split; [lra |].
  apply H80; lra.
Defined.

(** ** The empty text *)

Section EmptyText.

Variable pow : Q -> Q -> Q.
Variable nlp : string -> Ambiguity.Doc.

Hypothesis pow_zero : forall x e, x == 0 -> 0 < e -> pow x e == 0.
(** The tokenizer finds no token in the empty text. *)
Hypothesis nlp_empty : nlp "" = [].

Lemma detect_ambiguities_empty : Ambiguity.detect_ambiguities nlp "" = [].
Proof.
  unfold Ambiguity.detect_ambiguities. cbn [Py.lower]. rewrite nlp_empty. reflexivity.
Qed.

Lemma detect_assumptions_empty : Assumption.detect_assumptions nlp "" = [].
Proof.
  unfold Assumption.detect_assumptions. cbn [Py.lower]. rewrite nlp_empty.
  vm_compute. reflexivity.
Qed.

(** C3 as amended: the empty text has no ambiguity and no assumption
    issue; its ambiguity score is 0.0 with confidence HIGH; its assumption
    score is 0.0 with the three strengths NONE; its readiness level is
    READY. *)
Theorem empty_text_analysis :
  let result := Scorer.analyze_text pow nlp "" in
  Ambiguity.detect_ambiguities nlp "" = []
  /\ Assumption.detect_assumptions nlp "" = []
  /\ Ambiguity.score (Scorer.ambiguity result) = 0.0
  /\ Ambiguity.confidence (Scorer.ambiguity result) = "HIGH"
  /\ Assumption.score (Scorer.assumptions result) = 0.0
  /\ Assumption.strength (Assumption.environment
       (Assumption.components (Scorer.assumptions result))) = "NONE"
  /\ Assumption.strength (Assumption.data
       (Assumption.components (Scorer.assumptions result))) = "NONE"
  /\ Assumption.strength (Assumption.state
       (Assumption.components (Scorer.assumptions result))) = "NONE"
  /\ Scorer.classify_readiness (Scorer.calculate_readiness_score pow 0.0 0.0 "") = Scorer.READY
  /\ Scorer.readiness_level result = Scorer.value Scorer.READY.
Proof.
  intro result. subst result. unfold Scorer.analyze_text.
  rewrite detect_ambiguities_empty, detect_assumptions_empty.
  cbn [Ambiguity.calculate_ambiguity_score Assumption.calculate_assumption_score
       Scorer.ambiguity Scorer.assumptions Scorer.readiness_level
       Ambiguity.score Ambiguity.confidence Assumption.score Assumption.components
       Assumption.environment Assumption.data Assumption.state Assumption.strength].
  assert (R : Scorer.classify_readiness (Scorer.calculate_readiness_score pow 0.0 0.0 "")
              = Scorer.READY).
  { rewrite readiness_as_reference. apply no_issue_is_ready;
      [exact pow_zero | reflexivity | reflexivity]. }
  rewrite R. repeat split; reflexivity.
Qed.

End EmptyText.

Lemma empty_text_analysis_witness :
  let result := Scorer.analyze_text Concrete.pow_floor Concrete.whitespace_nlp "" in
  Concrete.whitespace_nlp "" = []
  /\ Ambiguity.confidence (Scorer.ambiguity result) = "HIGH"
  /\ Scorer.readiness_level result = "Ready".
Proof.
  intro result.
  destruct (empty_text_analysis Concrete.pow_floor Concrete.whitespace_nlp
              pow_floor_zero eq_refl)
    as [_ [_ [_ [C [_ [_ [_ [_ [_ L]]]]]]]]].
  split; [reflexivity |]. split; [exact C | exact L].
Defined.

(** C3 as stated fails: the confidence reported for the empty text is
    HIGH, not LOW. *)
Lemma empty_text_confidence_is_not_low :
  let issues := Ambiguity.detect_ambiguities Concrete.whitespace_nlp "" in
  issues = []
  /\ Ambiguity.confidence (Ambiguity.calculate_ambiguity_score issues "") = "HIGH"
  /\ Ambiguity.confidence (Ambiguity.calculate_ambiguity_score issues "") <> "LOW".
Proof.
  split; [reflexivity |]. split; [reflexivity | discriminate].
Qed.

(** ** The ambiguity component score *)

(** C1 (the source departs from it): the compression branch of
    [_calculate_component_score] returns before the clamp to 100.  Ten
    lines "handle errors properly" give ten Non-testable statement
    issues and the testability component 109; forty lines give the
    overall ambiguity score 122.  The readiness score, the assumption
    components and the assumption score are clamped and stay in range
    ([readiness_in_range], [assumption_component_in_range],
    [assumption_score_in_range] below). *)
Theorem ambiguity_scores_exceed_100 :
  let newline := String "010" EmptyString in
  let text10 := String.concat newline (repeat "handle errors properly" 10) in
  let text40 := String.concat newline (repeat "handle errors properly" 40) in
  let analysis text :=
    Ambiguity.calculate_ambiguity_score
      (Ambiguity.detect_ambiguities Concrete.whitespace_nlp text) text in
  List.length (Ambiguity.detect_ambiguities Concrete.whitespace_nlp text10) = 10%nat
  /\ Ambiguity.testability (Ambiguity.components (analysis text10)) == 109
  /\ ~ Ambiguity.testability (Ambiguity.components (analysis text10)) <= 100
  /\ Ambiguity.score (analysis text40) == 122
  /\ ~ Ambiguity.score (analysis text40) <= 100.
Proof.
  vm_compute. repeat split; intro H; apply H; reflexivity.
Qed.

(** ** Monotonicity of the lexical component *)

Lemma fold_weights_shift (issues : list Ambiguity.AmbiguityIssue) :
  forall a,
    fold_left (fun acc issue => (acc + Ambiguity.issue_weight issue)%Z) issues a
    = (a + Ambiguity.sum_weights issues)%Z.
Proof.
  unfold Ambiguity.sum_weights. induction issues as [| i issues IH]; intro a; simpl.
  - lia.
  - rewrite IH, (IH (Ambiguity.issue_weight i)). lia.
Qed.

Lemma sum_weights_insert (l1 l2 : list Ambiguity.AmbiguityIssue) (i : Ambiguity.AmbiguityIssue) :
  Ambiguity.sum_weights (l1 ++ i :: l2) = (Ambiguity.sum_weights (l1 ++ l2) + Ambiguity.issue_weight i)%Z.
Proof.
  unfold Ambiguity.sum_weights. rewrite !fold_left_app. cbn [fold_left].
  rewrite (fold_weights_shift l2 (_ + _)%Z), (fold_weights_shift l2 (fold_left _ l1 0%Z)).
  lia.
Qed.

Lemma get_default_Forall {A : Type} (P : A -> Prop) (k : string)
    (d : list (string * A)) (dflt : A) :
  Forall (fun kv => P (snd kv)) d -> P dflt -> P (Py.get_default k d dflt).
Proof.
  intros Hd Hdflt. unfold Py.get_default.
  induction d as [| [k' v] d IH]; simpl; [assumption |].
  inversion Hd as [| ? ? Hv Hd']; subst.
  destruct (String.eqb k k'); [exact Hv | now apply IH].
Qed.

Lemma subjective_weight_range (i : Ambiguity.AmbiguityIssue) :
  Ambiguity.issue_type i = "Subjective term" ->
  (5 <= Ambiguity.issue_weight i <= 10)%Z.
Proof.
  intro E. unfold Ambiguity.issue_weight. rewrite E. cbn [Py.get Ambiguity.AMBIGUITY_WEIGHTS String.eqb Ascii.eqb Bool.eqb].
  unfold Ambiguity._get_subjective_term_weight. rewrite E.
  cbn [String.eqb Ascii.eqb Bool.eqb negb].
  destruct (Ambiguity.first_category _ _);
    apply (get_default_Forall (fun w => (5 <= w <= 10)%Z));
    try (repeat constructor; simpl; lia); lia.
Qed.

(** The score of a non-empty issue list, in terms of its parts. *)
Lemma lexical_score_nonempty (issues : list Ambiguity.AmbiguityIssue) (text : string) :
  issues <> [] ->
  Ambiguity._calculate_component_score issues text "lexical"
  = Ambiguity.normalize (inject_Z (Ambiguity.sum_weights issues)
               + Ambiguity.lexical_density (List.length issues) (Ambiguity.text_length_or_50 text)).
Proof.
  intro H. destruct issues as [| i issues]; [contradiction |]. reflexivity.
Qed.

Lemma normalize_monotone (x y : Q) : x <= y -> Ambiguity.normalize x <= Ambiguity.normalize y.
Proof.
  intro H. unfold Ambiguity.normalize.
  destruct (Py.gt x 80) eqn:Ex; [apply gt_true in Ex | apply gt_false in Ex];
    (destruct (Py.gt y 80) eqn:Ey; [apply gt_true in Ey | apply gt_false in Ey]).
  - lra.
  - lra.
  - destruct (min_cases 100 x) as [[? ->] | [? ->]]; lra.
  - destruct (min_cases 100 x) as [[? ->] | [? ->]];
      destruct (min_cases 100 y) as [[? ->] | [? ->]]; lra.
Qed.

Lemma normalize_nonneg (x : Q) : 0 <= x -> 0 <= Ambiguity.normalize x.
Proof.
  intro H. unfold Ambiguity.normalize.
  destruct (Py.gt x 80) eqn:Ex; [apply gt_true in Ex; lra |].
  destruct (min_cases 100 x) as [[? ->] | [? ->]]; lra.
Qed.

Lemma of_nat_S (n : nat) : Py.of_nat (S n) == Py.of_nat n + 1.
Proof.
  unfold Py.of_nat. rewrite Nat2Z.inj_succ. unfold Z.succ.
  rewrite inject_Z_plus. reflexivity.
Qed.

Lemma of_nat_le (n m : nat) : (n <= m)%nat -> Py.of_nat n <= Py.of_nat m.
Proof.
  intro H. unfold Py.of_nat. rewrite <- Zle_Qle. lia.
Qed.

Lemma of_nat_nonneg (n : nat) : 0 <= Py.of_nat n.
Proof. apply (of_nat_le 0 n). lia. Qed.

Lemma ratio_spec (a b : Q) : 0 < b -> (a / b) * b == a.
Proof.
  intro H. rewrite Qmult_comm. apply Qmult_div_r. intro K. rewrite K in H. lra.
Qed.

Lemma lexical_density_nonneg (n m : nat) : 0 <= Ambiguity.lexical_density n m.
Proof.
  unfold Ambiguity.lexical_density.
  pose proof (of_nat_nonneg n) as Hn.
  assert (Hm : 5 <= Py.of_nat (Nat.max m 5)) by (apply (of_nat_le 5); lia).
  pose proof (ratio_spec (Py.of_nat n) (Py.of_nat (Nat.max m 5)) ltac:(lra)) as R.
  set (x := Py.of_nat n / Py.of_nat (Nat.max m 5)) in *.
  assert (Hx : 0 <= x) by nra.
  destruct (min_cases 30 (x * 60)) as [[? ->] | [? ->]]; lra.
Qed.

(** One more issue and at most one more word do not lower the density
    term. *)
Lemma lexical_density_monotone (n m m' : nat) :
  (Nat.max m' 5 <= Nat.max m 5 + 1)%nat ->
  Ambiguity.lexical_density n m <= Ambiguity.lexical_density (S n) m'.
Proof.
  intro Hm. unfold Ambiguity.lexical_density.
  pose proof (of_nat_nonneg n) as Hn.
  pose proof (of_nat_S n) as HS.
  assert (H5 : 5 <= Py.of_nat (Nat.max m 5)) by (apply (of_nat_le 5); lia).
  assert (H5' : 5 <= Py.of_nat (Nat.max m' 5)) by (apply (of_nat_le 5); lia).
  assert (Hle : Py.of_nat (Nat.max m' 5) <= Py.of_nat (Nat.max m 5) + 1).
  { rewrite <- (of_nat_S (Nat.max m 5)). apply of_nat_le. lia. }
  pose proof (ratio_spec (Py.of_nat n) (Py.of_nat (Nat.max m 5)) ltac:(lra)) as R.
  pose proof (ratio_spec (Py.of_nat (S n)) (Py.of_nat (Nat.max m' 5)) ltac:(lra)) as R'.
  set (N := Py.of_nat n) in *. set (N' := Py.of_nat (S n)) in *.
  set (M := Py.of_nat (Nat.max m 5)) in *. set (M' := Py.of_nat (Nat.max m' 5)) in *.
  set (x := N / M) in *. set (x' := N' / M') in *.
  assert (Hx : 0 <= x) by nra.
  assert (Hx' : 0 <= x') by nra.
  destruct (min_cases 30 (x' * 60)) as [[H' ->] | [H' ->]].
  - (* the new density is below the cap *)
    assert (K : x <= x').
    { destruct (Qlt_le_dec x' x) as [Hlt | Hge]; [exfalso | exact Hge].
      assert (P1 : 0 < (x - x') * M) by (apply Qmult_lt_0_compat; lra).
      assert (P2 : 0 <= x' * (M + 1 - M')) by (apply Qmult_le_0_compat; lra).
      lra. }
    destruct (min_cases 30 (x * 60)) as [[? ->] | [? ->]]; lra.
  - destruct (min_cases 30 (x * 60)) as [[? ->] | [? ->]]; lra.
Qed.

(** C9 as amended: when the lexical issues of the extended text are those
    of the original text with the issue of the appended subjective term
    inserted, and the extended text has one more word, the lexical
    component score does not decrease. *)
Theorem lexical_score_monotone_when_issues_kept
    (l1 l2 : list Ambiguity.AmbiguityIssue) (i : Ambiguity.AmbiguityIssue)
    (text text' : string) :
  Ambiguity.issue_type i = "Subjective term" ->
  Reference.word_count text' = S (Reference.word_count text) ->
  Ambiguity._calculate_component_score (l1 ++ l2) text "lexical"
  <= Ambiguity._calculate_component_score (l1 ++ i :: l2) text' "lexical".
Proof.
  intros Hi Hw.
  pose proof (subjective_weight_range i Hi) as [W5 _].
  assert (W : 5 <= inject_Z (Ambiguity.issue_weight i))
    by (change 5 with (inject_Z 5); rewrite <- Zle_Qle; exact W5).
  rewrite (lexical_score_nonempty (l1 ++ i :: l2)%list text')
    by (intro K; apply app_eq_nil in K; destruct K as [_ K]; discriminate K).
  rewrite sum_weights_insert, inject_Z_plus.
  replace (List.length (l1 ++ i :: l2)%list) with (S (List.length (l1 ++ l2)%list))
    by (rewrite !length_app; simpl; lia).
  destruct (l1 ++ l2)%list as [| j l] eqn:E.
  - (* no issue before *)
    cbn [Ambiguity._calculate_component_score Ambiguity.sum_weights fold_left List.length].
    apply normalize_nonneg.
    pose proof (lexical_density_nonneg 1 (Ambiguity.text_length_or_50 text')).
    change (inject_Z 0) with 0.
    set (w := inject_Z (Ambiguity.issue_weight i)) in *. clearbody w. lra.
  - rewrite <- E. rewrite (lexical_score_nonempty (l1 ++ l2)%list text)
      by (rewrite E; discriminate).
    apply normalize_monotone.
    assert (D : Ambiguity.lexical_density (List.length (l1 ++ l2)%list) (Ambiguity.text_length_or_50 text)
                <= Ambiguity.lexical_density (S (List.length (l1 ++ l2)%list))
                     (Ambiguity.text_length_or_50 text')).
    { apply lexical_density_monotone.
      unfold Reference.word_count in Hw. unfold Ambiguity.text_length_or_50.
      destruct text'; [simpl in Hw; discriminate Hw |].
      cbn [Py.truthy]. rewrite Hw.
      destruct text as [| c text]; [cbn; lia | cbn [Py.truthy]; lia]. }
    set (w := inject_Z (Ambiguity.issue_weight i)) in *.
    set (b := inject_Z (Ambiguity.sum_weights (l1 ++ l2)%list)) in *.
    clearbody w b. lra.
Qed.

Lemma lexical_score_monotone_witness :
  let nlp := Concrete.whitespace_nlp in
  let text := "The API is fast" in
  let text' := "The API is fast secure" in
  let before := Reference.lexical_part (Ambiguity.detect_ambiguities nlp text) in
  let after := Reference.lexical_part (Ambiguity.detect_ambiguities nlp text') in
  exists i,
    after = (before ++ [i])%list
    /\ Ambiguity.issue_type i = "Subjective term"
    /\ Reference.word_count text' = S (Reference.word_count text)
    /\ Ambiguity._calculate_component_score before text "lexical"
       <= Ambiguity._calculate_component_score after text' "lexical".
Proof.
  intros nlp text text' before after.
  exists (Ambiguity.subjective_issue (Ambiguity.mkToken "secure" 16 "" "") text').
  assert (E : after = (before ++ [Ambiguity.subjective_issue
                                    (Ambiguity.mkToken "secure" 16 "" "") text'])%list)
    by reflexivity.
  split; [exact E |]. split; [reflexivity |]. split; [reflexivity |].
  rewrite E.
  apply (lexical_score_monotone_when_issues_kept before []); reflexivity.
Defined.

(** C9 as stated fails: in "fast and fast for 5" both "fast" are flagged;
    after " secure" is appended, "5 sec" reads as a duration, both
    "fast" are suppressed and only "secure" is flagged; the lexical
    component falls from 36 to 19. *)
Lemma lexical_score_drops_when_context_appears :
  let nlp := Concrete.whitespace_nlp in
  let text := "fast and fast for 5" in
  let text' := "fast and fast for 5 secure" in
  let flagged t :=
    map Ambiguity.issue_text (Ambiguity._detect_subjective_terms (nlp (Py.lower t)) t) in
  let lexical t :=
    Ambiguity.lexical (Ambiguity.components
      (Ambiguity.calculate_ambiguity_score (Ambiguity.detect_ambiguities nlp t) t)) in
  flagged text = ["fast"; "fast"]
  /\ flagged text' = ["secure"]
  /\ lexical text == 36
  /\ lexical text' == 19
  /\ lexical text' < lexical text.
Proof.
  vm_compute. repeat split.
Qed.

(** ** The white-space tokenizer *)

Lemma existsb_rev {A : Type} (f : A -> bool) (l : list A) :
  existsb f (rev l) = existsb f l.
Proof.
  induction l as [| x l IH]; simpl; [reflexivity |].
  rewrite existsb_app, IH. simpl. rewrite orb_false_r. apply orb_comm.
Qed.

Lemma tokens_from_spaceless (s : string) :
  forall pos cur start,
    existsb Py.is_space cur = false ->
    forallb Ambiguity.spaceless (Concrete.tokens_from s pos cur start) = true.
Proof.
  assert (F : forall cur start acc,
             existsb Py.is_space cur = false ->
             forallb Ambiguity.spaceless acc = true ->
             forallb Ambiguity.spaceless (Concrete.flush_token cur start acc) = true).
  { intros cur start acc Hc Ha. destruct cur as [| c cur]; [exact Ha |].
    cbn [Concrete.flush_token forallb]. rewrite Ha, andb_true_r.
    unfold Ambiguity.spaceless. cbn [Ambiguity.tok_text].
    now rewrite list_ascii_of_string_of_list_ascii, existsb_rev, Hc. }
  induction s as [| c s IH]; intros pos cur start Hc; cbn [Concrete.tokens_from].
  - now apply F.
  - destruct (Py.is_space c) eqn:E.
    + apply F; [assumption | now apply IH].
    + apply IH. cbn [existsb]. now rewrite E, Hc.
Qed.

(** With the white-space tokenizer no text gets a Weak modality issue
    for one of the multi-word terms. *)
Lemma multi_word_terms_never_detected (text : string) :
  forall i,
    In i (Ambiguity._detect_weak_modality (Concrete.whitespace_nlp (Py.lower text)) text) ->
    ~ In (Ambiguity.issue_text i) ["if possible"; "as needed"; "when necessary"].
Proof.
  apply multi_word_terms_never_reported.
  unfold Concrete.whitespace_nlp. now apply tokens_from_spaceless.
Qed.

(** ** Ranges of the scores that are clamped *)

(** For scores that are not negative, the readiness score is in
    [0, 95] whatever the power function answers. *)
Lemma readiness_in_range (pow : Q -> Q -> Q) (ambiguity_score assumption_score : Q)
    (text : string) :
  0 <= ambiguity_score ->
  0 <= assumption_score ->
  0 <= Scorer.calculate_readiness_score pow ambiguity_score assumption_score text <= 95.
Proof.
  intros _ _. rewrite readiness_as_reference. unfold Reference.readiness.
  destruct (Reference.base_weight_pair ambiguity_score assumption_score) as [wa ws].
  unfold Reference.clamp.
  match goal with
  | |- 0 <= Py.max 0.0 (Py.min 95.0 ?r) <= 95 =>
      pose proof (clamp_bounds 0.0 95.0 r ltac:(lra)) as [H1 H2]
  end.
  split; lra.
Qed.

Lemma readiness_in_range_witness :
  0 <= 75
  /\ 0 <= 80
  /\ 0 <= Scorer.calculate_readiness_score Concrete.pow_floor 75 80
            "Open the settings page" <= 95.
Proof.
  assert (Ha : 0 <= 75) by discriminate.
  assert (Hs : 0 <= 80) by discriminate.
  split; [exact Ha |]. split; [exact Hs |].
  apply (readiness_in_range Concrete.pow_floor 75 80 "Open the settings page" Ha Hs).
Defined.

Lemma assumption_weight_nonneg (issue : Assumption.AssumptionIssue) (component_type : string) :
  (0 <= Assumption.issue_weight issue component_type)%Z.
Proof.
  unfold Assumption.issue_weight.
  destruct (Py.get component_type Assumption.ASSUMPTION_WEIGHTS) as [type_weights |] eqn:E;
    [| lia].
  assert (Hw : Forall (fun kv => (0 <= snd kv)%Z) type_weights).
  { unfold Assumption.ASSUMPTION_WEIGHTS in E. cbn [Py.get] in E.
    repeat match type of E with
    | (if ?c then _ else _) = _ =>
        destruct c; [injection E as <-; repeat constructor; simpl; lia |]
    end.
    discriminate E. }
  unfold Assumption._get_assumption_type_weight.
  destruct (Assumption.first_key _ _).
  - apply (get_default_Forall (fun w => (0 <= w)%Z)); [exact Hw | lia].
  - repeat match goal with
    | |- (0 <= (if ?c then _ else _))%Z => destruct c
    end;
    try (apply (get_default_Forall (fun w => (0 <= w)%Z)); [exact Hw | lia]); lia.
Qed.

Lemma assumption_fold_shift (component_type : string) (issues : list Assumption.AssumptionIssue) :
  forall a,
    (a <= fold_left (fun acc issue => acc + Assumption.issue_weight issue component_type)
            issues a)%Z.
Proof.
  induction issues as [| i issues IH]; intro a; simpl; [lia |].
  pose proof (assumption_weight_nonneg i component_type).
  specialize (IH (a + Assumption.issue_weight i component_type)%Z). lia.
Qed.

(** Every assumption component score is in [0, 100]. *)
Lemma assumption_component_in_range (issues : list Assumption.AssumptionIssue)
    (component_type : string) :
  0 <= fst (Assumption._calculate_component_with_strength issues component_type) <= 100.
Proof.
  unfold Assumption._calculate_component_with_strength.
  destruct issues as [| i issues]; [cbn; lra |].
  cbn [fst].
  set (l := i :: issues).
  set (base0 := fold_left _ l 0%Z).
  assert (B0 : (0 <= base0)%Z) by apply assumption_fold_shift.
  set (base := if (1 <? List.length l)%nat then _ else base0).
  assert (B : 0 <= inject_Z base).
  { change 0 with (inject_Z 0). rewrite <- Zle_Qle. unfold base.
    destruct (1 <? List.length l)%nat eqn:E; [| exact B0].
    apply Nat.ltb_lt in E. lia. }
  clearbody base.
  set (ratio := Py.len l / Py.of_nat (Nat.max 50 5)).
  assert (R : 0 <= ratio).
  { unfold ratio. apply Qle_shift_div_l; [reflexivity |].
    rewrite Qmult_0_l. apply of_nat_nonneg. }
  clearbody ratio.
  set (density := if String.eqb component_type "State" then _ else _).
  assert (D : 0 <= density).
  { unfold density.
    destruct (String.eqb component_type "State");
      [| destruct (String.eqb component_type "Environment")];
      match goal with
      | |- 0 <= Py.min ?a ?b => destruct (min_cases a b) as [[? ->] | [? ->]]; lra
      end. }
  clearbody density.
  set (b := inject_Z base) in *. clearbody b.
  set (raw := b + density).
  assert (Hraw : 0 <= raw) by (unfold raw; lra).
  clearbody raw.
  set (final := if Py.gt raw 70 then _ else raw).
  assert (F : 0 <= final).
  { unfold final. destruct (Py.gt raw 70) eqn:E; [apply gt_true in E; lra | exact Hraw]. }
  clearbody final.
  destruct (min_cases 100.0 final) as [[? ->] | [? ->]]; split; lra.
Qed.

Lemma round_half_even_range (y : Q) (lo hi : Z) :
  inject_Z lo <= y <= inject_Z hi -> (lo <= Py.round_half_even y <= hi)%Z.
Proof.
  intros [Hlo Hhi]. unfold Py.round_half_even.
  pose proof (Qfloor_le y) as F1.
  pose proof (Qlt_floor y) as F2.
  assert (L : (lo <= Qfloor y)%Z).
  { rewrite <- (Qfloor_Z lo). now apply Qfloor_resp_le. }
  assert (U : (Qfloor y <= hi)%Z).
  { rewrite <- (Qfloor_Z hi). now apply Qfloor_resp_le. }
  set (f := Qfloor y) in *.
  destruct (Py.lt (y - inject_Z f) (1 # 2)) eqn:E; [lia |].
  assert (K : (f < hi)%Z).
  { unfold Py.lt in E. apply gt_false in E.
    destruct (Z.eq_dec f hi) as [-> | NE]; [lra | lia]. }
  destruct (Py.gt (y - inject_Z f) (1 # 2)); [lia |].
  destruct (Z.even f); lia.
Qed.

Lemma round1_range (x : Q) : 0 <= x <= 100 -> 0 <= Py.round1 x <= 100.
Proof.
  intros [H0 H100]. unfold Py.round1.
  pose proof (round_half_even_range (x * 10) 0 1000) as R.
  assert (H : inject_Z 0 <= x * 10 <= inject_Z 1000).
  { change (inject_Z 0) with 0. change (inject_Z 1000) with 1000. split; lra. }
  specialize (R H). unfold Qle. cbn [Qnum Qden]. lia.
Qed.

(** The overall assumption score is in [0, 100]. *)
Lemma assumption_score_in_range (issues : list Assumption.AssumptionIssue) (text : string) :
  0 <= Assumption.score (Assumption.calculate_assumption_score issues text) <= 100.
Proof.
  unfold Assumption.calculate_assumption_score.
  destruct issues as [| i issues]; [cbn; split; lra |].
  set (l := i :: issues).
  pose proof (assumption_component_in_range (Assumption.of_category "Environment" l)
                "Environment") as He.
  pose proof (assumption_component_in_range (Assumption.of_category "Data" l) "Data") as Hd.
  pose proof (assumption_component_in_range (Assumption.of_category "State" l) "State") as Hs.
  destruct (Assumption._calculate_component_with_strength
              (Assumption.of_category "Environment" l) "Environment") as [e se].
  destruct (Assumption._calculate_component_with_strength
              (Assumption.of_category "Data" l) "Data") as [d sd].
  destruct (Assumption._calculate_component_with_strength
              (Assumption.of_category "State" l) "State") as [s ss].
  cbn [fst Assumption.score] in *.
  apply round1_range. split; lra.
Qed.

(** * Further properties of the source *)

(** ** Readiness levels *)





(** ** Weights of the ambiguity issues *)

Lemma flat_weights (i : Ambiguity.AmbiguityIssue) :
  (Ambiguity.issue_type i = "Undefined reference" -> Ambiguity.issue_weight i = 9%Z)
  /\ (Ambiguity.issue_type i = "Non-testable statement" -> Ambiguity.issue_weight i = 15%Z).
Proof.
  split; intro E; unfold Ambiguity.issue_weight; now rewrite E.
Qed.

Lemma other_type_weight (i : Ambiguity.AmbiguityIssue) :
  ~ In (Ambiguity.issue_type i)
      ["Subjective term"; "Weak modality"; "Undefined reference"; "Non-testable statement"] ->
  Ambiguity.issue_weight i = 0%Z.
Proof.
  intro H. unfold Ambiguity.issue_weight, Ambiguity.AMBIGUITY_WEIGHTS. cbn [Py.get].
  repeat match goal with
  | |- context [String.eqb ?a ?b] =>
      destruct (String.eqb_spec a b) as [E | _];
      [exfalso; apply H; rewrite E; simpl; tauto |]
  end.
  reflexivity.
Qed.

Lemma issue_weight_range (i : Ambiguity.AmbiguityIssue) :
  (0 <= Ambiguity.issue_weight i <= 15)%Z.
Proof.
  destruct (flat_weights i) as [H3 H4].
  destruct (String.eqb_spec (Ambiguity.issue_type i) "Subjective term") as [E | N1];
    [pose proof (subjective_weight_range i E); lia |].
  destruct (String.eqb_spec (Ambiguity.issue_type i) "Weak modality") as [E | N2];
    [rewrite (weak_modality_weight i E); lia |].
  destruct (String.eqb_spec (Ambiguity.issue_type i) "Undefined reference") as [E | N3];
    [specialize (H3 E); lia |].
  destruct (String.eqb_spec (Ambiguity.issue_type i) "Non-testable statement") as [E | N4];
    [specialize (H4 E); lia |].
  rewrite other_type_weight; [lia |]. simpl. intuition congruence.
Qed.

(** The weight an issue adds depends on its type only through this table:
    a Subjective term weighs between 5 and 10, a Weak modality issue
    always 8 (the nested weights 4 to 7 of the table are never read), an
    Undefined reference 9, a Non-testable statement 15, and an issue of
    any other type nothing. *)
Theorem ambiguity_issue_weight_by_type (i : Ambiguity.AmbiguityIssue) :
  (Ambiguity.issue_type i = "Subjective term" -> (5 <= Ambiguity.issue_weight i <= 10)%Z)
  /\ (Ambiguity.issue_type i = "Weak modality" -> Ambiguity.issue_weight i = 8%Z)
  /\ (Ambiguity.issue_type i = "Undefined reference" -> Ambiguity.issue_weight i = 9%Z)
  /\ (Ambiguity.issue_type i = "Non-testable statement" -> Ambiguity.issue_weight i = 15%Z)
  /\ (~ In (Ambiguity.issue_type i)
          ["Subjective term"; "Weak modality"; "Undefined reference";
           "Non-testable statement"] ->
      Ambiguity.issue_weight i = 0%Z).
Proof.
  destruct (flat_weights i) as [H3 H4].
  split; [apply subjective_weight_range |].
  split; [apply weak_modality_weight |].
  split; [exact H3 |]. split; [exact H4 | apply other_type_weight].
Qed.

Lemma ambiguity_issue_weight_witness :
  Ambiguity.issue_weight (Ambiguity.weak_modality_issue
                            (Ambiguity.mkToken "preferably" 0 "" "") "preferably") = 8%Z.
Proof.
  apply (ambiguity_issue_weight_by_type
           (Ambiguity.weak_modality_issue (Ambiguity.mkToken "preferably" 0 "" "") "preferably")).
  reflexivity.
Defined.

(** ** Bounds of the ambiguity scores *)

Lemma sum_weights_range (issues : list Ambiguity.AmbiguityIssue) :
  (0 <= Ambiguity.sum_weights issues <= 15 * Z.of_nat (List.length issues))%Z.
Proof.
  unfold Ambiguity.sum_weights.
  induction issues as [| i issues IH]; [simpl; lia |].
  cbn [fold_left]. rewrite fold_weights_shift. unfold Ambiguity.sum_weights.
  pose proof (issue_weight_range i). rewrite length_cons, Nat2Z.inj_succ. lia.
Qed.

(** The score of a non-empty issue list is the normalized sum of the
    weights and of a density term between 0 and 40. *)
Lemma component_score_parts (issues : list Ambiguity.AmbiguityIssue)
    (text component_type : string) :
  issues <> [] ->
  exists density,
    0 <= density <= 40
    /\ Ambiguity._calculate_component_score issues text component_type
       = Ambiguity.normalize (inject_Z (Ambiguity.sum_weights issues) + density).
Proof.
  intro H. destruct issues as [| i issues]; [contradiction |].
  unfold Ambiguity._calculate_component_score.
  set (l := i :: issues).
  set (ratio := Py.len l / Py.of_nat (Nat.max (Ambiguity.text_length_or_50 text) 5)).
  assert (R : 0 <= ratio).
  { unfold ratio. apply Qle_shift_div_l.
    - apply Qlt_le_trans with (y := 5); [reflexivity |]. apply (of_nat_le 5). lia.
    - rewrite Qmult_0_l. apply of_nat_nonneg. }
  clearbody ratio.
  eexists. split; [| unfold Ambiguity.normalize, Ambiguity.sum_weights; reflexivity].
  destruct (String.eqb component_type "lexical");
    [| destruct (String.eqb component_type "testability")];
    match goal with
    | |- 0 <= Py.min ?a ?b <= 40 => destruct (min_cases a b) as [[? ->] | [? ->]]; split; lra
    end.
Qed.

Lemma normalize_range (x : Q) : 0 <= x <= 145 -> 0 <= Ambiguity.normalize x <= 100.
Proof.
  intros [H0 H1]. split; [now apply normalize_nonneg |].
  unfold Ambiguity.normalize.
  destruct (Py.gt x 80) eqn:E; [apply gt_true in E; lra | apply gt_false in E].
  destruct (min_cases 100 x) as [[? ->] | [? ->]]; lra.
Qed.

Lemma component_score_nonneg (issues : list Ambiguity.AmbiguityIssue)
    (text component_type : string) :
  0 <= Ambiguity._calculate_component_score issues text component_type.
Proof.
  destruct issues as [| i issues]; [cbn; lra |].
  destruct (component_score_parts (i :: issues) text component_type ltac:(discriminate))
    as [d [[D0 D1] ->]].
  apply normalize_nonneg.
  pose proof (sum_weights_range (i :: issues)) as [S0 _].
  assert (0 <= inject_Z (Ambiguity.sum_weights (i :: issues)))
    by (change 0 with (inject_Z 0); now rewrite <- Zle_Qle).
  set (b := inject_Z _) in *. clearbody b. lra.
Qed.

Lemma component_score_small_list (issues : list Ambiguity.AmbiguityIssue)
    (text component_type : string) :
  (List.length issues <= 7)%nat ->
  0 <= Ambiguity._calculate_component_score issues text component_type <= 100.
Proof.
  intro H. destruct issues as [| i issues]; [cbn; split; lra |].
  destruct (component_score_parts (i :: issues) text component_type ltac:(discriminate))
    as [d [[D0 D1] ->]].
  apply normalize_range.
  pose proof (sum_weights_range (i :: issues)) as [S0 S1].
  assert (B0 : 0 <= inject_Z (Ambiguity.sum_weights (i :: issues)))
    by (change 0 with (inject_Z 0); now rewrite <- Zle_Qle).
  assert (B1 : inject_Z (Ambiguity.sum_weights (i :: issues)) <= 105)
    by (change 105 with (inject_Z 105); rewrite <- Zle_Qle; lia).
  set (b := inject_Z _) in *. clearbody b. split; lra.
Qed.

(** A component score is never negative, and it stays within 100 for a
    list of at most 7 issues; 8 Non-testable statement issues in a text of
    8 words already give 104. *)
Theorem component_score_bounded_up_to_7_issues
    (issues : list Ambiguity.AmbiguityIssue) (text component_type : string) :
  0 <= Ambiguity._calculate_component_score issues text component_type
  /\ ((List.length issues <= 7)%nat ->
      Ambiguity._calculate_component_score issues text component_type <= 100)
  /\ Ambiguity._calculate_component_score
       (repeat (Ambiguity.mkAmbiguityIssue "Non-testable statement" "" "" None None) 8)
       "a b c d e f g h" "testability" == 104.
Proof.
  split; [apply component_score_nonneg |]. split; [| reflexivity].
  intro H. now apply component_score_small_list.
Qed.

Lemma component_score_bounded_witness :
  (List.length [Ambiguity.weak_modality_issue (Ambiguity.mkToken "should" 11 "" "")
                  "The system should log errors"] <= 7)%nat
  /\ Ambiguity._calculate_component_score
       [Ambiguity.weak_modality_issue (Ambiguity.mkToken "should" 11 "" "")
          "The system should log errors"]
       "The system should log errors" "lexical" <= 100.
Proof.
  split; [simpl; lia |].
  apply (component_score_bounded_up_to_7_issues
           [Ambiguity.weak_modality_issue (Ambiguity.mkToken "should" 11 "" "")
              "The system should log errors"]
           "The system should log errors" "lexical").
  simpl. lia.
Defined.

(** For at most 7 issues the three components and the overall ambiguity
    score returned by [calculate_ambiguity_score] are in [0, 100]. *)
Theorem ambiguity_score_in_range_up_to_7_issues
    (issues : list Ambiguity.AmbiguityIssue) (text : string) :
  (List.length issues <= 7)%nat ->
  let analysis := Ambiguity.calculate_ambiguity_score issues text in
  0 <= Ambiguity.score analysis <= 100
  /\ 0 <= Ambiguity.lexical (Ambiguity.components analysis) <= 100
  /\ 0 <= Ambiguity.testability (Ambiguity.components analysis) <= 100
  /\ 0 <= Ambiguity.references (Ambiguity.components analysis) <= 100.
Proof.
  intros H analysis. subst analysis. unfold Ambiguity.calculate_ambiguity_score.
  destruct issues as [| i issues]; [cbn; repeat split; lra |].
  set (l := i :: issues) in *.
  rewrite categorize_parts.
  assert (L : forall f, (List.length (filter f l) <= 7)%nat).
  { intro f. pose proof (filter_length_le f l). lia. }
  pose proof (component_score_small_list (Reference.lexical_part l) text "lexical"
                (L _)) as H1.
  pose proof (component_score_small_list (Reference.testability_part l) text "testability"
                (L _)) as H2.
  pose proof (component_score_small_list (Reference.references_part l) text "references"
                (L _)) as H3.
  cbn [Ambiguity.score Ambiguity.components Ambiguity.lexical Ambiguity.testability
       Ambiguity.references].
  set (a := Ambiguity._calculate_component_score (Reference.lexical_part l) text "lexical") in *.
  set (b := Ambiguity._calculate_component_score (Reference.testability_part l) text
              "testability") in *.
  set (c := Ambiguity._calculate_component_score (Reference.references_part l) text
              "references") in *.
  clearbody a b c.
  repeat split; apply round1_range; split; lra.
Qed.

Lemma ambiguity_score_in_range_witness :
  let issues := Ambiguity.detect_ambiguities Concrete.whitespace_nlp
                  "The system should log errors" in
  (List.length issues <= 7)%nat
  /\ 0 <= Ambiguity.score
            (Ambiguity.calculate_ambiguity_score issues "The system should log errors")
       <= 100.
Proof.
  intro issues.
  assert (H : (List.length issues <= 7)%nat) by (vm_compute; lia).
  split; [exact H |].
  apply (ambiguity_score_in_range_up_to_7_issues issues "The system should log errors" H).
Defined.

(** ** Assumption issues *)

(** The issues of the action rule are built from the entries of
    [action_patterns]. *)
Lemma action_issue_origin (doc : Ambiguity.Doc) (text : string) (i : Assumption.AssumptionIssue) :
  In i (Assumption._detect_action_assumptions doc text) ->
  exists action keys key,
    In (action, keys) Assumption.action_patterns
    /\ In key keys
    /\ Py.contains action (Py.lower text) = true
    /\ Assumption._is_assumption_explicit (Py.lower text) key = false
    /\ i = Assumption.action_issue action key.
Proof.
  unfold Assumption._detect_action_assumptions. intro H.
  apply in_flat_map in H. destruct H as [[action keys] [He H]].
  destruct (Py.contains action (Py.lower text)) eqn:C; [| destruct H].
  apply in_flat_map in H. destruct H as [key [Hk H]].
  destruct (Assumption._is_assumption_explicit (Py.lower text) key) eqn:E; [destruct H |].
  destruct H as [<- | []].
  exists action, keys, key. repeat split; assumption.
Qed.

(** A check on every assumption key of [action_patterns]. *)
Lemma action_keys_forall (P : string -> bool) :
  forallb (fun entry => forallb P (snd entry)) Assumption.action_patterns = true ->
  forall action keys key,
    In (action, keys) Assumption.action_patterns -> In key keys -> P key = true.
Proof.
  intros H action keys key He Hk.
  rewrite forallb_forall in H. specialize (H _ He). cbn [snd] in H.
  rewrite forallb_forall in H. now apply H.
Qed.

Lemma environment_issue_shape (text : string) (i : Assumption.AssumptionIssue) :
  In i (Assumption._detect_environment_assumptions text) ->
  i = {| Assumption.issue_type := "Environment assumption";
         Assumption.category := "Environment";
         Assumption.issue_text := "UI interaction";
         Assumption.issue_message := "UI interaction without environment specification";
         Assumption.assumption := "Browser, device, or platform is specified" |}.
Proof.
  unfold Assumption._detect_environment_assumptions.
  destruct (Py.any_in _ _); [| intros []].
  destruct (negb _); [| intros []].
  intros [<- | []]. reflexivity.
Qed.

Lemma context_issue_shape (text : string) (i : Assumption.AssumptionIssue) :
  In i (Assumption._detect_context_assumptions text) ->
  i = {| Assumption.issue_type := "Context assumption";
         Assumption.category := "State";
         Assumption.issue_text := "User-specific action";
         Assumption.issue_message := "User-specific action without user context";
         Assumption.assumption := "User is logged in and authenticated" |}
  \/ i = {| Assumption.issue_type := "Context assumption";
            Assumption.category := "Data";
            Assumption.issue_text := "Data operation";
            Assumption.issue_message := "Data operation without data context";
            Assumption.assumption := "Required data exists in the system" |}.
Proof.
  unfold Assumption._detect_context_assumptions. intro H.
  apply in_app_or in H. destruct H as [H | H].
  - destruct (_ && _) in H; [| destruct H]. destruct H as [<- | []]. now left.
  - destruct (_ && _) in H; [| destruct H]. destruct H as [<- | []]. now right.
Qed.

(** Every issue reported by [detect_assumptions] has one of the three
    categories Environment, Data and State, never "Unknown", and weighs
    between 8 and 15 in the component of its category. *)
Theorem detected_assumptions_are_categorized
    (nlp : string -> Ambiguity.Doc) (text : string) (i : Assumption.AssumptionIssue) :
  In i (Assumption.detect_assumptions nlp text) ->
  In (Assumption.category i) ["Environment"; "Data"; "State"]
  /\ (8 <= Assumption.issue_weight i (Assumption.category i) <= 15)%Z.
Proof.
  unfold Assumption.detect_assumptions. intro H.
  apply in_app_or in H. destruct H as [H | H]; [| apply in_app_or in H; destruct H as [H | H]].
  - apply action_issue_origin in H.
    destruct H as [action [keys [key [He [Hk [_ [_ ->]]]]]]].
    set (P := fun key =>
      Py.mem (Assumption._get_assumption_category key) ["Environment"; "Data"; "State"]
      && (8 <=? Assumption.issue_weight (Assumption.action_issue "" key)
                  (Assumption._get_assumption_category key))%Z
      && (Assumption.issue_weight (Assumption.action_issue "" key)
            (Assumption._get_assumption_category key) <=? 15)%Z).
    assert (T : P key = true).
    { apply (action_keys_forall P) with (action := action) (keys := keys);
        [vm_compute; reflexivity | assumption | assumption]. }
    unfold P in T. apply andb_prop in T. destruct T as [T T3].
    apply andb_prop in T. destruct T as [T1 T2].
    apply mem_In in T1. apply Z.leb_le in T2. apply Z.leb_le in T3.
    split; [exact T1 |]. split; assumption.
  - apply environment_issue_shape in H. subst i. split; [simpl; tauto | vm_compute].
    split; discriminate.
  - apply context_issue_shape in H. destruct H as [-> | ->];
      (split; [simpl; tauto | vm_compute; split; discriminate]).
Qed.

Lemma detected_assumptions_witness :
  let issues := Assumption.detect_assumptions Concrete.whitespace_nlp
                  "Admin deletes the user record" in
  issues <> []
  /\ Forall (fun i => In (Assumption.category i) ["Environment"; "Data"; "State"]) issues.
Proof.
  intro issues. split; [discriminate |].
  apply Forall_forall. intros i Hi.
  apply (detected_assumptions_are_categorized Concrete.whitespace_nlp
           "Admin deletes the user record" i Hi).
Defined.

(** An assumption that the text states explicitly is not reported by the
    action rule: when one of the indicator phrases of a key occurs in the
    text, no issue carries the description of that key. *)
Theorem explicit_assumption_not_reported
    (doc : Ambiguity.Doc) (text key : string) (i : Assumption.AssumptionIssue) :
  Assumption._is_assumption_explicit (Py.lower text) key = true ->
  In i (Assumption._detect_action_assumptions doc text) ->
  Assumption.assumption i <> Py.get_default key Assumption.assumption_descriptions key.
Proof.
  intros He Hi Heq.
  apply action_issue_origin in Hi.
  destruct Hi as [action [keys [key' [Hent [Hk [_ [Hne ->]]]]]]].
  cbn [Assumption.action_issue Assumption.assumption] in Heq.
  (* the key has indicator phrases *)
  assert (Hkey : In key (map fst Assumption.explicit_indicators)).
  { unfold Assumption._is_assumption_explicit, Py.get_default in He.
    unfold Assumption.explicit_indicators in *. cbn [Py.get map fst] in *.
    repeat match type of He with
    | context [String.eqb key ?k] =>
        destruct (String.eqb_spec key k) as [E | _]; [rewrite E; simpl; tauto |]
    end.
    unfold Py.any_in in He. cbn [existsb] in He. discriminate He. }
  set (P := fun k' =>
    forallb (fun k =>
      negb (String.eqb (Py.get_default k' Assumption.assumption_descriptions k')
                       (Py.get_default k Assumption.assumption_descriptions k))
      || String.eqb k' k) (map fst Assumption.explicit_indicators)).
  assert (T : P key' = true).
  { apply (action_keys_forall P) with (action := action) (keys := keys);
      [vm_compute; reflexivity | assumption | assumption]. }
  unfold P in T. rewrite forallb_forall in T. specialize (T _ Hkey).
  rewrite Heq, String.eqb_refl in T. cbn [negb orb] in T.
  apply String.eqb_eq in T. subst key'. rewrite He in Hne. discriminate.
Qed.

Lemma explicit_assumption_witness :
  let text := "The logged in user opens the report" in
  Assumption._is_assumption_explicit (Py.lower text) "user_logged_in" = true
  /\ Forall (fun i => Assumption.assumption i <> "User is already authenticated/logged in")
       (Assumption._detect_action_assumptions [] text).
Proof.
  intro text. split; [reflexivity |].
  apply Forall_forall. intros i Hi.
  apply (explicit_assumption_not_reported [] text "user_logged_in" i eq_refl Hi).
Defined.

(** The user-context rule fires only for "settings" and "dashboard": a
    text with "profile" or "account" always counts as having user
    context, so these two trigger words never produce the issue. *)
Theorem user_context_issue_only_for_settings_or_dashboard
    (text : string) (i : Assumption.AssumptionIssue) :
  In i (Assumption._detect_context_assumptions text) ->
  Assumption.category i = "State" ->
  Py.contains "profile" (Py.lower text) = false
  /\ Py.contains "account" (Py.lower text) = false
  /\ (Py.contains "settings" (Py.lower text) = true
      \/ Py.contains "dashboard" (Py.lower text) = true).
Proof.
  unfold Assumption._detect_context_assumptions, Assumption._has_user_context, Py.any_in.
  cbn [existsb]. intros H Hc.
  apply in_app_or in H. destruct H as [H | H].
  - destruct (Py.contains "profile" (Py.lower text));
      destruct (Py.contains "account" (Py.lower text));
      rewrite ?orb_true_r in H; cbn [orb negb andb] in H;
      try (rewrite ?andb_false_r in H; destruct H; fail).
    destruct (Py.contains "settings" (Py.lower text));
      destruct (Py.contains "dashboard" (Py.lower text));
      cbn [orb andb] in H; try (destruct H; fail); auto.
  - destruct (_ && _) in H; [| destruct H]. destruct H as [<- | []]. discriminate Hc.
Qed.

Lemma user_context_issue_witness :
  let text := "Open the dashboard" in
  exists i,
    In i (Assumption._detect_context_assumptions text)
    /\ Assumption.category i = "State"
    /\ Py.contains "account" (Py.lower text) = false.
Proof.
  intro text.
  exists {| Assumption.issue_type := "Context assumption";
            Assumption.category := "State";
            Assumption.issue_text := "User-specific action";
            Assumption.issue_message := "User-specific action without user context";
            Assumption.assumption := "User is logged in and authenticated" |}.
  assert (Hi : In {| Assumption.issue_type := "Context assumption";
            Assumption.category := "State";
            Assumption.issue_text := "User-specific action";
            Assumption.issue_message := "User-specific action without user context";
            Assumption.assumption := "User is logged in and authenticated" |}
            (Assumption._detect_context_assumptions text)) by (left; reflexivity).
  split; [exact Hi |]. split; [reflexivity |].
  apply (user_context_issue_only_for_settings_or_dashboard text _ Hi eq_refl).
Defined.

(** ** Assumption components *)

Lemma component_strength_nonempty (i : Assumption.AssumptionIssue)
    (issues : list Assumption.AssumptionIssue) (component_type : string) :
  let r := Assumption._calculate_component_with_strength (i :: issues) component_type in
  snd r = "STRONG" \/ snd r = "WEAK".
Proof.
  unfold Assumption._calculate_component_with_strength. cbn [snd].
  destruct (existsb (fun issue =>
              String.eqb (Assumption._classify_assumption_strength issue component_type)
                "STRONG") (i :: issues)) eqn:Es; [now left |].
  right. cbn [existsb] in *. apply orb_false_elim in Es. destruct Es as [Es _].
  rewrite Es. reflexivity.
Qed.

(** The score of an assumption component is in [0, 100]; its strength is
    NONE exactly for an empty issue list and STRONG or WEAK otherwise,
    never UNKNOWN. *)
Theorem assumption_component_score_and_strength
    (issues : list Assumption.AssumptionIssue) (component_type : string) :
  let r := Assumption._calculate_component_with_strength issues component_type in
  0 <= fst r <= 100
  /\ (issues = [] -> snd r = "NONE")
  /\ (issues <> [] -> snd r = "STRONG" \/ snd r = "WEAK")
  /\ snd r <> "UNKNOWN".
Proof.
  intro r. subst r. split; [apply assumption_component_in_range |].
  destruct issues as [| i issues].
  - split; [reflexivity |]. split; [intro H; now contradiction H | discriminate].
  - pose proof (component_strength_nonempty i issues component_type) as H. cbv zeta in H.
    split; [discriminate |]. split; [intros _; exact H |].
    destruct H as [-> | ->]; discriminate.
Qed.

Lemma assumption_component_witness :
  let issues := Assumption.detect_assumptions Concrete.whitespace_nlp
                  "Admin deletes the user record" in
  Assumption.of_category "State" issues <> []
  /\ (snd (Assumption._calculate_component_with_strength
             (Assumption.of_category "State" issues) "State") = "STRONG"
      \/ snd (Assumption._calculate_component_with_strength
                (Assumption.of_category "State" issues) "State") = "WEAK").
Proof.
  intro issues.
  assert (H : Assumption.of_category "State" issues <> []) by discriminate.
  split; [exact H |].
  apply (assumption_component_score_and_strength
           (Assumption.of_category "State" issues) "State"). exact H.
Defined.

(** ** Partition of the ambiguity issues *)

(** The loop that sorts the issues yields, in detection order, the
    Subjective term and Weak modality issues, the Non-testable statement
    and Weak modality issues, and the Undefined reference issues; an issue
    of any other type is in none of the three lists. *)
Theorem categorize_is_partition_by_type (issues : list Ambiguity.AmbiguityIssue) :
  Ambiguity.categorize issues
  = (Reference.lexical_part issues, Reference.testability_part issues,
     Reference.references_part issues)
  /\ forall i,
       ~ In (Ambiguity.issue_type i)
           ["Subjective term"; "Weak modality"; "Undefined reference";
            "Non-testable statement"] ->
       ~ In i (Reference.lexical_part issues)
       /\ ~ In i (Reference.testability_part issues)
       /\ ~ In i (Reference.references_part issues).
Proof.
  split; [apply categorize_parts |].
  intros i H.
  unfold Reference.lexical_part, Reference.testability_part, Reference.references_part,
    Reference.of_kind.
  rewrite !filter_In.
  repeat split; intros [_ K];
    rewrite ?orb_true_iff, !String.eqb_eq in K; apply H; simpl; intuition.
Qed.

(** ** Confidence *)

Lemma half_ratio (n m : nat) :
  (0 < m)%nat ->
  Py.le (Py.of_nat n / Py.of_nat m) 0.5 = true <-> (2 * n <= m)%nat.
Proof.
  intro Hm.
  assert (M : 0 < Py.of_nat m).
  { apply Qlt_le_trans with (y := 1); [reflexivity |]. apply (of_nat_le 1). lia. }
  pose proof (ratio_spec (Py.of_nat n) (Py.of_nat m) M) as R.
  unfold Py.le. rewrite negb_true_iff, gt_false.
  set (x := Py.of_nat n / Py.of_nat m) in *.
  assert (E : x <= 0.5 <-> Py.of_nat (2 * n) <= Py.of_nat m).
  { replace (Py.of_nat (2 * n)) with (2 * Py.of_nat n)
      by (unfold Py.of_nat; rewrite Nat2Z.inj_mul, inject_Z_mult; reflexivity).
    set (N := Py.of_nat n) in *. set (K := Py.of_nat m) in *. clearbody x N K.
    split; intro H.
    - assert (0 <= (0.5 - x) * K) by (apply Qmult_le_0_compat; lra). lra.
    - destruct (Qlt_le_dec 0.5 x) as [Hlt | Hge]; [exfalso | exact Hge].
      assert (0 < (x - 0.5) * K) by (apply Qmult_lt_0_compat; lra). lra. }
  rewrite E. unfold Py.of_nat. rewrite <- Zle_Qle. lia.
Qed.

(** The confidence reported by [calculate_ambiguity_score] is LOW exactly
    when there is an issue and the text has fewer than 5 words; it is HIGH
    when there is no issue, and otherwise only for at least 10 words, two
    issue types and at most one issue per two words. *)
Theorem reported_confidence (issues : list Ambiguity.AmbiguityIssue) (text : string) :
  let c := Ambiguity.confidence (Ambiguity.calculate_ambiguity_score issues text) in
  In c ["HIGH"; "MEDIUM"; "LOW"]
  /\ (c = "LOW" <-> issues <> [] /\ (Reference.word_count text < 5)%nat)
  /\ (c = "HIGH" <->
      issues = []
      \/ ((10 <= Reference.word_count text)%nat
          /\ (2 <= Ambiguity.distinct_types issues)%nat
          /\ (2 * List.length issues <= Reference.word_count text)%nat)).
Proof.
  intro c. subst c. unfold Ambiguity.calculate_ambiguity_score.
  destruct issues as [| i issues].
  - cbn. split; [tauto |]. split; split; try discriminate; try tauto.
  - destruct (Ambiguity.categorize (i :: issues)) as [[l t] r].
    cbn [Ambiguity.confidence]. unfold Ambiguity._calculate_confidence.
    fold (Reference.word_count text).
    set (w := Reference.word_count text). set (l' := i :: issues).
    assert (Hn : (0 < List.length l')%nat) by (cbn; lia).
    destruct (10 <=? w)%nat eqn:E10;
      [apply Nat.leb_le in E10 | apply Nat.leb_gt in E10].
    + destruct (2 <=? Ambiguity.distinct_types l')%nat eqn:E2;
        [apply Nat.leb_le in E2 | apply Nat.leb_gt in E2].
      * cbn [andb]. replace (Nat.max w 1) with w by lia.
        destruct (Py.le _ 0.5) eqn:Eh.
        -- apply half_ratio in Eh; [| lia].
           split; [simpl; tauto |]. split; split; try discriminate.
           ++ intros [_ H]. lia.
           ++ intros _. right. repeat split; assumption.
           ++ reflexivity.
        -- assert (Hh : ~ (2 * List.length l' <= w)%nat).
           { intro K. apply (half_ratio (List.length l') w) in K; [| lia].
             rewrite K in Eh. discriminate. }
           replace (5 <=? w)%nat with true by (symmetry; apply Nat.leb_le; lia).
           replace (0 <? List.length l')%nat with true by (symmetry; now apply Nat.ltb_lt).
           cbn [andb]. split; [simpl; tauto |]. split; split; try discriminate.
           ++ intros [_ H]. lia.
           ++ intros [H | [_ [_ H]]]; [discriminate H | contradiction].
      * cbn [andb].
        replace (5 <=? w)%nat with true by (symmetry; apply Nat.leb_le; lia).
        replace (0 <? List.length l')%nat with true by (symmetry; now apply Nat.ltb_lt).
        cbn [andb]. split; [simpl; tauto |]. split; split; try discriminate.
        -- intros [_ H]. lia.
        -- intros [H | [_ [H _]]]; [discriminate H | lia].
    + cbn [andb].
      replace (0 <? List.length l')%nat with true by (symmetry; now apply Nat.ltb_lt).
      rewrite andb_true_r.
      destruct (5 <=? w)%nat eqn:E5; [apply Nat.leb_le in E5 | apply Nat.leb_gt in E5].
      * split; [simpl; tauto |]. split; split; try discriminate.
        -- intros [_ H]. lia.
        -- intros [H | [H _]]; [discriminate H | lia].
      * split; [simpl; tauto |]. split; split; try discriminate.
        -- intros _. split; [discriminate | assumption].
        -- reflexivity.
        -- intros [H | [H _]]; [discriminate H | lia].
Qed.

(** ** Questions asked for the issues of the detector *)

Lemma lower_app (a b : string) : Py.lower (a ++ b) = Py.lower a ++ Py.lower b.
Proof.
  induction a as [| c a IH]; [reflexivity |]. cbn. now rewrite IH.
Qed.

Lemma subjective_issue_question (token : Ambiguity.Token) (text : string) :
  Py.mem (Py.lower (Ambiguity.tok_text token)) Ambiguity.subjective_terms = true ->
  Scorer._get_ambiguity_question
    (Scorer.format_issue (inl (Ambiguity.subjective_issue token text)))
  = "What specific, measurable criteria define success for this requirement?".
Proof.
  intro H. unfold Scorer._get_ambiguity_question, Scorer.format_issue,
    Ambiguity.subjective_issue.
  cbn [Scorer.f_message Ambiguity.issue_message]. rewrite !lower_app.
  apply mem_In in H. unfold Ambiguity.subjective_terms in H. cbn [In] in H.
  repeat (destruct H as [<- | H]; [vm_compute; reflexivity |]).
  destruct H.
Qed.

Lemma weak_modality_issue_question (token : Ambiguity.Token) (text : string) :
  Py.mem (Ambiguity.tok_text token) Ambiguity.weak_modality_terms = true ->
  Scorer._get_ambiguity_question
    (Scorer.format_issue (inl (Ambiguity.weak_modality_issue token text)))
  = "What specific criteria should be used to evaluate this requirement?".
Proof.
  intro H. unfold Scorer._get_ambiguity_question, Scorer.format_issue,
    Ambiguity.weak_modality_issue.
  cbn [Scorer.f_message Ambiguity.issue_message].
  apply mem_In in H. unfold Ambiguity.weak_modality_terms in H. cbn [In] in H.
  repeat (destruct H as [<- | H]; [vm_compute; reflexivity |]).
  destruct H.
Qed.

Lemma undefined_reference_issue_question (token : Ambiguity.Token) (text : string) :
  Py.mem (Ambiguity.tok_text token) Ambiguity.undefined_references = true ->
  Scorer._get_ambiguity_question
    (Scorer.format_issue (inl (Ambiguity.undefined_reference_issue token text)))
  = "What specific element or condition does this refer to?".
Proof.
  intro H. unfold Scorer._get_ambiguity_question, Scorer.format_issue,
    Ambiguity.undefined_reference_issue.
  cbn [Scorer.f_message Ambiguity.issue_message].
  apply mem_In in H. unfold Ambiguity.undefined_references in H. cbn [In] in H.
  repeat (destruct H as [<- | H]; [vm_compute; reflexivity |]).
  destruct H.
Qed.

(** The question asked for an issue of the token rules depends on the rule
    only: the measurable-criteria question for a Subjective term, the
    what-does-this-refer-to question for an Undefined reference, and for a
    Weak modality issue the generic fallback question: its message never
    contains the key "weak modality", so the question "Is this a mandatory
    requirement or optional behavior?" is never asked for it. *)
Theorem question_by_detection_rule
    (doc : Ambiguity.Doc) (text : string) (i : Ambiguity.AmbiguityIssue) :
  (In i (Ambiguity._detect_subjective_terms doc text) ->
   Scorer._get_ambiguity_question (Scorer.format_issue (inl i))
   = "What specific, measurable criteria define success for this requirement?")
  /\ (In i (Ambiguity._detect_weak_modality doc text) ->
      Scorer._get_ambiguity_question (Scorer.format_issue (inl i))
      = "What specific criteria should be used to evaluate this requirement?")
  /\ (In i (Ambiguity._detect_undefined_references doc text) ->
      Scorer._get_ambiguity_question (Scorer.format_issue (inl i))
      = "What specific element or condition does this refer to?").
Proof.
  repeat split; intro H; apply in_flat_map in H; destruct H as [token [_ H]].
  - destruct (Py.mem (Py.lower (Ambiguity.tok_text token)) Ambiguity.subjective_terms) eqn:E;
      [| destruct H].
    destruct (Ambiguity.should_flag token doc text); [| destruct H].
    destruct H as [<- | []]. now apply subjective_issue_question.
  - destruct (Py.mem (Ambiguity.tok_text token) Ambiguity.weak_modality_terms) eqn:E;
      [| destruct H].
    destruct H as [<- | []]. now apply weak_modality_issue_question.
  - destruct (Py.mem (Ambiguity.tok_text token) Ambiguity.undefined_references) eqn:E;
      [| destruct H].
    destruct (Ambiguity._is_undefined_reference token doc); [| destruct H].
    destruct H as [<- | []]. now apply undefined_reference_issue_question.
Qed.

Lemma question_by_detection_rule_witness :
  let text := "The system should log errors" in
  let doc := Concrete.whitespace_nlp (Py.lower text) in
  Forall (fun i => Scorer._get_ambiguity_question (Scorer.format_issue (inl i))
                   = "What specific criteria should be used to evaluate this requirement?")
    (Ambiguity._detect_weak_modality doc text).
Proof.
  intros text doc. apply Forall_forall. intros i Hi.
  apply (question_by_detection_rule doc text i). exact Hi.
Defined.

(** ** Number of clarifying questions *)

Lemma first_occurrences_length (l : list string) :
  forall seen, (List.length (Reference.first_occurrences seen l) <= List.length l)%nat.
Proof.
  induction l as [| x l IH]; intro seen; cbn; [lia |].
  destruct (Py.mem x seen); cbn.
  - specialize (IH seen). lia.
  - specialize (IH (seen ++ [x])%list). lia.
Qed.

Lemma candidate_questions_length (issues : list Scorer.FormattedIssue) :
  (List.length (Reference.candidate_questions issues) <= List.length issues)%nat.
Proof.
  unfold Reference.candidate_questions.
  induction issues as [| i issues IH]; cbn; [lia |].
  rewrite length_app.
  destruct (String.eqb (Scorer.f_type i) "Ambiguity"); cbn; [lia |].
  destruct (String.eqb (Scorer.f_type i) "Assumption"); cbn; lia.
Qed.

(** The question list always holds the two standard questions, and at
    most one more question per issue, up to 8 in all. *)
Theorem question_count_bounds (issues : list Scorer.FormattedIssue) (text : string) :
  let questions := Scorer._generate_clarifying_questions issues text in
  (2 <= List.length questions <= 8)%nat
  /\ (List.length questions <= 2 + List.length issues)%nat
  /\ (issues = [] -> questions = Scorer.standard_questions).
Proof.
  intro questions. subst questions. unfold Scorer._generate_clarifying_questions.
  rewrite first_occurrences_fold
    by (intros; split; [apply ambiguity_question_truthy | apply assumption_question_truthy]).
  rewrite length_firstn, length_app.
  pose proof (first_occurrences_length (Reference.candidate_questions issues)
                Scorer.standard_questions).
  pose proof (candidate_questions_length issues).
  cbn [Scorer.standard_questions List.length] in *.
  repeat split; try lia.
  intros ->. reflexivity.
Qed.

(** ** Character offsets of the token rules *)

Lemma index_from (s2 : string) :
  forall (n m : nat) (s1 : string), index n s1 s2 = Some m -> (n <= m)%nat.
Proof.
  induction s2 as [| c s2 IH]; intros n m s1 H.
  - destruct n; simpl in H; [lia |]. discriminate H.
  - destruct n as [| n]; [lia |].
    simpl in H. destruct (index n s1 s2) as [k |] eqn:E; [| discriminate H].
    injection H as <-. apply IH in E. lia.
Qed.

(** The offset found for a token is its first occurrence in the
    lower-cased text at or after the token index; the result is -1, never
    null, exactly when there is no such occurrence. *)
Theorem find_char_position_first_occurrence
    (original_text token_text : string) (token_idx : nat) :
  token_text <> "" ->
  (exists p,
     Ambiguity._find_char_position original_text token_text token_idx = Some (Z.of_nat p)
     /\ (token_idx <= p)%nat
     /\ substring p (String.length token_text) (Py.lower original_text) = token_text
     /\ forall q, (token_idx <= q < p)%nat ->
          substring q (String.length token_text) (Py.lower original_text) <> token_text)
  \/ (Ambiguity._find_char_position original_text token_text token_idx = Some (-1)%Z
      /\ forall q, (token_idx <= q)%nat ->
           substring q (String.length token_text) (Py.lower original_text) <> token_text).
Proof.
  intro Hne. unfold Ambiguity._find_char_position, Py.find.
  destruct (index token_idx token_text (Py.lower original_text)) as [p |] eqn:E.
  - left. exists p. split; [reflexivity |].
    split; [now apply index_from in E |].
    split; [now apply index_correct1 in E |].
    intros q [Hq1 Hq2]. now apply (index_correct2 _ _ _ _ E).
  - right. split; [reflexivity |].
    intros q Hq. now apply (index_correct3 _ _ _ _ E).
Qed.

Lemma find_char_position_witness :
  exists p,
    Ambiguity._find_char_position "The API should be fast" "should" 8 = Some (Z.of_nat p)
    /\ (8 <= p)%nat.
Proof.
  destruct (find_char_position_first_occurrence "The API should be fast" "should" 8
              ltac:(discriminate)) as [[p [H1 [H2 _]]] | [H _]].
  - exists p. split; assumption.
  - vm_compute in H. discriminate H.
Defined.

Lemma located_token_position (text : string) (token : Ambiguity.Token) :
  Ambiguity.tok_text token <> "" ->
  substring (Ambiguity.idx token) (String.length (Ambiguity.tok_text token)) (Py.lower text)
  = Ambiguity.tok_text token ->
  Ambiguity._find_char_position text (Ambiguity.tok_text token) (Ambiguity.idx token)
  = Some (Z.of_nat (Ambiguity.idx token)).
Proof.
  intros Hne Hloc. unfold Ambiguity._find_char_position, Py.find.
  destruct (index (Ambiguity.idx token) (Ambiguity.tok_text token) (Py.lower text))
    as [p |] eqn:E.
  - pose proof (index_from _ _ _ _ E) as Hge.
    destruct (Nat.eq_dec p (Ambiguity.idx token)) as [-> | Hd]; [reflexivity |].
    exfalso. apply (index_correct2 _ _ _ _ E (Ambiguity.idx token)); [lia | lia | exact Hloc].
  - exfalso. now apply (index_correct3 _ (Ambiguity.idx token) _ _ E).
Qed.

(** When every token of the document is a non-empty piece of the
    lower-cased text at its index, each issue of the three token rules
    carries the span of its token: [start_char] is the token index,
    [end_char] is [start_char] plus the length of the issue text, and the
    span cuts the issue text out of the lower-cased text. *)
Theorem token_issue_span (doc : Ambiguity.Doc) (text : string) (i : Ambiguity.AmbiguityIssue) :
  (forall token, In token doc ->
     Ambiguity.tok_text token <> ""
     /\ substring (Ambiguity.idx token) (String.length (Ambiguity.tok_text token))
          (Py.lower text) = Ambiguity.tok_text token) ->
  In i (Ambiguity._detect_subjective_terms doc text
        ++ Ambiguity._detect_weak_modality doc text
        ++ Ambiguity._detect_undefined_references doc text)%list ->
  exists token,
    In token doc
    /\ Ambiguity.issue_text i = Ambiguity.tok_text token
    /\ Ambiguity.start_char i = Some (Z.of_nat (Ambiguity.idx token))
    /\ Ambiguity.end_char i
       = Some (Z.of_nat (Ambiguity.idx token + String.length (Ambiguity.issue_text i)))
    /\ Py.slice (Py.lower text) (Ambiguity.idx token)
         (Ambiguity.idx token + String.length (Ambiguity.issue_text i))
       = Ambiguity.issue_text i.
Proof.
  intros Hdoc Hi.
  assert (K : exists token,
             In token doc
             /\ (i = Ambiguity.subjective_issue token text
                 \/ i = Ambiguity.weak_modality_issue token text
                 \/ i = Ambiguity.undefined_reference_issue token text)).
  { apply in_app_or in Hi. destruct Hi as [H | H];
      [| apply in_app_or in H; destruct H as [H | H]];
      apply in_flat_map in H; destruct H as [token [Ht H]]; exists token;
      (split; [exact Ht |]);
      destruct (_ : bool) in H; try (destruct H; fail);
      destruct H as [<- | []]; auto. }
  destruct K as [token [Ht K]]. exists token. split; [exact Ht |].
  destruct (Hdoc token Ht) as [Hne Hloc].
  pose proof (located_token_position text token Hne Hloc) as P.
  assert (S : Py.slice (Py.lower text) (Ambiguity.idx token)
                (Ambiguity.idx token + String.length (Ambiguity.tok_text token))
              = Ambiguity.tok_text token).
  { unfold Py.slice. now rewrite Nat.add_comm, Nat.add_sub. }
  destruct K as [-> | [-> | ->]];
    cbn [Ambiguity.subjective_issue Ambiguity.weak_modality_issue
         Ambiguity.undefined_reference_issue Ambiguity.issue_text Ambiguity.start_char
         Ambiguity.end_char];
    rewrite P; cbn [Ambiguity.end_of]; rewrite Nat2Z.inj_add;
    repeat split; exact S.
Qed.

Lemma token_issue_span_witness :
  let text := "The system should log errors" in
  let doc := Concrete.whitespace_nlp (Py.lower text) in
  (forall token, In token doc ->
     Ambiguity.tok_text token <> ""
     /\ substring (Ambiguity.idx token) (String.length (Ambiguity.tok_text token))
          (Py.lower text) = Ambiguity.tok_text token)
  /\ Forall (fun i =>
       exists token,
         In token doc
         /\ Ambiguity.start_char i = Some (Z.of_nat (Ambiguity.idx token))
         /\ Py.slice (Py.lower text) (Ambiguity.idx token)
              (Ambiguity.idx token + String.length (Ambiguity.issue_text i))
            = Ambiguity.issue_text i)
      (Ambiguity._detect_weak_modality doc text).
Proof.
  intros text doc.
  assert (Hdoc : forall token, In token doc ->
            Ambiguity.tok_text token <> ""
            /\ substring (Ambiguity.idx token) (String.length (Ambiguity.tok_text token))
                 (Py.lower text) = Ambiguity.tok_text token).
  { intros token Ht. vm_compute in Ht.
    repeat (destruct Ht as [<- | Ht]; [split; [discriminate | reflexivity] |]).
    destruct Ht. }
  split; [exact Hdoc |].
  apply Forall_forall. intros i Hi.
  destruct (token_issue_span doc text i Hdoc) as [token [Ht [_ [Hs [_ S]]]]].
  - apply in_or_app. right. apply in_or_app. left. exact Hi.
  - exists token. repeat split; assumption.
Defined.

(** ** Spans of the non-testable statements *)

Lemma longest_prefix_bound (s : string) :
  forall (r : Re.regex) (n : nat), Re.longest_prefix r s = Some n -> (n <= String.length s)%nat.
Proof.
  induction s as [| c s IH]; intros r n H.
  - destruct r; cbn in H; try discriminate H;
      repeat match type of H with
      | (if ?b then _ else _) = _ => destruct b
      end; try discriminate H; injection H as <-; cbn; lia.
  - destruct r; cbn [Re.longest_prefix] in H; try discriminate H;
      match type of H with
      | match Re.longest_prefix ?d s with _ => _ end = _ =>
          destruct (Re.longest_prefix d s) as [k |] eqn:E;
          [injection H as <-; apply IH in E; cbn; lia |]
      end;
      repeat match type of H with
      | (if ?b then _ else _) = _ => destruct b
      end; try discriminate H; injection H as <-; cbn; lia.
Qed.

Lemma finditer_from_spans (r : Re.regex) (s : string) :
  forall pos skip,
    Forall (fun span => (pos + skip <= fst span)%nat
                        /\ (fst span < snd span)%nat
                        /\ (snd span <= pos + String.length s)%nat)
      (Re.finditer_from r s pos skip).
Proof.
  induction s as [| c s IH]; intros pos skip; cbn [Re.finditer_from]; [constructor |].
  destruct skip as [| k].
  - destruct (Re.longest_prefix r (String c s)) as [[| n] |] eqn:E.
    + eapply Forall_impl; [| apply (IH (S pos) 0%nat)].
      intros span [H1 [H2 H3]]. cbn [String.length]. lia.
    + apply longest_prefix_bound in E. cbn [String.length] in E.
      constructor; [cbn; lia |].
      eapply Forall_impl; [| apply (IH (S pos) n)].
      intros span [H1 [H2 H3]]. cbn [String.length]. lia.
    + eapply Forall_impl; [| apply (IH (S pos) 0%nat)].
      intros span [H1 [H2 H3]]. cbn [String.length]. lia.
  - eapply Forall_impl; [| apply (IH (S pos) k)].
    intros span [H1 [H2 H3]]. cbn [String.length]. lia.
Qed.

Lemma finditer_from_sorted (r : Re.regex) (s : string) :
  forall pos skip,
    StronglySorted (fun a b => (snd a <= fst b)%nat) (Re.finditer_from r s pos skip).
Proof.
  induction s as [| c s IH]; intros pos skip; cbn [Re.finditer_from]; [constructor |].
  destruct skip as [| k]; [| apply IH].
  destruct (Re.longest_prefix r (String c s)) as [[| n] |]; try apply IH.
  constructor; [apply IH |].
  eapply Forall_impl; [| apply (finditer_from_spans r s (S pos) n)].
  intros span [H1 _]. cbn. lia.
Qed.

Lemma lower_length (s : string) : String.length (Py.lower s) = String.length s.
Proof. induction s as [| c s IH]; cbn; [reflexivity | now rewrite IH]. Qed.

Lemma substring_length (s : string) :
  forall a n, (a + n <= String.length s)%nat -> String.length (substring a n s) = n.
Proof.
  induction s as [| c s IH]; intros a n H; cbn [String.length] in H.
  - assert (a = 0%nat) by lia. assert (n = 0%nat) by lia. subst. reflexivity.
  - destruct a as [| a]; cbn [substring].
    + destruct n as [| n]; [reflexivity |]. cbn [String.length].
      rewrite IH; [reflexivity | lia].
    + apply IH. lia.
Qed.

(** The spans of the matches of a pattern in a string [s], as the issues
    carry them: non-empty, inside [s], and cutting the issue text out of
    [s]. *)
Lemma non_testable_issue_in (s : string) (pattern : Re.regex) (span : nat * nat) :
  In span (Re.finditer pattern s) ->
  let i := Ambiguity.non_testable_issue s span in
  Ambiguity.start_char i = Some (Z.of_nat (fst span))
  /\ Ambiguity.end_char i = Some (Z.of_nat (snd span))
  /\ (fst span < snd span <= String.length s)%nat
  /\ Ambiguity.issue_text i = Py.slice s (fst span) (snd span)
  /\ String.length (Ambiguity.issue_text i) = (snd span - fst span)%nat.
Proof.
  intros H i. subst i.
  pose proof (finditer_from_spans pattern s 0 0) as F.
  rewrite Forall_forall in F. specialize (F _ H).
  cbn. repeat split; try lia.
  unfold Py.slice. apply substring_length. lia.
Qed.

(** Every Non-testable statement issue carries a non-empty span inside the
    lower-cased text, which is the text the patterns are matched on, and
    its text is that span of the lower-cased text; the matches of one
    pattern are reported from left to right and do not overlap. *)
Theorem non_testable_issue_spans (text : string) :
  (forall i, In i (Ambiguity._detect_non_testable_statements text) ->
     exists a b,
       Ambiguity.start_char i = Some (Z.of_nat a)
       /\ Ambiguity.end_char i = Some (Z.of_nat b)
       /\ (a < b <= String.length (Py.lower text))%nat
       /\ Ambiguity.issue_text i = Py.slice (Py.lower text) a b
       /\ String.length (Ambiguity.issue_text i) = (b - a)%nat)
  /\ (forall pattern, In pattern Ambiguity.non_testable_patterns ->
        StronglySorted (fun x y => (snd x <= fst y)%nat)
          (Re.finditer pattern (Py.lower text))).
Proof.
  split.
  - intros i H. unfold Ambiguity._detect_non_testable_statements in H.
    apply in_flat_map in H. destruct H as [pattern [_ H]].
    apply in_map_iff in H. destruct H as [[a b] [<- H]].
    exists a, b. exact (non_testable_issue_in (Py.lower text) pattern (a, b) H).
  - intros pattern _. apply finditer_from_sorted.
Qed.

(** ** Test case types *)

(** The type returned for a text is always a key of
    [TEST_CASE_TYPE_WEIGHTS], whose two weights add up to 1; a text that
    mentions a login is an authentication case whatever else it mentions,
    and the type is "general" only when none of the keywords occurs. *)
Theorem classify_test_case_type_has_weights (text : string) :
  (exists w,
     Py.get (Scorer.classify_test_case_type text) Scorer.TEST_CASE_TYPE_WEIGHTS = Some w
     /\ Scorer.ambiguity_weight w + Scorer.assumption_weight w == 1)
  /\ (Py.any_in ["login"; "authenticate"; "sign in"] (Py.lower text) = true ->
      Scorer.classify_test_case_type text = "authentication")
  /\ (Scorer.classify_test_case_type text = "general" <->
      Py.any_in ["login"; "authenticate"; "sign in";
                 "search"; "filter"; "find"; "query";
                 "create"; "add"; "insert"; "submit";
                 "update"; "edit"; "modify"; "change";
                 "delete"; "remove"; "archive";
                 "api"; "endpoint"; "request"; "response";
                 "ui"; "interface"; "screen"; "page"] (Py.lower text) = false).
Proof.
  unfold Scorer.classify_test_case_type.
  change (Py.any_in ["login"; "authenticate"; "sign in";
                 "search"; "filter"; "find"; "query";
                 "create"; "add"; "insert"; "submit";
                 "update"; "edit"; "modify"; "change";
                 "delete"; "remove"; "archive";
                 "api"; "endpoint"; "request"; "response";
                 "ui"; "interface"; "screen"; "page"] (Py.lower text))
    with (existsb (fun p => Py.contains p (Py.lower text))
            (["login"; "authenticate"; "sign in"]
             ++ ["search"; "filter"; "find"; "query"]
             ++ ["create"; "add"; "insert"; "submit"]
             ++ ["update"; "edit"; "modify"; "change"]
             ++ ["delete"; "remove"; "archive"]
             ++ ["api"; "endpoint"; "request"; "response"]
             ++ ["ui"; "interface"; "screen"; "page"])%list).
  rewrite !existsb_app. unfold Py.any_in.
  set (f := fun p => Py.contains p (Py.lower text)).
  destruct (existsb f ["login"; "authenticate"; "sign in"]);
    [| destruct (existsb f ["search"; "filter"; "find"; "query"]);
       [| destruct (existsb f ["create"; "add"; "insert"; "submit"]);
          [| destruct (existsb f ["update"; "edit"; "modify"; "change"]);
             [| destruct (existsb f ["delete"; "remove"; "archive"]);
                [| destruct (existsb f ["api"; "endpoint"; "request"; "response"]);
                   [| destruct (existsb f ["ui"; "interface"; "screen"; "page"])]]]]]];
    (split; [eexists; split; [reflexivity | reflexivity] |]);
    (split; [intro H; try reflexivity; discriminate H |]);
    cbn [orb]; split; intro H; try discriminate H; reflexivity.
Qed.

(** ** The cache of analyze_text_with_caching *)

Section Dictionary.

Context {A : Type}.

Lemma zget_In (k : Z) (d : list (Z * A)) :
  Py.zget k d <> None <-> In k (map fst d).
Proof.
  induction d as [| [k' v] d IH]; cbn; [tauto |].
  destruct (Z.eqb_spec k k') as [-> | N]; split; intro H; try discriminate; auto.
  - right. now apply IH.
  - apply IH. destruct H as [H | H]; [congruence | exact H].
Qed.

Lemma zset_absent (k : Z) (v : A) (d : list (Z * A)) :
  Py.zget k d = None -> Py.zset k v d = (d ++ [(k, v)])%list.
Proof.
  induction d as [| [k' v'] d IH]; cbn; [reflexivity |].
  destruct (Z.eqb k k'); [discriminate |]. intro H. now rewrite IH.
Qed.

Lemma zset_keys_present (k : Z) (v : A) (d : list (Z * A)) :
  Py.zget k d <> None -> map fst (Py.zset k v d) = map fst d.
Proof.
  induction d as [| [k' v'] d IH]; cbn; [intro H; now contradiction H |].
  destruct (Z.eqb_spec k k') as [-> | N]; cbn; [reflexivity |].
  intro H. now rewrite IH.
Qed.

Lemma zset_keys (k : Z) (v : A) (d : list (Z * A)) :
  map fst (Py.zset k v d)
  = match Py.zget k d with
    | Some _ => map fst d
    | None => (map fst d ++ [k])%list
    end.
Proof.
  destruct (Py.zget k d) eqn:E.
  - apply zset_keys_present. rewrite E. discriminate.
  - rewrite zset_absent by assumption. now rewrite map_app.
Qed.

Lemma zget_zset (k k' : Z) (v : A) (d : list (Z * A)) :
  Py.zget k' (Py.zset k v d) = if Z.eqb k' k then Some v else Py.zget k' d.
Proof.
  induction d as [| [k0 v0] d IH]; cbn.
  - destruct (Z.eqb k' k); reflexivity.
  - destruct (Z.eqb_spec k k0) as [-> | N]; cbn.
    + destruct (Z.eqb k' k0); reflexivity.
    + rewrite IH. destruct (Z.eqb_spec k' k0) as [-> | N'].
      * destruct (Z.eqb_spec k0 k); [congruence | reflexivity].
      * reflexivity.
Qed.

Lemma zdel_length (k : Z) (d : list (Z * A)) :
  In k (map fst d) -> S (List.length (Py.zdel k d)) = List.length d.
Proof.
  induction d as [| [k' v] d IH]; cbn; [intros [] |].
  destruct (Z.eqb_spec k k') as [-> | N]; [reflexivity |].
  intros [H | H]; [congruence |]. cbn. now rewrite IH.
Qed.

Lemma zdel_keys_incl (k : Z) (d : list (Z * A)) :
  forall x, In x (map fst (Py.zdel k d)) -> In x (map fst d).
Proof.
  induction d as [| [k' v] d IH]; cbn; [tauto |].
  destruct (Z.eqb k k'); cbn; intros x H; [now right |].
  destruct H as [H | H]; [now left | right; now apply IH].
Qed.

Lemma zdel_NoDup (k : Z) (d : list (Z * A)) :
  NoDup (map fst d) -> NoDup (map fst (Py.zdel k d)).
Proof.
  induction d as [| [k' v] d IH]; cbn; [trivial |].
  intro H. inversion H as [| ? ? Hn Hd]; subst.
  destruct (Z.eqb k k'); [assumption |].
  cbn. constructor; [| now apply IH].
  intro K. apply Hn. now apply zdel_keys_incl in K.
Qed.

Lemma zget_zdel (k k' : Z) (d : list (Z * A)) :
  NoDup (map fst d) ->
  Py.zget k' (Py.zdel k d) = if Z.eqb k' k then None else Py.zget k' d.
Proof.
  induction d as [| [k0 v0] d IH]; cbn; intro H.
  - destruct (Z.eqb k' k); reflexivity.
  - inversion H as [| ? ? Hn Hd]; subst.
    destruct (Z.eqb_spec k k0) as [-> | N].
    + destruct (Z.eqb_spec k' k0) as [-> | N']; [| reflexivity].
      destruct (Py.zget k0 d) eqn:E; [| reflexivity].
      exfalso. apply Hn. apply zget_In. rewrite E. discriminate.
    + cbn. rewrite IH by assumption.
      destruct (Z.eqb_spec k' k0) as [-> | N'].
      * destruct (Z.eqb_spec k0 k); [congruence | reflexivity].
      * reflexivity.
Qed.

Lemma zset_NoDup (k : Z) (v : A) (d : list (Z * A)) :
  NoDup (map fst d) -> NoDup (map fst (Py.zset k v d)).
Proof.
  intro H. rewrite zset_keys. destruct (Py.zget k d) eqn:E; [assumption |].
  apply NoDup_app; [assumption | repeat constructor; intros [] |].
  intros x Hx [<- | []]. apply zget_In in Hx. now apply Hx.
Qed.

End Dictionary.

Lemma oldest_from_In (d : Scorer.Cache) :
  forall best, In (Scorer.oldest_from best d) (fst best :: map fst d).
Proof.
  induction d as [| [k e] d IH]; intro best; cbn [Scorer.oldest_from]; [now left |].
  destruct (Py.lt _ _).
  - specialize (IH (k, e)). cbn [fst map In] in *.
    destruct IH as [H | H]; [right; left; exact H | right; right; exact H].
  - specialize (IH best). cbn [map fst In] in *.
    destruct IH as [H | H]; [left; exact H | right; right; exact H].
Qed.

Lemma oldest_key_In (d : Scorer.Cache) (k : Z) :
  Scorer.oldest_key d = Some k -> In k (map fst d).
Proof.
  destruct d as [| b d]; cbn; [discriminate |].
  intro H. injection H as <-. apply oldest_from_In.
Qed.

Section CacheFacts.

Variable pow : Q -> Q -> Q.
Variable nlp : string -> Ambiguity.Doc.
Variable hash : string -> Z.

Lemma analyze_and_store_invariant (cache : Scorer.Cache) (h : Z) (text : string) (t : Q) :
  NoDup (map fst cache) -> (List.length cache <= 1000)%nat ->
  NoDup (map fst (snd (Scorer.analyze_and_store pow nlp cache h text t)))
  /\ (List.length (snd (Scorer.analyze_and_store pow nlp cache h text t)) <= 1000)%nat.
Proof.
  intros Hn Hl. unfold Scorer.analyze_and_store. cbn [snd].
  set (entry := {| Scorer.cached_result := _; Scorer.timestamp := t |}).
  pose proof (zset_NoDup h entry cache Hn) as Hn1.
  assert (Hl1 : (List.length (Py.zset h entry cache) <= 1001)%nat).
  { rewrite <- (length_map fst), zset_keys.
    destruct (Py.zget h cache); rewrite ?length_app, length_map; cbn; lia. }
  set (c1 := Py.zset h entry cache) in *.
  destruct (1000 <? List.length c1)%nat eqn:E;
    [apply Nat.ltb_lt in E | apply Nat.ltb_ge in E; split; assumption].
  destruct (Scorer.oldest_key c1) as [k |] eqn:Ek.
  - split; [now apply zdel_NoDup |].
    apply oldest_key_In in Ek. apply zdel_length in Ek. lia.
  - destruct c1; [cbn in E; lia | discriminate Ek].
Qed.

(** The cache never grows beyond 1000 entries and never holds a key
    twice. *)
Theorem cache_stays_bounded (cache : Scorer.Cache) (text : string)
    (time_at_test time_at_store : Q) :
  NoDup (map fst cache) -> (List.length cache <= 1000)%nat ->
  let cache' :=
    snd (Scorer.analyze_text_with_caching pow nlp hash cache text
           time_at_test time_at_store) in
  NoDup (map fst cache') /\ (List.length cache' <= 1000)%nat.
Proof.
  intros Hn Hl cache'. subst cache'. unfold Scorer.analyze_text_with_caching.
  destruct (Py.zget _ cache) as [entry |].
  - destruct (Py.lt _ 3600); [split; assumption |].
    now apply analyze_and_store_invariant.
  - now apply analyze_and_store_invariant.
Qed.

(** After a call that missed the cache, a later call within the hour for
    any text with the same normalized form (lower case, stripped) is
    answered with the stored analysis of the first text, and leaves the
    cache as it is. *)
Theorem repeated_call_is_served_from_cache
    (cache : Scorer.Cache) (text text' : string) (t1 t2 t3 t4 : Q) :
  (List.length cache < 1000)%nat ->
  Py.zget (hash (Py.strip (Py.lower text))) cache = None ->
  Py.strip (Py.lower text') = Py.strip (Py.lower text) ->
  t3 - t2 < 3600 ->
  let first := Scorer.analyze_text_with_caching pow nlp hash cache text t1 t2 in
  fst first = Scorer.analyze_text pow nlp text
  /\ Scorer.analyze_text_with_caching pow nlp hash (snd first) text' t3 t4
     = (Scorer.analyze_text pow nlp text, snd first).
Proof.
  intros Hl Hmiss Hsame Hfresh first. subst first.
  set (h := hash (Py.strip (Py.lower text))) in *.
  set (entry := {| Scorer.cached_result := Scorer.analyze_text pow nlp text;
                   Scorer.timestamp := t2 |}).
  assert (E : Scorer.analyze_text_with_caching pow nlp hash cache text t1 t2
              = (Scorer.analyze_text pow nlp text, Py.zset h entry cache)).
  { unfold Scorer.analyze_text_with_caching. fold h. rewrite Hmiss.
    unfold Scorer.analyze_and_store. cbv zeta. fold entry.
    replace (1000 <? List.length (Py.zset h entry cache))%nat with false; [reflexivity |].
    symmetry. apply Nat.ltb_ge.
    rewrite (zset_absent h entry cache Hmiss), length_app. cbn. lia. }
  rewrite E. cbn [fst snd]. split; [reflexivity |].
  unfold Scorer.analyze_text_with_caching. rewrite Hsame. fold h.
  rewrite zget_zset, Z.eqb_refl. cbn [Scorer.timestamp Scorer.cached_result entry].
  replace (Py.lt (t3 - t2) 3600) with true
    by (symmetry; unfold Py.lt; now apply gt_true).
  reflexivity.
Qed.

Lemma oldest_from_least (d : Scorer.Cache) :
  forall best,
    exists e,
      In (Scorer.oldest_from best d, e) (best :: d)
      /\ Scorer.timestamp e <= Scorer.timestamp (snd best)
      /\ forall x, In x d -> Scorer.timestamp e <= Scorer.timestamp (snd x).
Proof.
  induction d as [| [k e0] d IH]; intro best; cbn [Scorer.oldest_from].
  - exists (snd best). split; [left; now destruct best |].
    split; [apply Qle_refl | intros x []].
  - destruct (Py.lt (Scorer.timestamp e0) (Scorer.timestamp (snd best))) eqn:E.
    + unfold Py.lt in E. apply gt_true in E.
      destruct (IH (k, e0)) as [e [Hin [Hb Hall]]]. cbn [snd] in Hb.
      exists e. split; [right; exact Hin |]. split; [lra |].
      intros x [<- | Hx]; [exact Hb | now apply Hall].
    + unfold Py.lt in E. apply gt_false in E.
      destruct (IH best) as [e [Hin [Hb Hall]]].
      exists e. split; [destruct Hin as [Hin | Hin]; [left; exact Hin | right; right; exact Hin] |].
      split; [exact Hb |].
      intros x [<- | Hx]; [cbn [snd]; lra | now apply Hall].
Qed.

Lemma oldest_from_ignores_newest (d : Scorer.Cache) (h : Z) (entry : Scorer.CacheEntry) :
  forall best,
    Scorer.timestamp (snd best) <= Scorer.timestamp entry ->
    (forall x, In x d -> Scorer.timestamp (snd x) <= Scorer.timestamp entry) ->
    Scorer.oldest_from best (d ++ [(h, entry)])%list = Scorer.oldest_from best d.
Proof.
  induction d as [| [k e0] d IH]; intros best Hb Hall; cbn [app Scorer.oldest_from].
  - replace (Py.lt (Scorer.timestamp entry) (Scorer.timestamp (snd best))) with false;
      [reflexivity |].
    symmetry. unfold Py.lt. now apply gt_false.
  - destruct (Py.lt (Scorer.timestamp e0) (Scorer.timestamp (snd best))).
    + apply IH; [apply (Hall (k, e0)); now left | intros x Hx; apply Hall; now right].
    + apply IH; [exact Hb | intros x Hx; apply Hall; now right].
Qed.

(** A miss on a full cache whose entries are not younger than the new one
    evicts the first entry with the least timestamp, stores the new
    analysis and keeps every other entry. *)
Theorem full_cache_evicts_oldest (cache : Scorer.Cache) (text : string) (t1 t2 : Q) :
  NoDup (map fst cache) ->
  List.length cache = 1000%nat ->
  Py.zget (hash (Py.strip (Py.lower text))) cache = None ->
  (forall x, In x cache -> Scorer.timestamp (snd x) <= t2) ->
  let h := hash (Py.strip (Py.lower text)) in
  let entry := {| Scorer.cached_result := Scorer.analyze_text pow nlp text;
                  Scorer.timestamp := t2 |} in
  let cache' := snd (Scorer.analyze_text_with_caching pow nlp hash cache text t1 t2) in
  exists oldest e,
    Scorer.oldest_key cache = Some oldest
    /\ Py.zget oldest cache = Some e
    /\ (forall x, In x cache -> Scorer.timestamp e <= Scorer.timestamp (snd x))
    /\ List.length cache' = 1000%nat
    /\ Py.zget h cache' = Some entry
    /\ Py.zget oldest cache' = None
    /\ (forall k, k <> oldest -> k <> h -> Py.zget k cache' = Py.zget k cache).
Proof.
  intros Hn Hl Hmiss Hall h entry cache'. subst cache'.
  unfold Scorer.analyze_text_with_caching. fold h in Hmiss |- *. rewrite Hmiss.
  unfold Scorer.analyze_and_store. cbv zeta. fold entry. cbn [snd].
  destruct cache as [| best d] eqn:Ec; [discriminate Hl |].
  rewrite <- Ec in *.
  assert (Hset : Py.zset h entry cache = (cache ++ [(h, entry)])%list)
    by now apply zset_absent.
  rewrite Hset.
  replace (1000 <? List.length (cache ++ [(h, entry)])%list)%nat with true
    by (symmetry; apply Nat.ltb_lt; rewrite length_app; cbn; lia).
  assert (Hold : Scorer.oldest_key (cache ++ [(h, entry)])%list = Scorer.oldest_key cache).
  { rewrite Ec. cbn [app Scorer.oldest_key]. f_equal.
    apply oldest_from_ignores_newest.
    - apply Hall. rewrite Ec. now left.
    - intros x Hx. apply Hall. rewrite Ec. now right. }
  rewrite Hold.
  assert (Hk : Scorer.oldest_key cache = Some (Scorer.oldest_from best d))
    by (rewrite Ec; reflexivity).
  rewrite Hk. set (oldest := Scorer.oldest_from best d) in *.
  destruct (oldest_from_least d best) as [e [Hin [Hb Hleast]]]. fold oldest in Hin.
  rewrite <- Ec in Hin.
  assert (Hne : oldest <> h).
  { intro K. assert (In h (map fst cache))
      by (rewrite <- K; apply (in_map fst) in Hin; exact Hin).
    apply zget_In in H. now apply H. }
  assert (Hget : Py.zget oldest cache = Some e).
  { clear - Hin Hn. induction cache as [| [k0 e0] c IH]; [destruct Hin |].
    cbn in Hn. inversion Hn as [| ? ? Hni Hnd]; subst.
    cbn [Py.zget]. destruct Hin as [Hin | Hin].
    - injection Hin as -> ->. now rewrite Z.eqb_refl.
    - destruct (Z.eqb_spec oldest k0) as [-> | N]; [| now apply IH].
      exfalso. apply Hni. now apply (in_map fst) in Hin. }
  assert (Hn' : NoDup (map fst (cache ++ [(h, entry)])%list))
    by (rewrite <- Hset; now apply zset_NoDup).
  exists oldest, e. split; [reflexivity |]. split; [exact Hget |].
  split.
  { intros x Hx. rewrite Ec in Hx. destruct Hx as [<- | Hx]; [exact Hb | now apply Hleast]. }
  split.
  { assert (Hi : In oldest (map fst (cache ++ [(h, entry)])%list)).
    { rewrite map_app. apply in_or_app. left. now apply (in_map fst) in Hin. }
    apply zdel_length in Hi. rewrite length_app in Hi. cbn in Hi. lia. }
  split.
  { rewrite zget_zdel by assumption.
    destruct (Z.eqb_spec h oldest) as [K | _]; [now contradiction Hne |].
    rewrite <- Hset, zget_zset. now rewrite Z.eqb_refl. }
  split.
  { rewrite zget_zdel by assumption. now rewrite Z.eqb_refl. }
  intros k K1 K2. rewrite zget_zdel by assumption.
  destruct (Z.eqb_spec k oldest) as [K | _]; [now contradiction K1 |].
  rewrite <- Hset, zget_zset.
  destruct (Z.eqb_spec k h) as [K | _]; [now contradiction K2 | reflexivity].
Qed.

End CacheFacts.

Lemma NoDup_map_of_nat (l : list nat) : NoDup l -> NoDup (map Z.of_nat l).
Proof.
  induction 1 as [| x l Hx Hl IH]; cbn; constructor; [| exact IH].
  intro K. apply in_map_iff in K. destruct K as [y [E Hy]].
  apply Nat2Z.inj in E. subst y. now apply Hx.
Qed.

(** A cache of [n] entries under the keys 1 to [n]: the keys are
    distinct and 0 is not among them. *)
Lemma numbered_cache (entry : Scorer.CacheEntry) (n : nat) :
  let cache := map (fun k => (Z.of_nat k, entry)) (seq 1 n) in
  NoDup (map fst cache) /\ List.length cache = n /\ Py.zget 0%Z cache = None.
Proof.
  intro cache.
  assert (Hk : map fst cache = map Z.of_nat (seq 1 n)).
  { unfold cache. rewrite map_map. reflexivity. }
  split; [rewrite Hk; apply NoDup_map_of_nat, seq_NoDup |].
  split; [unfold cache; now rewrite length_map, length_seq |].
  destruct (Py.zget 0%Z cache) eqn:E; [exfalso | reflexivity].
  assert (K : In 0%Z (map fst cache)) by (apply zget_In; rewrite E; discriminate).
  rewrite Hk in K. apply in_map_iff in K. destruct K as [k [K1 K2]].
  apply in_seq in K2. lia.
Qed.

(** The bound at work: the cache is full and the text is not in it, so
    the call stores a 1001st entry and has to evict one. *)
Lemma cache_stays_bounded_witness :
  let hash := fun _ : string => 0%Z in
  let old := {| Scorer.cached_result :=
                  Scorer.analyze_text Concrete.pow_floor Concrete.whitespace_nlp "";
                Scorer.timestamp := 0 |} in
  let cache := map (fun n => (Z.of_nat n, old)) (seq 1 1000) in
  let cache' :=
    snd (Scorer.analyze_text_with_caching Concrete.pow_floor Concrete.whitespace_nlp hash
           cache "Open the page" 5 6) in
  List.length cache = 1000%nat
  /\ Py.zget (hash (Py.strip (Py.lower "Open the page"))) cache = None
  /\ NoDup (map fst cache')
  /\ (List.length cache' <= 1000)%nat.
Proof.
  intros hash old cache cache'.
  destruct (numbered_cache old 1000) as [Hn [Hl Hmiss]]. fold cache in Hn, Hl, Hmiss.
  split; [exact Hl |]. split; [exact Hmiss |].
  apply (cache_stays_bounded Concrete.pow_floor Concrete.whitespace_nlp hash
           cache "Open the page" 5 6).
  - exact Hn.
  - rewrite Hl. apply Nat.le_refl.
Defined.

Lemma repeated_call_witness :
  let hash := fun s => Z.of_nat (String.length s) in
  let first :=
    Scorer.analyze_text_with_caching Concrete.pow_floor Concrete.whitespace_nlp hash
      [] "Open the page" 10 11 in
  Py.strip (Py.lower "  OPEN the Page ") = Py.strip (Py.lower "Open the page")
  /\ 100 - 11 < 3600
  /\ Scorer.analyze_text_with_caching Concrete.pow_floor Concrete.whitespace_nlp hash
       (snd first) "  OPEN the Page " 100 101
     = (Scorer.analyze_text Concrete.pow_floor Concrete.whitespace_nlp "Open the page",
        snd first).
Proof.
  intros hash first.
  assert (H1 : Py.strip (Py.lower "  OPEN the Page ") = Py.strip (Py.lower "Open the page"))
    by reflexivity.
  assert (H2 : 100 - 11 < 3600) by reflexivity.
  split; [exact H1 |]. split; [exact H2 |].
  apply (repeated_call_is_served_from_cache Concrete.pow_floor Concrete.whitespace_nlp hash
           [] "Open the page" "  OPEN the Page " 10 11 100 101).
  - simpl. lia.
  - reflexivity.
  - exact H1.
  - exact H2.
Defined.

Lemma full_cache_witness :
  let hash := fun _ : string => 0%Z in
  let old := {| Scorer.cached_result :=
                  Scorer.analyze_text Concrete.pow_floor Concrete.whitespace_nlp "";
                Scorer.timestamp := 0 |} in
  let cache := map (fun n => (Z.of_nat n, old)) (seq 1 1000) in
  let cache' :=
    snd (Scorer.analyze_text_with_caching Concrete.pow_floor Concrete.whitespace_nlp hash
           cache "Open the page" 5 6) in
  List.length cache = 1000%nat
  /\ exists oldest,
       Scorer.oldest_key cache = Some oldest
       /\ List.length cache' = 1000%nat
       /\ Py.zget oldest cache' = None.
Proof.
  intros hash old cache cache'.
  assert (Hk : map fst cache = map Z.of_nat (seq 1 1000)).
  { unfold cache. rewrite map_map. reflexivity. }
  assert (Hn : NoDup (map fst cache)).
  { rewrite Hk. apply NoDup_map_of_nat, seq_NoDup. }
  assert (Hl : List.length cache = 1000%nat).
  { unfold cache. rewrite length_map, length_seq. reflexivity. }
  assert (Hmiss : Py.zget (hash (Py.strip (Py.lower "Open the page"))) cache = None).
  { destruct (Py.zget (hash (Py.strip (Py.lower "Open the page"))) cache) eqn:E;
      [exfalso | reflexivity].
    assert (K : In 0%Z (map fst cache)) by (apply zget_In; unfold hash in E; rewrite E; discriminate).
    rewrite Hk in K. apply in_map_iff in K. destruct K as [n [K1 K2]].
    apply in_seq in K2. lia. }
  assert (Hall : forall x, In x cache -> Scorer.timestamp (snd x) <= 6).
  { intros x Hx. unfold cache in Hx. apply in_map_iff in Hx.
    destruct Hx as [n [<- _]]. cbn. discriminate. }
  split; [exact Hl |].
  destruct (full_cache_evicts_oldest Concrete.pow_floor Concrete.whitespace_nlp hash
              cache "Open the page" 5 6 Hn Hl Hmiss Hall)
    as [oldest [e [H1 [_ [_ [H4 [_ [H6 _]]]]]]]].
  exists oldest. repeat split; assumption.
Defined.

(** ** The analysis does not depend on the case of the text *)

Lemma lower_ascii_idem (c : ascii) : Py.lower_ascii (Py.lower_ascii c) = Py.lower_ascii c.
Proof. destruct c as [[] [] [] [] [] [] [] []]; reflexivity. Qed.

Lemma is_space_lower_ascii (c : ascii) : Py.is_space (Py.lower_ascii c) = Py.is_space c.
Proof. destruct c as [[] [] [] [] [] [] [] []]; reflexivity. Qed.

Lemma lower_idem (s : string) : Py.lower (Py.lower s) = Py.lower s.
Proof.
  induction s as [| c s IH]; cbn; [reflexivity |]. now rewrite lower_ascii_idem, IH.
Qed.

Lemma lower_of_list (l : list ascii) :
  Py.lower (string_of_list_ascii l) = string_of_list_ascii (map Py.lower_ascii l).
Proof. induction l as [| c l IH]; cbn; [reflexivity | now rewrite IH]. Qed.

Lemma split_aux_lower (s : string) :
  forall cur,
    Py.split_aux (Py.lower s) (map Py.lower_ascii cur) = map Py.lower (Py.split_aux s cur).
Proof.
  assert (F : forall cur acc,
             Py.flush (map Py.lower_ascii cur) (map Py.lower acc)
             = map Py.lower (Py.flush cur acc)).
  { intros [| c cur] acc; [reflexivity |].
    cbn [Py.flush map]. now rewrite lower_of_list, map_rev. }
  induction s as [| c s IH]; intro cur; cbn [Py.lower Py.split_aux].
  - apply (F cur []).
  - rewrite is_space_lower_ascii. destruct (Py.is_space c).
    + rewrite <- F. f_equal. exact (IH []).
    + apply (IH (c :: cur)).
Qed.

Lemma split_lower_length (s : string) :
  List.length (Py.split (Py.lower s)) = List.length (Py.split s).
Proof.
  unfold Py.split. pose proof (split_aux_lower s []) as H. cbn [map] in H.
  rewrite H. apply length_map.
Qed.

Lemma truthy_lower (s : string) : Py.truthy (Py.lower s) = Py.truthy s.
Proof. destruct s; reflexivity. Qed.

Lemma substring_lower (s : string) :
  forall a n, substring a n (Py.lower s) = Py.lower (substring a n s).
Proof.
  induction s as [| c s IH]; intros a n.
  - destruct a, n; reflexivity.
  - destruct a as [| a]; cbn [Py.lower substring].
    + destruct n as [| n]; [reflexivity |]. cbn [Py.lower]. now rewrite IH.
    + apply IH.
Qed.

Lemma text_length_lower (text : string) :
  Ambiguity.text_length_or_50 (Py.lower text) = Ambiguity.text_length_or_50 text.
Proof.
  unfold Ambiguity.text_length_or_50. now rewrite truthy_lower, split_lower_length.
Qed.

Lemma context_window_lower (token : Ambiguity.Token) (text : string) (w : nat) :
  Py.lower (Ambiguity._get_context_window token (Py.lower text) w)
  = Py.lower (Ambiguity._get_context_window token text w).
Proof.
  unfold Ambiguity._get_context_window, Py.slice.
  now rewrite lower_length, substring_lower, lower_idem.
Qed.

Lemma should_flag_lower (token : Ambiguity.Token) (doc : Ambiguity.Doc) (text : string) :
  Ambiguity.should_flag token doc (Py.lower text) = Ambiguity.should_flag token doc text.
Proof.
  unfold Ambiguity.should_flag, Ambiguity._has_performance_context,
    Ambiguity._has_security_context, Ambiguity._has_usability_context,
    Ambiguity._has_reliability_context, Ambiguity._has_scalability_context,
    Ambiguity._has_quantitative_context.
  rewrite !context_window_lower.
  unfold Py.slice. now rewrite lower_length, substring_lower, lower_idem.
Qed.

Lemma find_char_position_lower (text token_text : string) (token_idx : nat) :
  Ambiguity._find_char_position (Py.lower text) token_text token_idx
  = Ambiguity._find_char_position text token_text token_idx.
Proof. unfold Ambiguity._find_char_position. now rewrite lower_idem. Qed.

Lemma detect_ambiguities_lower (nlp : string -> Ambiguity.Doc) (text : string) :
  Ambiguity.detect_ambiguities nlp (Py.lower text) = Ambiguity.detect_ambiguities nlp text.
Proof.
  unfold Ambiguity.detect_ambiguities. rewrite lower_idem.
  set (doc := nlp (Py.lower text)).
  f_equal; [| f_equal; [| f_equal]].
  - unfold Ambiguity._detect_subjective_terms. apply flat_map_ext. intro token.
    rewrite should_flag_lower. unfold Ambiguity.subjective_issue.
    now rewrite find_char_position_lower.
  - unfold Ambiguity._detect_weak_modality. apply flat_map_ext. intro token.
    unfold Ambiguity.weak_modality_issue. now rewrite find_char_position_lower.
  - unfold Ambiguity._detect_undefined_references. apply flat_map_ext. intro token.
    unfold Ambiguity.undefined_reference_issue. now rewrite find_char_position_lower.
  - unfold Ambiguity._detect_non_testable_statements. now rewrite lower_idem.
Qed.

Lemma detect_assumptions_lower (nlp : string -> Ambiguity.Doc) (text : string) :
  Assumption.detect_assumptions nlp (Py.lower text) = Assumption.detect_assumptions nlp text.
Proof.
  unfold Assumption.detect_assumptions, Assumption._detect_action_assumptions,
    Assumption._detect_environment_assumptions, Assumption._detect_context_assumptions.
  now rewrite !lower_idem.
Qed.

Lemma ambiguity_score_lower (issues : list Ambiguity.AmbiguityIssue) (text : string) :
  Ambiguity.calculate_ambiguity_score issues (Py.lower text)
  = Ambiguity.calculate_ambiguity_score issues text.
Proof.
  unfold Ambiguity.calculate_ambiguity_score, Ambiguity._calculate_component_score,
    Ambiguity._calculate_confidence.
  now rewrite !text_length_lower, split_lower_length.
Qed.

(** The whole analysis of an ASCII text is that of its lower-cased form:
    the result of [analyze_text] does not depend on the case of the
    letters.  On an ASCII text lower-casing keeps every offset, so the
    token offsets, taken in the lower-cased text, point at the same
    places of the text itself. *)
Theorem analysis_ignores_case (pow : Q -> Q -> Q) (nlp : string -> Ambiguity.Doc)
    (text : string) :
  Py.isascii text = true ->
  Scorer.analyze_text pow nlp (Py.lower text) = Scorer.analyze_text pow nlp text.
Proof.
  intros _. unfold Scorer.analyze_text.
  rewrite detect_ambiguities_lower, detect_assumptions_lower, ambiguity_score_lower.
  unfold Scorer.calculate_readiness_score. rewrite text_length_lower. reflexivity.
Qed.

Lemma analysis_ignores_case_witness :
  let text := "The System SHOULD be Fast and handle errors Properly" in
  Py.isascii text = true
  /\ Py.lower text <> text
  /\ Scorer.analyze_text Concrete.pow_floor Concrete.whitespace_nlp (Py.lower text)
     = Scorer.analyze_text Concrete.pow_floor Concrete.whitespace_nlp text.
Proof.
  intro text.
  assert (H : Py.isascii text = true) by reflexivity.
  split; [exact H |]. split; [discriminate |].
  apply (analysis_ignores_case Concrete.pow_floor Concrete.whitespace_nlp text H).
Defined.

(** ** Every detected issue is scored *)

Lemma detected_issue_types (nlp : string -> Ambiguity.Doc) (text : string)
    (i : Ambiguity.AmbiguityIssue) :
  In i (Ambiguity.detect_ambiguities nlp text) ->
  In (Ambiguity.issue_type i)
     ["Subjective term"; "Weak modality"; "Undefined reference"; "Non-testable statement"].
Proof.
  unfold Ambiguity.detect_ambiguities. intro H.
  apply in_app_or in H. destruct H as [H | H];
    [| apply in_app_or in H; destruct H as [H | H];
       [| apply in_app_or in H; destruct H as [H | H]]].
  - apply in_flat_map in H. destruct H as [token [_ H]].
    destruct (_ && _) in H; [| destruct H]. destruct H as [<- | []]. cbn. tauto.
  - apply in_flat_map in H. destruct H as [token [_ H]].
    destruct (Py.mem _ _) in H; [| destruct H]. destruct H as [<- | []]. cbn. tauto.
  - apply in_flat_map in H. destruct H as [token [_ H]].
    destruct (_ && _) in H; [| destruct H]. destruct H as [<- | []]. cbn. tauto.
  - unfold Ambiguity._detect_non_testable_statements in H.
    apply in_flat_map in H. destruct H as [pattern [_ H]].
    apply in_map_iff in H. destruct H as [span [<- _]]. cbn. tauto.
Qed.

(** No issue found by [detect_ambiguities] is ignored by the score: each
    one is in at least one of the three lists that are scored. *)
Theorem every_detected_ambiguity_is_scored (nlp : string -> Ambiguity.Doc) (text : string)
    (i : Ambiguity.AmbiguityIssue) :
  In i (Ambiguity.detect_ambiguities nlp text) ->
  let '(lexical_issues, testability_issues, reference_issues) :=
    Ambiguity.categorize (Ambiguity.detect_ambiguities nlp text) in
  In i lexical_issues \/ In i testability_issues \/ In i reference_issues.
Proof.
  intro H. pose proof (detected_issue_types nlp text i H) as T.
  rewrite categorize_parts.
  unfold Reference.lexical_part, Reference.testability_part, Reference.references_part,
    Reference.of_kind.
  rewrite !filter_In. cbn [In] in T.
  destruct T as [T | [T | [T | [T | []]]]]; rewrite <- T; cbn; tauto.
Qed.

Lemma every_detected_ambiguity_witness :
  let issues := Ambiguity.detect_ambiguities Concrete.whitespace_nlp
                  "The system should log errors" in
  Forall (fun i => In i (Reference.lexical_part issues)
                   \/ In i (Reference.testability_part issues)
                   \/ In i (Reference.references_part issues)) issues.
Proof.
  intro issues. apply Forall_forall. intros i Hi.
  pose proof (every_detected_ambiguity_is_scored Concrete.whitespace_nlp
                "The system should log errors" i Hi) as H.
  rewrite categorize_parts in H. exact H.
Defined.

Lemma category_counts (issues : list Assumption.AssumptionIssue) :
  Forall (fun i => In (Assumption.category i) ["Environment"; "Data"; "State"]) issues ->
  (List.length (Assumption.of_category "Environment" issues)
   + List.length (Assumption.of_category "Data" issues)
   + List.length (Assumption.of_category "State" issues)
   = List.length issues)%nat.
Proof.
  unfold Assumption.of_category.
  induction 1 as [| i issues Hi _ IH]; [reflexivity |].
  cbn [filter List.length In] in *.
  destruct Hi as [E | [E | [E | []]]]; rewrite <- E; cbn; lia.
Qed.

(** The three component counts reported for the assumptions of a text add
    up to the number of issues found: no detected assumption falls
    outside the three categories. *)
Theorem assumption_counts_add_up (nlp : string -> Ambiguity.Doc) (text : string) :
  let issues := Assumption.detect_assumptions nlp text in
  let components :=
    Assumption.components (Assumption.calculate_assumption_score issues text) in
  (Assumption.count (Assumption.environment components)
   + Assumption.count (Assumption.data components)
   + Assumption.count (Assumption.state components)
   = List.length issues)%nat.
Proof.
  intros issues components. subst components.
  assert (F : Forall (fun i => In (Assumption.category i) ["Environment"; "Data"; "State"])
                issues).
  { apply Forall_forall. intros i Hi.
    unfold issues in Hi. revert Hi. clear. unfold Assumption.detect_assumptions. intro H.
    apply in_app_or in H. destruct H as [H | H]; [| apply in_app_or in H; destruct H as [H | H]].
    - apply action_issue_origin in H.
      destruct H as [action [keys [key [He [Hk [_ [_ ->]]]]]]].
      apply mem_In.
      apply (action_keys_forall
               (fun key => Py.mem (Assumption._get_assumption_category key)
                             ["Environment"; "Data"; "State"]))
        with (action := action) (keys := keys);
        [vm_compute; reflexivity | assumption | assumption].
    - apply environment_issue_shape in H. subst i. cbn. tauto.
    - apply context_issue_shape in H. destruct H as [-> | ->]; cbn; tauto. }
  pose proof (category_counts issues F) as C.
  unfold Assumption.calculate_assumption_score.
  destruct issues as [| i l] eqn:E; [reflexivity |].
  rewrite <- E in *.
  destruct (Assumption._calculate_component_with_strength
              (Assumption.of_category "Environment" issues) "Environment").
  destruct (Assumption._calculate_component_with_strength
              (Assumption.of_category "Data" issues) "Data").
  destruct (Assumption._calculate_component_with_strength
              (Assumption.of_category "State" issues) "State").
  cbn [Assumption.components Assumption.environment Assumption.data Assumption.state
       Assumption.count].
  exact C.
Qed.

(** ** One more assumption never lowers a component *)

Lemma assumption_component_parts (issues : list Assumption.AssumptionIssue)
    (component_type : string) :
  issues <> [] ->
  fst (Assumption._calculate_component_with_strength issues component_type)
  = Assumption.normalize
      (inject_Z (Assumption.base_with_bonus issues component_type)
       + Assumption.density_score component_type (List.length issues)).
Proof.
  intro H. destruct issues as [| i issues]; [contradiction |]. reflexivity.
Qed.

Lemma assumption_fold_add (component_type : string) (issues : list Assumption.AssumptionIssue) :
  forall a : Z,
    fold_left (fun (acc : Z) issue => (acc + Assumption.issue_weight issue component_type)%Z)
      issues a
    = (a + fold_left
             (fun (acc : Z) issue => (acc + Assumption.issue_weight issue component_type)%Z)
             issues 0%Z)%Z.
Proof.
  induction issues as [| i issues IH]; intro a; cbn [fold_left]; [lia |].
  rewrite IH, (IH (0 + Assumption.issue_weight i component_type)%Z). lia.
Qed.

Lemma base_with_bonus_insert (component_type : string)
    (l1 l2 : list Assumption.AssumptionIssue) (i : Assumption.AssumptionIssue) :
  (Assumption.base_with_bonus (l1 ++ l2) component_type
   <= Assumption.base_with_bonus (l1 ++ i :: l2) component_type)%Z.
Proof.
  unfold Assumption.base_with_bonus.
  rewrite !fold_left_app. cbn [fold_left].
  rewrite (assumption_fold_add component_type l2 (_ + _)%Z),
    (assumption_fold_add component_type l2 (fold_left _ l1 0%Z)).
  pose proof (assumption_weight_nonneg i component_type) as W.
  rewrite !length_app. cbn [List.length].
  destruct (1 <? List.length l1 + List.length l2)%nat eqn:E1;
    [apply Nat.ltb_lt in E1 | apply Nat.ltb_ge in E1];
    (destruct (1 <? List.length l1 + S (List.length l2))%nat eqn:E2;
     [apply Nat.ltb_lt in E2 | apply Nat.ltb_ge in E2]); lia.
Qed.

Lemma density_score_monotone (component_type : string) (n : nat) :
  0 <= Assumption.density_score component_type n
  /\ Assumption.density_score component_type n
     <= Assumption.density_score component_type (S n).
Proof.
  unfold Assumption.density_score.
  assert (M : 0 < Py.of_nat (Nat.max 50 5)) by reflexivity.
  pose proof (ratio_spec (Py.of_nat n) _ M) as R.
  pose proof (ratio_spec (Py.of_nat (S n)) _ M) as R'.
  pose proof (of_nat_nonneg n) as Hn. pose proof (of_nat_S n) as HS.
  set (N := Py.of_nat n) in *. set (N' := Py.of_nat (S n)) in *.
  set (x := N / Py.of_nat (Nat.max 50 5)) in *.
  set (x' := N' / Py.of_nat (Nat.max 50 5)) in *.
  change (Py.of_nat (Nat.max 50 5)) with 50 in R, R'.
  clearbody x x' N N'.
  destruct (String.eqb component_type "State");
    [| destruct (String.eqb component_type "Environment")];
    match goal with
    | |- 0 <= Py.min ?c ?a /\ Py.min ?c ?a <= Py.min ?c ?b =>
        destruct (min_cases c a) as [[? ->] | [? ->]];
        destruct (min_cases c b) as [[? ->] | [? ->]]; split; lra
    end.
Qed.

Lemma assumption_normalize_monotone (x y : Q) :
  x <= y -> Assumption.normalize x <= Assumption.normalize y.
Proof.
  intro H. unfold Assumption.normalize.
  destruct (Py.gt x 70) eqn:Ex; [apply gt_true in Ex | apply gt_false in Ex];
    (destruct (Py.gt y 70) eqn:Ey; [apply gt_true in Ey | apply gt_false in Ey]);
    match goal with
    | |- Py.min ?c ?a <= Py.min ?c ?b =>
        destruct (min_cases c a) as [[? ->] | [? ->]];
        destruct (min_cases c b) as [[? ->] | [? ->]]; lra
    end.
Qed.

(** Adding an assumption issue to a component, anywhere in its list,
    never lowers the score of the component. *)
Theorem assumption_component_monotone (component_type : string)
    (l1 l2 : list Assumption.AssumptionIssue) (i : Assumption.AssumptionIssue) :
  fst (Assumption._calculate_component_with_strength (l1 ++ l2) component_type)
  <= fst (Assumption._calculate_component_with_strength (l1 ++ i :: l2) component_type).
Proof.
  destruct (l1 ++ l2)%list as [| j l] eqn:E.
  - destruct (assumption_component_in_range (l1 ++ i :: l2) component_type) as [H _].
    change (fst (Assumption._calculate_component_with_strength [] component_type)) with 0.0.
    lra.
  - rewrite <- E.
    rewrite (assumption_component_parts (l1 ++ l2)) by (rewrite E; discriminate).
    rewrite (assumption_component_parts (l1 ++ i :: l2))
      by (intro K; apply app_eq_nil in K; destruct K as [_ K]; discriminate K).
    apply assumption_normalize_monotone.
    pose proof (base_with_bonus_insert component_type l1 l2 i) as B.
    rewrite Zle_Qle in B.
    replace (List.length (l1 ++ i :: l2)) with (S (List.length (l1 ++ l2)))
      by (rewrite !length_app; cbn; lia).
    destruct (density_score_monotone component_type (List.length (l1 ++ l2))) as [_ D].
    set (b := inject_Z (Assumption.base_with_bonus (l1 ++ l2) component_type)) in *.
    set (b' := inject_Z (Assumption.base_with_bonus (l1 ++ i :: l2) component_type)) in *.
    clearbody b b'. lra.
Qed.

(** ** Character offsets of the detected issues *)




(** ** The readiness score of a negative score *)



